(** * Stepper motor driver (xdrv_23_stepper.ino): shallow embedding

    The repository holds three revisions of the driver:
    - [sonoff/xdrv_23_stepper.ino]: Timer1 interrupt, 32-bit positions,
      scheme chosen by a [switch]                     (module [Isr]);
    - [unnamed/part_000]: Timer1 interrupt, 16-bit positions, scheme table
      with [SelectScheme], position kept in [Settings] (module [Tbl]);
    - [unnamed/part_001]: polling from [FUNC_LOOP] with [StepperTick]
                                                       (module [Poll]).
    The scheme tables, [StepperSet] and the C library calls are common to
    the three and are embedded once. *)

From Stdlib Require Import ZArith List Bool String Ascii Lia.
Import ListNotations.
Local Open Scope Z_scope.

(* ------------------------------------------------------------------ *)
(** ** Fixed-width integers (ESP8266: int and long are 32 bits wide)   *)
(* ------------------------------------------------------------------ *)

Definition wrap_unsigned (w x : Z) : Z := x mod 2 ^ w.
Definition wrap_signed (w x : Z) : Z := (x + 2 ^ (w - 1)) mod 2 ^ w - 2 ^ (w - 1).

Definition to_int8 := wrap_signed 8.
Definition to_int16 := wrap_signed 16.
Definition to_int32 := wrap_signed 32.
Definition to_uint8 := wrap_unsigned 8.
Definition to_uint16 := wrap_unsigned 16.
Definition to_uint32 := wrap_unsigned 32.

Definition is_int8 (x : Z) : Prop := -128 <= x <= 127.
Definition is_int16 (x : Z) : Prop := -32768 <= x <= 32767.
Definition is_int32 (x : Z) : Prop := -2147483648 <= x <= 2147483647.
Definition is_uint8 (x : Z) : Prop := 0 <= x <= 255.
Definition is_uint16 (x : Z) : Prop := 0 <= x <= 65535.
Definition is_uint32 (x : Z) : Prop := 0 <= x <= 4294967295.

Definition LONG_MAX : Z := 2147483647.
Definition LONG_MIN : Z := -2147483648.

(* ------------------------------------------------------------------ *)
(** ** The C library calls the command handlers make                   *)
(* ------------------------------------------------------------------ *)

Definition code (c : ascii) : Z := Z.of_N (N_of_ascii c).

(** [isspace] in the C locale: space, \t, \n, \v, \f, \r. *)
Definition isspace (c : ascii) : bool :=
  (code c =? 32) || ((9 <=? code c) && (code c <=? 13)).

(** [buffer[buffer_length] = '\0']: the handlers see the mailbox data as a
    C string, which ends at the first NUL byte. *)
Fixpoint c_str (data : string) : string :=
  match data with
  | EmptyString => EmptyString
  | String c r => if code c =? 0 then EmptyString else String c (c_str r)
  end.

Fixpoint in_set (c : ascii) (set : string) : bool :=
  match set with
  | EmptyString => false
  | String d r => Ascii.eqb c d || in_set c r
  end.

(** [s + strspn(s, delim)] *)
Fixpoint skip_delims (delim s : string) : string :=
  match s with
  | EmptyString => EmptyString
  | String c r => if in_set c delim then skip_delims delim r else s
  end.

(** The token that starts at [s] and the text after the delimiter that
    ends it (the empty string when the token runs to the end). *)
Fixpoint split_token (delim s : string) : string * string :=
  match s with
  | EmptyString => (EmptyString, EmptyString)
  | String c r =>
      if in_set c delim then (EmptyString, r)
      else let (t, rest) := split_token delim r in (String c t, rest)
  end.

(** [strtok_r(str, delim, &saveptr)]: [str = None] is the [nullptr] call that
    continues from [saveptr]. The result is the token, [None] for NULL,
    and the new value of [saveptr]. *)
Definition strtok_r (str : option string) (delim saveptr : string)
  : option string * string :=
  let s := match str with Some s => s | None => saveptr end in
  match skip_delims delim s with
  | EmptyString => (None, EmptyString)
  | String c r =>
      let (t, rest) := split_token delim (String c r) in (Some t, rest)
  end.

(** The loop [for (; *str && isspace( *str ); ++str) ;]. *)
Fixpoint skip_isspace (str : string) : string :=
  match str with
  | EmptyString => EmptyString
  | String c r => if isspace c then skip_isspace r else str
  end.

Definition digit_of (c : ascii) : option Z :=
  let n := code c in
  if (48 <=? n) && (n <=? 57) then Some (n - 48)
  else if (97 <=? n) && (n <=? 122) then Some (n - 87)
  else if (65 <=? n) && (n <=? 90) then Some (n - 55)
  else None.

(** Longest run of digits of [base] at the start of [s]: the number read
    (continuing from [acc]) and how many characters it takes. *)
Fixpoint digits (base : Z) (s : string) (acc : Z) : Z * nat :=
  match s with
  | EmptyString => (acc, 0%nat)
  | String c r =>
      match digit_of c with
      | Some d =>
          if d <? base
          then let (v, n) := digits base r (acc * base + d) in (v, S n)
          else (acc, 0%nat)
      | None => (acc, 0%nat)
      end
  end.

Fixpoint count_isspace (s : string) : nat :=
  match s with
  | EmptyString => 0%nat
  | String c r => if isspace c then S (count_isspace r) else 0%nat
  end.

Definition clamp_long (v : Z) : Z :=
  if v <? LONG_MIN then LONG_MIN else if LONG_MAX <? v then LONG_MAX else v.

Definition is_x (c : ascii) : bool := (code c =? 120) || (code c =? 88).
Definition is_hex (c : ascii) : bool :=
  match digit_of c with Some d => d <? 16 | None => false end.

(** [strtol(nptr, &p, 0)] as ISO C describes it: white space, an optional
    sign, then hexadecimal after 0x, octal after 0, decimal otherwise; the
    value saturates at the limits of [long]. The second component is
    [p - nptr]; it is 0 exactly when no conversion was made ([p == nptr]). *)
Definition strtol (nptr : string) : Z * nat :=
  let s1 := skip_isspace nptr in
  let '(neg, sg, s2) :=
    match s1 with
    | String c r =>
        if code c =? 45 then (true, 1%nat, r)
        else if code c =? 43 then (false, 1%nat, r)
        else (false, 0%nat, s1)
    | EmptyString => (false, 0%nat, s1)
    end in
  let '(base, pre, s3) :=
    match s2 with
    | String c0 (String x (String h r)) =>
        if (code c0 =? 48) && is_x x && is_hex h then (16, 2%nat, String h r)
        else if code c0 =? 48 then (8, 0%nat, s2) else (10, 0%nat, s2)
    | String c0 _ => if code c0 =? 48 then (8, 0%nat, s2) else (10, 0%nat, s2)
    | EmptyString => (10, 0%nat, s2)
    end in
  let (v, n) := digits base s3 0 in
  match n with
  | O => (0, 0%nat)
  | S _ => (clamp_long (if neg then - v else v),
            (count_isspace nptr + sg + pre + n)%nat)
  end.

Definition nonempty (str : string) : bool :=
  match str with EmptyString => false | String _ _ => true end.

(* ------------------------------------------------------------------ *)
(** ** Phases, schemes and the output driver                           *)
(* ------------------------------------------------------------------ *)

(** The six one-bit fields of [struct stepper_state_t], in declaration
    order. *)
Record stepper_state_t : Type := mk_phase {
  A_pos : bool;
  B_pos : bool;
  A_neg : bool;
  B_neg : bool;
  A_ena : bool;
  B_ena : bool
}.

Definition bit (n : Z) : bool := negb (n =? 0).

Definition ph (a b c d e f : Z) : stepper_state_t :=
  mk_phase (bit a) (bit b) (bit c) (bit d) (bit e) (bit f).

Definition all_off : stepper_state_t := ph 0 0 0 0 0 0.

Definition rotating_wave : list stepper_state_t :=
  [ ph 1 0 0 0 1 1;
    ph 0 1 0 0 1 1;
    ph 0 0 1 0 1 1;
    ph 0 0 0 1 1 1 ].

Definition full_step : list stepper_state_t :=
  [ ph 1 0 0 1 1 1;
    ph 1 1 0 0 1 1;
    ph 0 1 1 0 1 1;
    ph 0 0 1 1 1 1 ].

Definition half_step : list stepper_state_t :=
  [ ph 1 0 0 1 1 1;
    ph 1 0 0 0 1 1;
    ph 1 1 0 0 1 1;
    ph 0 1 0 0 1 1;
    ph 0 1 1 0 1 1;
    ph 0 0 1 0 1 1;
    ph 0 0 1 1 1 1;
    ph 0 0 0 1 1 1 ].

Definition half_step_inhibit : list stepper_state_t :=
  [ ph 1 0 0 1 1 1;
    ph 1 0 0 1 1 0;
    ph 1 1 0 0 1 1;
    ph 1 1 0 0 0 1;
    ph 0 1 1 0 1 1;
    ph 0 1 1 0 1 0;
    ph 0 0 1 1 1 1;
    ph 0 0 1 1 0 1 ].

(** The output lines; each stands for the GPIO held in the global
    [stepper_<line>_pin]. *)
Inductive line : Type :=
  | A_ena_pin | A_pos_pin | A_neg_pin
  | B_ena_pin | B_pos_pin | B_neg_pin.

Definition is_enable (l : line) : bool :=
  match l with A_ena_pin | B_ena_pin => true | _ => false end.

(** One [digitalWrite(pin, level)]. *)
Record write : Type := digitalWrite { w_line : line; w_level : bool }.

(** [StepperSet]: the writes it makes, first to last. *)
Definition StepperSet (have_enable_pins : bool) (st : stepper_state_t)
  : list write :=
  (if have_enable_pins
   then (if negb (A_ena st) then [digitalWrite A_ena_pin false] else [])
        ++ (if negb (B_ena st) then [digitalWrite B_ena_pin false] else [])
   else [])
  ++ [ digitalWrite A_pos_pin (A_pos st);
       digitalWrite A_neg_pin (A_neg st);
       digitalWrite B_pos_pin (B_pos st);
       digitalWrite B_neg_pin (B_neg st) ]
  ++ (if have_enable_pins
      then (if A_ena st then [digitalWrite A_ena_pin true] else [])
           ++ (if B_ena st then [digitalWrite B_ena_pin true] else [])
      else []).

(** [scheme[i]] for a C array of the given contents; [None] is a read
    outside the array. *)
Definition phase_at (scheme : list stepper_state_t) (i : Z)
  : option stepper_state_t :=
  if i <? 0 then None else nth_error scheme (Z.to_nat i).

(** Timer1 registers, declared in esp8266_peri.h of the board support
    package: [TEIE1] is the mask of the Timer1 edge-interrupt enable bit in
    [TEIE], and [T1L] is the load register, of which part_000 notes that
    "T1L has 23 bits". *)
Definition TEIE1 : Z := 2.
Definition T1L_bits : Z := 23.

(** [ESP8266_CLOCK] is 80 MHz: part_000 notes next to the reload that "the
    multiplier is 80". *)
Definition ESP8266_CLOCK : Z := 80000000.

(** [(TEIE & TEIE1) != 0] *)
Definition timer_enabled (teie : Z) : bool := negb (Z.land teie TEIE1 =? 0).

(** [TEIE &= ~TEIE1] and [TEIE |= TEIE1] on the 32-bit register. *)
Definition teie_disable (teie : Z) : Z := Z.land teie (Z.lnot TEIE1).
Definition teie_enable (teie : Z) : Z := Z.lor teie TEIE1.

(** Pin table entries of 99 and above mean "not configured". *)
Record pin_table : Type := mk_pins {
  GPIO_STEPPER_A_ENA : Z;
  GPIO_STEPPER_A_POS : Z;
  GPIO_STEPPER_A_NEG : Z;
  GPIO_STEPPER_B_ENA : Z;
  GPIO_STEPPER_B_POS : Z;
  GPIO_STEPPER_B_NEG : Z
}.

Inductive response : Type := Done | Error.

(* ------------------------------------------------------------------ *)
(** ** Command handlers as state transformers with early return        *)
(* ------------------------------------------------------------------ *)

Section Cmd.
Context {St : Type}.

(** A handler step either leaves the handler ([Exit]: the response sent
    and the globals at that point) or goes on with a value. *)
Inductive outcome (A : Type) : Type :=
  | Exit (r : response) (s : St)
  | Next (a : A) (s : St).

Definition cmd (A : Type) : Type := St -> outcome A.

Definition ret {A} (a : A) : cmd A := fun s => Next A a s.
Definition bind {A B} (m : cmd A) (k : A -> cmd B) : cmd B :=
  fun s => match m s with
           | Exit _ r s' => Exit B r s'
           | Next _ a s' => k a s'
           end.
Definition modify (f : St -> St) : cmd unit := fun s => Next unit tt (f s).
(** [ResponseCmndChar(D_ERROR); return;] *)
Definition fail {A} : cmd A := fun s => Exit A Error s.

(** Run a handler whose normal end is [ResponseCmndDone()]. *)
Definition handler (m : cmd unit) (s : St) : response * St :=
  match m s with
  | Exit _ r s' => (r, s')
  | Next _ _ s' => (Done, s')
  end.
End Cmd.

Arguments Exit {St A} r s.
Arguments Next {St A} a s.

Declare Scope cmd_scope.
Delimit Scope cmd_scope with cmd.
Notation "x <- m ;; k" := (bind m (fun x => k))
  (at level 61, m at next level, right associativity) : cmd_scope.
Notation "m ;; k" := (bind m (fun _ => k))
  (at level 61, right associativity) : cmd_scope.

(* ------------------------------------------------------------------ *)
(** ** sonoff/xdrv_23_stepper.ino                                      *)
(* ------------------------------------------------------------------ *)

Module Isr.
Local Open Scope string_scope.
Local Open Scope Z_scope.
Local Open Scope cmd_scope.

(** The globals of the file and the hardware they drive. *)
Record state : Type := mk_state {
  tick_us : Z;                           (* unsigned long *)
  enabled : bool;
  have_enable_pins : bool;
  current_scheme : list stepper_state_t; (* the table pointed to *)
  max_phase : Z;                         (* int8_t *)
  current_phase : Z;                     (* int8_t *)
  current_pos : Z;                       (* int32_t *)
  wanted_pos : Z;                        (* int32_t *)
  idle : bool;
  lock_when_done : bool;
  TEIE : Z;
  T1L : Z;
  T1I : Z;
  pins : list write                      (* writes made so far, oldest first *)
}.

Definition set_tick_us v s :=
  mk_state v (enabled s) (have_enable_pins s) (current_scheme s) (max_phase s)
    (current_phase s) (current_pos s) (wanted_pos s) (idle s)
    (lock_when_done s) (TEIE s) (T1L s) (T1I s) (pins s).
Definition set_scheme tbl n s :=
  mk_state (tick_us s) (enabled s) (have_enable_pins s) tbl n
    (current_phase s) (current_pos s) (wanted_pos s) (idle s)
    (lock_when_done s) (TEIE s) (T1L s) (T1I s) (pins s).
Definition set_current_phase v s :=
  mk_state (tick_us s) (enabled s) (have_enable_pins s) (current_scheme s)
    (max_phase s) v (current_pos s) (wanted_pos s) (idle s)
    (lock_when_done s) (TEIE s) (T1L s) (T1I s) (pins s).
Definition set_current_pos v s :=
  mk_state (tick_us s) (enabled s) (have_enable_pins s) (current_scheme s)
    (max_phase s) (current_phase s) v (wanted_pos s) (idle s)
    (lock_when_done s) (TEIE s) (T1L s) (T1I s) (pins s).
Definition set_wanted_pos v s :=
  mk_state (tick_us s) (enabled s) (have_enable_pins s) (current_scheme s)
    (max_phase s) (current_phase s) (current_pos s) v (idle s)
    (lock_when_done s) (TEIE s) (T1L s) (T1I s) (pins s).
Definition set_idle v s :=
  mk_state (tick_us s) (enabled s) (have_enable_pins s) (current_scheme s)
    (max_phase s) (current_phase s) (current_pos s) (wanted_pos s) v
    (lock_when_done s) (TEIE s) (T1L s) (T1I s) (pins s).
Definition set_lock_when_done v s :=
  mk_state (tick_us s) (enabled s) (have_enable_pins s) (current_scheme s)
    (max_phase s) (current_phase s) (current_pos s) (wanted_pos s) (idle s)
    v (TEIE s) (T1L s) (T1I s) (pins s).
Definition set_TEIE v s :=
  mk_state (tick_us s) (enabled s) (have_enable_pins s) (current_scheme s)
    (max_phase s) (current_phase s) (current_pos s) (wanted_pos s) (idle s)
    (lock_when_done s) v (T1L s) (T1I s) (pins s).
Definition set_T1L v s :=
  mk_state (tick_us s) (enabled s) (have_enable_pins s) (current_scheme s)
    (max_phase s) (current_phase s) (current_pos s) (wanted_pos s) (idle s)
    (lock_when_done s) (TEIE s) v (T1I s) (pins s).
Definition set_T1I v s :=
  mk_state (tick_us s) (enabled s) (have_enable_pins s) (current_scheme s)
    (max_phase s) (current_phase s) (current_pos s) (wanted_pos s) (idle s)
    (lock_when_done s) (TEIE s) (T1L s) v (pins s).
(** A call [StepperSet(st)] in state [s]. *)
Definition apply_phase st s :=
  mk_state (tick_us s) (enabled s) (have_enable_pins s) (current_scheme s)
    (max_phase s) (current_phase s) (current_pos s) (wanted_pos s) (idle s)
    (lock_when_done s) (TEIE s) (T1L s) (T1I s)
    (pins s ++ StepperSet (have_enable_pins s) st)%list.

Definition StepperCmndCalibrate (s : state) : response * state :=
  let s := set_current_pos 0 s in
  let s := set_wanted_pos 0 s in
  let s := set_idle true s in
  let s := apply_phase all_off s in
  (Done, s).

(** The [switch (scheme_code)] of [StepperCmndSpeed]. *)
Definition scheme_switch (scheme_code : Z) : @cmd state unit :=
  match scheme_code with
  | 0 => modify (set_scheme rotating_wave 4)
  | 1 => modify (set_scheme full_step 4)
  | 2 => modify (set_scheme half_step 8)
  | 3 => fun s =>
           if have_enable_pins s
           then modify (set_scheme half_step_inhibit 8) s
           else modify (set_scheme half_step 8) s
  | _ => fail
  end.

Definition StepperCmndSpeed (data : string) : state -> response * state :=
  handler (
    let buffer := c_str data in
    (* parse tick_us *)
    match strtok_r (Some buffer) "," "" with
    | (None, _) => ret tt
    | (Some str, tok) =>
        let str := skip_isspace str in
        (if nonempty str then
           let (v, n) := strtol str in
           modify (set_tick_us (to_uint32 v)) ;;
           if (n =? 0)%nat then fail else ret tt
         else ret tt) ;;
        (* parse scheme_code *)
        match strtok_r None "," tok with
        | (None, _) => ret tt
        | (Some str, _) =>
            let str := skip_isspace str in
            if nonempty str then
              let (scheme_code, n) := strtol str in
              if (n =? 0)%nat then fail
              else scheme_switch scheme_code ;; modify (set_current_phase 0)
            else ret tt
        end
    end).

Section Commands.
(** [GetStateNumber] (support code outside this file) maps a state word
    such as ON or OFF to its number. *)
Variable GetStateNumber : string -> Z.

(** The block that reads a 0/1 argument, used for [is_absolute] and for
    [lock_when_done]. *)
Definition parse_flag (str : string) : @cmd state bool :=
  let (v, n) := strtol str in
  let i := if (n =? 0)%nat then GetStateNumber str else v in
  if negb (i =? 0) && negb (i =? 1) then fail else ret (negb (i =? 0)).

(** The [do { ... } while (0)] of [StepperCmndStep]: it yields the locals
    [req_pos] and [is_absolute] and writes [lock_when_done]. *)
Definition parse_step (buffer : string) : @cmd state (Z * bool) :=
  match strtok_r (Some buffer) "," "" with
  | (None, _) => ret (0, true)
  | (Some str, tok) =>
      let str := skip_isspace str in
      req_pos <- (if nonempty str then
                    let (v, n) := strtol str in
                    if (n =? 0)%nat then fail else ret (to_int32 v)
                  else ret 0) ;;
      match strtok_r None "," tok with
      | (None, _) => ret (req_pos, true)
      | (Some str, tok) =>
          let str := skip_isspace str in
          is_absolute <- (if nonempty str then parse_flag str
                          else ret true) ;;
          match strtok_r None "," tok with
          | (None, _) => ret (req_pos, is_absolute)
          | (Some str, _) =>
              let str := skip_isspace str in
              (if nonempty str then
                 b <- parse_flag str ;; modify (set_lock_when_done b)
               else ret tt) ;;
              ret (req_pos, is_absolute)
          end
      end
  end.

(** [current_pos + req_pos] is an [int32_t] sum whose overflow C leaves
    undefined; it is taken to wrap around, as the compiler for this target
    makes it. *)
Definition StepperCmndStep (data : string) : state -> response * state :=
  handler (
    modify (set_lock_when_done false) ;;
    args <- parse_step (c_str data) ;;
    let (req_pos, is_absolute) := args : Z * bool in
    (* process the arguments *)
    modify (fun s => set_wanted_pos
              (if is_absolute then req_pos
               else to_int32 (current_pos s + req_pos)) s) ;;
    modify (fun s => set_TEIE (teie_disable (TEIE s)) s) ;;
    modify (fun s => if idle s then set_T1L 1 (set_idle false s) else s) ;;
    modify (fun s => set_TEIE (teie_enable (TEIE s)) s)).

(** [None]: the handler read [current_scheme] outside the table. *)
Definition stepper_timer_isr (s : state) : option state :=
  let s := set_TEIE (teie_disable (TEIE s)) s in
  let s := set_T1I 0 s in
  let moved :=
    if wanted_pos s <? current_pos s then
      let s := set_current_phase (to_int8 (current_phase s - 1)) s in
      let s := if current_phase s <? 0
               then set_current_phase (to_int8 (max_phase s - 1)) s
               else s in
      let s := set_current_pos (to_int32 (current_pos s - 1)) s in
      option_map (fun st => apply_phase st s)
                 (phase_at (current_scheme s) (current_phase s))
    else if current_pos s <? wanted_pos s then
      let s := set_current_phase (to_int8 (current_phase s + 1)) s in
      let s := if max_phase s <=? current_phase s
               then set_current_phase 0 s
               else s in
      let s := set_current_pos (to_int32 (current_pos s + 1)) s in
      option_map (fun st => apply_phase st s)
                 (phase_at (current_scheme s) (current_phase s))
    else
      option_map (fun st => set_idle true (apply_phase st s))
                 (if lock_when_done s
                  then phase_at (current_scheme s) (current_phase s)
                  else Some all_off) in
  option_map
    (fun s =>
       if negb (idle s)
       then set_TEIE (teie_enable (TEIE s))
              (set_T1L (to_uint32 (ESP8266_CLOCK / 1000000 * tick_us s)) s)
       else s)
    moved.

Definition configured (p : Z) : bool := p <? 99.

(** [StepperInit]; [teie], [t1l] and [t1i] are the Timer1 registers as the
    boot code left them. The calls into the timer library touch only the
    control register and are not part of the state. *)
Definition StepperInit (pin : pin_table) (teie t1l t1i : Z) : state :=
  let en := configured (GPIO_STEPPER_A_POS pin)
            && configured (GPIO_STEPPER_A_NEG pin)
            && configured (GPIO_STEPPER_B_POS pin)
            && configured (GPIO_STEPPER_B_NEG pin) in
  let hep := en && configured (GPIO_STEPPER_A_ENA pin)
             && configured (GPIO_STEPPER_B_ENA pin) in
  let init_writes :=
    if en then
      ((if hep then [digitalWrite A_ena_pin false;
                     digitalWrite B_ena_pin false] else [])
       ++ [digitalWrite A_pos_pin false; digitalWrite A_neg_pin false;
           digitalWrite B_pos_pin false; digitalWrite B_neg_pin false])%list
    else [] in
  mk_state 2000 en hep half_step 8 0 0 0 true false
    (if en then teie_disable teie else teie) t1l t1i init_writes.

(** *** The handlers statement by statement

    [StepperInit] attaches [stepper_timer_isr] as the Timer1 NMI. Of the
    command handlers only [StepperCmndStep] masks it, and only around its
    last statements, so the interrupt handler can run between any two
    statements of a command handler. The definitions below give, for the
    data a handler is called with, the statements it executes that write a
    global or a pin, in program order; one assignment and one
    [digitalWrite] are each taken as indivisible. *)

Definition set_current_scheme tbl s :=
  mk_state (tick_us s) (enabled s) (have_enable_pins s) tbl (max_phase s)
    (current_phase s) (current_pos s) (wanted_pos s) (idle s)
    (lock_when_done s) (TEIE s) (T1L s) (T1I s) (pins s).
Definition set_max_phase n s :=
  mk_state (tick_us s) (enabled s) (have_enable_pins s) (current_scheme s) n
    (current_phase s) (current_pos s) (wanted_pos s) (idle s)
    (lock_when_done s) (TEIE s) (T1L s) (T1I s) (pins s).
(** One [digitalWrite]. *)
Definition write_pin (w : write) s :=
  mk_state (tick_us s) (enabled s) (have_enable_pins s) (current_scheme s)
    (max_phase s) (current_phase s) (current_pos s) (wanted_pos s) (idle s)
    (lock_when_done s) (TEIE s) (T1L s) (T1I s) (pins s ++ [w])%list.

(** The statements of [StepperSet(st)]; a write that the tests on
    [have_enable_pins] and on the enable bit skip leaves the state as it
    is. *)
Definition StepperSet_stmts (st : stepper_state_t) : list (state -> state) :=
  [ (fun s => if have_enable_pins s && negb (A_ena st)
              then write_pin (digitalWrite A_ena_pin false) s else s);
    (fun s => if have_enable_pins s && negb (B_ena st)
              then write_pin (digitalWrite B_ena_pin false) s else s);
    write_pin (digitalWrite A_pos_pin (A_pos st));
    write_pin (digitalWrite A_neg_pin (A_neg st));
    write_pin (digitalWrite B_pos_pin (B_pos st));
    write_pin (digitalWrite B_neg_pin (B_neg st));
    (fun s => if have_enable_pins s && A_ena st
              then write_pin (digitalWrite A_ena_pin true) s else s);
    (fun s => if have_enable_pins s && B_ena st
              then write_pin (digitalWrite B_ena_pin true) s else s) ].

Definition StepperCmndCalibrate_stmts : list (state -> state) :=
  ([ set_current_pos 0; set_wanted_pos 0; set_idle true ]
   ++ StepperSet_stmts all_off)%list.

(** The two assignments of a [case] of the [switch (scheme_code)]; [None]
    is the [default] case, which returns. *)
Definition scheme_switch_stmts (scheme_code : Z)
  : option (list (state -> state)) :=
  match scheme_code with
  | 0 => Some [ set_current_scheme rotating_wave; set_max_phase 4 ]
  | 1 => Some [ set_current_scheme full_step; set_max_phase 4 ]
  | 2 => Some [ set_current_scheme half_step; set_max_phase 8 ]
  | 3 => Some [ (fun s => set_current_scheme
                            (if have_enable_pins s then half_step_inhibit
                             else half_step) s);
                set_max_phase 8 ]
  | _ => None
  end.

Definition StepperCmndSpeed_stmts (data : string) : list (state -> state) :=
  match strtok_r (Some (c_str data)) "," "" with
  | (None, _) => []
  | (Some str, tok) =>
      let str := skip_isspace str in
      (* parse tick_us: the assignment, and whether the handler returns *)
      let '(first, returns) :=
        if nonempty str then
          let (v, n) := strtol str in
          ([ set_tick_us (to_uint32 v) ], (n =? 0)%nat)
        else ([], false) in
      if returns then first
      else
        (first ++
         (* parse scheme_code *)
         match strtok_r None "," tok with
         | (None, _) => []
         | (Some str, _) =>
             let str := skip_isspace str in
             if nonempty str then
               let (scheme_code, n) := strtol str in
               if (n =? 0)%nat then []
               else match scheme_switch_stmts scheme_code with
                    | Some two => two ++ [ set_current_phase 0 ]
                    | None => []
                    end
             else []
         end)%list
  end.

(** The value of a 0/1 argument; [None] where the handler answers Error
    and returns. *)
Definition read_flag (str : string) : option bool :=
  let (v, n) := strtol str in
  let i := if (n =? 0)%nat then GetStateNumber str else v in
  if negb (i =? 0) && negb (i =? 1) then None else Some (negb (i =? 0)).

(** The statements after the [do { ... } while (0)] of [StepperCmndStep].
    The interrupt is masked from the second to the last of them, so the
    [if (idle)] block is given as one. *)
Definition start_move_stmts (req_pos : Z) (is_absolute : bool)
  : list (state -> state) :=
  [ (fun s => set_wanted_pos
                (if is_absolute then req_pos
                 else to_int32 (current_pos s + req_pos)) s);
    (fun s => set_TEIE (teie_disable (TEIE s)) s);
    (fun s => if idle s then set_T1L 1 (set_idle false s) else s);
    (fun s => set_TEIE (teie_enable (TEIE s)) s) ].

Definition StepperCmndStep_stmts (data : string) : list (state -> state) :=
  set_lock_when_done false ::
  match strtok_r (Some (c_str data)) "," "" with
  | (None, _) => start_move_stmts 0 true
  | (Some str, tok) =>
      let str := skip_isspace str in
      match (if nonempty str then
               let (v, n) := strtol str in
               if (n =? 0)%nat then None else Some (to_int32 v)
             else Some 0) with
      | None => []
      | Some req_pos =>
          match strtok_r None "," tok with
          | (None, _) => start_move_stmts req_pos true
          | (Some str, tok) =>
              let str := skip_isspace str in
              match (if nonempty str then read_flag str else Some true) with
              | None => []
              | Some is_absolute =>
                  match strtok_r None "," tok with
                  | (None, _) => start_move_stmts req_pos is_absolute
                  | (Some str, _) =>
                      let str := skip_isspace str in
                      if nonempty str then
                        match read_flag str with
                        | None => []
                        | Some b =>
                            set_lock_when_done b
                            :: start_move_stmts req_pos is_absolute
                        end
                      else start_move_stmts req_pos is_absolute
                  end
              end
          end
      end
  end.

(** The Timer1 interrupt arriving in state [s]: the handler runs unless
    the interrupt is masked in [TEIE]. *)
Definition interrupt (s : state) : option state :=
  if timer_enabled (TEIE s) then stepper_timer_isr s else Some s.

Fixpoint interrupts (n : nat) (s : state) : option state :=
  match n with
  | O => Some s
  | S n' =>
      match interrupt s with
      | Some s' => interrupts n' s'
      | None => None
      end
  end.

(** A handler into which the interrupt cuts: [irq] gives, statement by
    statement, how many interrupts arrive just before the statement (none
    once the list has ended). *)
Fixpoint preempted (stmts : list (state -> state)) (irq : list nat)
    (s : state) : option state :=
  match stmts with
  | [] => Some s
  | f :: rest =>
      match interrupts (hd 0%nat irq) s with
      | Some s' => preempted rest (tl irq) (f s')
      | None => None
      end
  end.

(** What can happen to the driver once it is initialised: a command
    handler that runs to its end with no interrupt in between ([Calibrate],
    [Speed], [Step]); a run of the interrupt handler between two commands
    ([Tick]); or a command handler into which the interrupt cuts as [irq]
    says ([CalibrateCut], [SpeedCut], [StepCut]). *)
Inductive event : Type :=
  | Calibrate
  | Speed (data : string)
  | Step (data : string)
  | Tick
  | CalibrateCut (irq : list nat)
  | SpeedCut (data : string) (irq : list nat)
  | StepCut (data : string) (irq : list nat).

Definition step (e : event) (s : state) : option state :=
  match e with
  | Calibrate => Some (snd (StepperCmndCalibrate s))
  | Speed data => Some (snd (StepperCmndSpeed data s))
  | Step data => Some (snd (StepperCmndStep data s))
  | Tick => stepper_timer_isr s
  | CalibrateCut irq => preempted StepperCmndCalibrate_stmts irq s
  | SpeedCut data irq => preempted (StepperCmndSpeed_stmts data) irq s
  | StepCut data irq => preempted (StepperCmndStep_stmts data) irq s
  end.

(** The events in which no interrupt cuts into a command handler. *)
Definition uncut (e : event) : bool :=
  match e with
  | Calibrate | Speed _ | Step _ | Tick => true
  | _ => false
  end.

Fixpoint run (es : list event) (s : state) : option state :=
  match es with
  | [] => Some s
  | e :: es' =>
      match step e s with
      | Some s' => run es' s'
      | None => None
      end
  end.
End Commands.

Definition set_pins v s :=
  mk_state (tick_us s) (enabled s) (have_enable_pins s) (current_scheme s)
    (max_phase s) (current_phase s) (current_pos s) (wanted_pos s) (idle s)
    (lock_when_done s) (TEIE s) (T1L s) (T1I s) v.

(** The functions that [Xdrv23] tells apart. For [FUNC_COMMAND],
    [DecodeCommand] (support code) looks the command of the mailbox up in
    [kStepperCommands], calls the handler at that place of [StepperCommand]
    and returns true, or returns false when the name is not in the list;
    [command] is that place, [None] for a name that is not there. *)
Inductive xdrv_function : Type :=
  | FUNC_INIT (pin : pin_table)
  | FUNC_COMMAND (command : option nat) (data : string)
  | FUNC_OTHER.

Section Dispatch.
Variable GetStateNumber : string -> Z.

(** The table [StepperCommand]. *)
Definition StepperCommand : list (string -> state -> response * state) :=
  [ (fun _ => StepperCmndCalibrate);
    StepperCmndSpeed;
    StepperCmndStep GetStateNumber ].

Definition DecodeCommand (command : option nat) (data : string) (s : state)
  : bool * state :=
  match command with
  | Some k =>
      match nth_error StepperCommand k with
      | Some h => (true, snd (h data s))
      | None => (false, s)
      end
  | None => (false, s)
  end.

Definition Xdrv23 (function : xdrv_function) (s : state) : bool * state :=
  match function with
  | FUNC_INIT pin =>
      let s0 := StepperInit pin (TEIE s) (T1L s) (T1I s) in
      (false, set_pins (pins s ++ pins s0)%list s0)
  | FUNC_COMMAND command data =>
      if enabled s then DecodeCommand command data s else (false, s)
  | FUNC_OTHER => (false, s)
  end.

(** After startup: a call of [Xdrv23], or the Timer1 interrupt, whose
    handler [StepperInit] attaches only when the module is enabled (the
    firmware sends FUNC_INIT once, at boot, so the handler is attached
    exactly when [enabled] holds). *)
Inductive sys_event : Type :=
  | Call (function : xdrv_function)
  | TimerIrq.

Definition sys_step (e : sys_event) (s : state) : option state :=
  match e with
  | Call function => Some (snd (Xdrv23 function s))
  | TimerIrq => if enabled s then stepper_timer_isr s else Some s
  end.

Fixpoint sys_run (es : list sys_event) (s : state) : option state :=
  match es with
  | [] => Some s
  | e :: es' =>
      match sys_step e s with
      | Some s' => sys_run es' s'
      | None => None
      end
  end.
End Dispatch.

End Isr.

(* ------------------------------------------------------------------ *)
(** ** unnamed/part_000: scheme table, 16-bit position kept in Settings *)
(* ------------------------------------------------------------------ *)

Module Tbl.
Local Open Scope string_scope.
Local Open Scope Z_scope.
Local Open Scope cmd_scope.

Record stepper_control_scheme_t : Type := mk_scheme {
  phases : list stepper_state_t;
  max_phase : Z                          (* uint8_t *)
}.

(** [sizeof(table) / sizeof(stepper_state_t)] *)
Definition table_size (tbl : list stepper_state_t) : Z :=
  Z.of_nat (List.length tbl).

Definition control_schemes : list stepper_control_scheme_t :=
  [ mk_scheme rotating_wave (table_size rotating_wave);
    mk_scheme full_step (table_size full_step);
    mk_scheme half_step (table_size half_step);
    mk_scheme half_step_inhibit (table_size half_step_inhibit) ].

Definition SCHEMES_MAX : Z := Z.of_nat (List.length control_schemes).

(** The slots of the global [Settings] that the driver reuses. *)
Record settings : Type := mk_settings {
  pwm_frequency : Z;
  pwm_value_0 : Z;
  pwm_value_1 : Z;
  pwm_value_5 : Z
}.

Record state : Type := mk_state {
  enabled : bool;
  have_enable_pins : bool;
  idle : bool;
  current_phase : Z;                     (* int8_t *)
  wanted_pos : Z;                        (* int16_t *)
  lock_when_done : bool;
  tick_us : Z;                           (* uint16_t *)
  current_scheme_index : Z;              (* uint8_t *)
  current_scheme : stepper_control_scheme_t;
  current_pos : Z;                       (* int16_t *)
  Settings : settings;
  TEIE : Z;
  T1L : Z;
  T1I : Z;
  pins : list write
}.

Definition set_idle v s :=
  mk_state (enabled s) (have_enable_pins s) v (current_phase s)
    (wanted_pos s) (lock_when_done s) (tick_us s) (current_scheme_index s)
    (current_scheme s) (current_pos s) (Settings s) (TEIE s) (T1L s) (T1I s)
    (pins s).
Definition set_current_phase v s :=
  mk_state (enabled s) (have_enable_pins s) (idle s) v
    (wanted_pos s) (lock_when_done s) (tick_us s) (current_scheme_index s)
    (current_scheme s) (current_pos s) (Settings s) (TEIE s) (T1L s) (T1I s)
    (pins s).
Definition set_wanted_pos v s :=
  mk_state (enabled s) (have_enable_pins s) (idle s) (current_phase s)
    v (lock_when_done s) (tick_us s) (current_scheme_index s)
    (current_scheme s) (current_pos s) (Settings s) (TEIE s) (T1L s) (T1I s)
    (pins s).
Definition set_lock_when_done v s :=
  mk_state (enabled s) (have_enable_pins s) (idle s) (current_phase s)
    (wanted_pos s) v (tick_us s) (current_scheme_index s)
    (current_scheme s) (current_pos s) (Settings s) (TEIE s) (T1L s) (T1I s)
    (pins s).
Definition set_tick_us v s :=
  mk_state (enabled s) (have_enable_pins s) (idle s) (current_phase s)
    (wanted_pos s) (lock_when_done s) v (current_scheme_index s)
    (current_scheme s) (current_pos s) (Settings s) (TEIE s) (T1L s) (T1I s)
    (pins s).
Definition set_current_scheme_index v s :=
  mk_state (enabled s) (have_enable_pins s) (idle s) (current_phase s)
    (wanted_pos s) (lock_when_done s) (tick_us s) v
    (current_scheme s) (current_pos s) (Settings s) (TEIE s) (T1L s) (T1I s)
    (pins s).
Definition set_current_scheme v s :=
  mk_state (enabled s) (have_enable_pins s) (idle s) (current_phase s)
    (wanted_pos s) (lock_when_done s) (tick_us s) (current_scheme_index s)
    v (current_pos s) (Settings s) (TEIE s) (T1L s) (T1I s)
    (pins s).
Definition set_current_pos v s :=
  mk_state (enabled s) (have_enable_pins s) (idle s) (current_phase s)
    (wanted_pos s) (lock_when_done s) (tick_us s) (current_scheme_index s)
    (current_scheme s) v (Settings s) (TEIE s) (T1L s) (T1I s)
    (pins s).
Definition set_Settings v s :=
  mk_state (enabled s) (have_enable_pins s) (idle s) (current_phase s)
    (wanted_pos s) (lock_when_done s) (tick_us s) (current_scheme_index s)
    (current_scheme s) (current_pos s) v (TEIE s) (T1L s) (T1I s)
    (pins s).
Definition set_TEIE v s :=
  mk_state (enabled s) (have_enable_pins s) (idle s) (current_phase s)
    (wanted_pos s) (lock_when_done s) (tick_us s) (current_scheme_index s)
    (current_scheme s) (current_pos s) (Settings s) v (T1L s) (T1I s)
    (pins s).
Definition set_T1L v s :=
  mk_state (enabled s) (have_enable_pins s) (idle s) (current_phase s)
    (wanted_pos s) (lock_when_done s) (tick_us s) (current_scheme_index s)
    (current_scheme s) (current_pos s) (Settings s) (TEIE s) v (T1I s)
    (pins s).
Definition set_T1I v s :=
  mk_state (enabled s) (have_enable_pins s) (idle s) (current_phase s)
    (wanted_pos s) (lock_when_done s) (tick_us s) (current_scheme_index s)
    (current_scheme s) (current_pos s) (Settings s) (TEIE s) (T1L s) v
    (pins s).
(** A call [StepperSet(st)] in state [s]. *)
Definition apply_phase st s :=
  mk_state (enabled s) (have_enable_pins s) (idle s) (current_phase s)
    (wanted_pos s) (lock_when_done s) (tick_us s) (current_scheme_index s)
    (current_scheme s) (current_pos s) (Settings s) (TEIE s) (T1L s) (T1I s)
    (pins s ++ StepperSet (have_enable_pins s) st)%list.

Definition set_pwm_frequency v (t : settings) :=
  mk_settings v (pwm_value_0 t) (pwm_value_1 t) (pwm_value_5 t).
Definition set_pwm_value_0 v (t : settings) :=
  mk_settings (pwm_frequency t) v (pwm_value_1 t) (pwm_value_5 t).
Definition set_pwm_value_1 v (t : settings) :=
  mk_settings (pwm_frequency t) (pwm_value_0 t) v (pwm_value_5 t).
Definition set_pwm_value_5 v (t : settings) :=
  mk_settings (pwm_frequency t) (pwm_value_0 t) (pwm_value_1 t) v.

Definition SaveCurrentPos (s : state) : state :=
  let s := set_Settings
             (set_pwm_value_0 (to_uint8 (Z.land (current_pos s) 255))
                (Settings s)) s in
  set_Settings
    (set_pwm_value_1 (to_uint8 (Z.land (Z.shiftr (current_pos s) 8) 255))
       (Settings s)) s.

(** The position that [StepperInit] reads back from the two saved bytes. *)
Definition saved_pos (t : settings) : Z :=
  to_int16 (pwm_value_0 t + Z.shiftl (to_uint16 (pwm_value_1 t)) 8).

(** [None]: the handler read [current_scheme.phases] outside the table. *)
Definition stepper_timer_isr (s : state) : option state :=
  let s := set_TEIE (teie_disable (TEIE s)) s in
  let s := set_T1I 0 s in
  let moved :=
    if wanted_pos s <? current_pos s then
      let s := set_current_phase (to_int8 (current_phase s - 1)) s in
      let s := if current_phase s <? 0
               then set_current_phase
                      (to_int8 (max_phase (current_scheme s) - 1)) s
               else s in
      let s := set_current_pos (to_int16 (current_pos s - 1)) s in
      option_map (fun st => apply_phase st s)
                 (phase_at (phases (current_scheme s)) (current_phase s))
    else if current_pos s <? wanted_pos s then
      let s := set_current_phase (to_int8 (current_phase s + 1)) s in
      let s := if max_phase (current_scheme s) <=? current_phase s
               then set_current_phase 0 s
               else s in
      let s := set_current_pos (to_int16 (current_pos s + 1)) s in
      option_map (fun st => apply_phase st s)
                 (phase_at (phases (current_scheme s)) (current_phase s))
    else
      option_map (fun st => set_idle true (SaveCurrentPos (apply_phase st s)))
                 (if lock_when_done s
                  then phase_at (phases (current_scheme s)) (current_phase s)
                  else Some all_off) in
  option_map
    (fun s =>
       if negb (idle s)
       then set_TEIE (teie_enable (TEIE s))
              (set_T1L (to_uint32 (ESP8266_CLOCK / 1000000 * tick_us s)) s)
       else s)
    moved.

Definition null_scheme : stepper_control_scheme_t := mk_scheme [] 0.

Definition SelectScheme (n : Z) (s : state) : bool * state :=
  if (n <? 0) || (SCHEMES_MAX <=? n) then (false, s)
  else if n =? current_scheme_index s then (true, s)
  else
    let s := set_TEIE (teie_disable (TEIE s)) s in
    let s := set_current_scheme_index (to_uint8 n) s in
    let s := set_wanted_pos (current_pos s) s in   (* stop moving *)
    let s := set_current_phase 0 s in
    let s := set_current_scheme
               (nth (Z.to_nat n) control_schemes null_scheme) s in
    let s := set_Settings
               (set_pwm_value_5 (current_scheme_index s) (Settings s)) s in
    (* the source has [TEIE |= ~TEIE1] here *)
    let s := if negb (idle s)
             then set_TEIE (to_uint32 (Z.lor (TEIE s) (Z.lnot TEIE1))) s
             else s in
    (true, s).

Definition StepperCmndCalibrate (s : state) : response * state :=
  let s := set_TEIE (teie_disable (TEIE s)) s in
  let s := set_T1L 0 s in
  let s := set_current_pos 0 s in
  let s := set_wanted_pos 0 s in
  let s := set_idle true s in
  let s := apply_phase all_off s in
  let s := SaveCurrentPos s in
  (Done, s).

Definition StepperCmndSpeed (data : string) : state -> response * state :=
  handler (
    let buffer := c_str data in
    (* parse tick_us *)
    match strtok_r (Some buffer) "," "" with
    | (None, _) => ret tt
    | (Some str, tok) =>
        let str := skip_isspace str in
        (if nonempty str then
           let (v, n) := strtol str in
           let req_tick_us := to_uint16 v in
           if (n =? 0)%nat then fail
           else modify (fun s =>
                  if negb (req_tick_us =? tick_us s)
                  then set_Settings
                         (set_pwm_frequency req_tick_us (Settings s))
                         (set_tick_us req_tick_us s)
                  else s)
         else ret tt) ;;
        (* parse scheme_code *)
        match strtok_r None "," tok with
        | (None, _) => ret tt
        | (Some str, _) =>
            let str := skip_isspace str in
            if nonempty str then
              let (scheme_code, n) := strtol str in
              if (n =? 0)%nat then fail
              else fun s =>
                     let (ok, s') := SelectScheme scheme_code s in
                     if ok then ret tt s' else fail s'
            else ret tt
        end
    end).

Section Commands.
Variable GetStateNumber : string -> Z.

Definition parse_flag (str : string) : @cmd state bool :=
  let (v, n) := strtol str in
  let i := if (n =? 0)%nat then GetStateNumber str else v in
  if negb (i =? 0) && negb (i =? 1) then fail else ret (negb (i =? 0)).

Definition parse_step (buffer : string) : @cmd state (Z * bool) :=
  match strtok_r (Some buffer) "," "" with
  | (None, _) => ret (0, true)
  | (Some str, tok) =>
      let str := skip_isspace str in
      req_pos <- (if nonempty str then
                    let (v, n) := strtol str in
                    if (n =? 0)%nat then fail else ret (to_int16 v)
                  else ret 0) ;;
      match strtok_r None "," tok with
      | (None, _) => ret (req_pos, true)
      | (Some str, tok) =>
          let str := skip_isspace str in
          is_absolute <- (if nonempty str then parse_flag str
                          else ret true) ;;
          match strtok_r None "," tok with
          | (None, _) => ret (req_pos, is_absolute)
          | (Some str, _) =>
              let str := skip_isspace str in
              (if nonempty str then
                 b <- parse_flag str ;; modify (set_lock_when_done b)
               else ret tt) ;;
              ret (req_pos, is_absolute)
          end
      end
  end.

Definition StepperCmndStep (data : string) : state -> response * state :=
  handler (
    modify (set_lock_when_done false) ;;
    args <- parse_step (c_str data) ;;
    let (req_pos, is_absolute) := args : Z * bool in
    modify (fun s => set_TEIE (teie_disable (TEIE s)) s) ;;
    modify (fun s => set_wanted_pos
              (if is_absolute then req_pos
               else to_int16 (current_pos s + req_pos)) s) ;;
    modify (fun s => if idle s then set_T1L 1 (set_idle false s) else s) ;;
    modify (fun s => set_TEIE (teie_enable (TEIE s)) s)).
End Commands.

Definition configured (p : Z) : bool := p <? 99.

(** [StepperInit]. [stored] is the content of [Settings] and [teie], [t1l],
    [t1i] the Timer1 registers at startup; the globals without an
    initialiser start as zero. *)
Definition StepperInit (pin : pin_table) (stored : settings)
    (teie t1l t1i : Z) : state :=
  let en := configured (GPIO_STEPPER_A_POS pin)
            && configured (GPIO_STEPPER_A_NEG pin)
            && configured (GPIO_STEPPER_B_POS pin)
            && configured (GPIO_STEPPER_B_NEG pin) in
  let hep := en && configured (GPIO_STEPPER_A_ENA pin)
             && configured (GPIO_STEPPER_B_ENA pin) in
  let init_writes :=
    if en then
      ((if hep then [digitalWrite A_ena_pin false;
                     digitalWrite B_ena_pin false] else [])
       ++ [digitalWrite A_pos_pin false; digitalWrite A_neg_pin false;
           digitalWrite B_pos_pin false; digitalWrite B_neg_pin false])%list
    else [] in
  let s := mk_state en hep true 0 0 false
             (to_uint16 (pwm_frequency stored)) 0 null_scheme
             (saved_pos stored) stored
             (if en then teie_disable teie else teie) t1l t1i init_writes in
  let (ok, s1) := SelectScheme (pwm_value_5 stored) s in
  if ok then s1 else snd (SelectScheme 1 s1).

Section Run.
Variable GetStateNumber : string -> Z.

(** What can happen to the driver once it is initialised; each handler is
    one step. *)
Inductive event : Type :=
  | Calibrate
  | Speed (data : string)
  | Step (data : string)
  | Tick.

Definition step (e : event) (s : state) : option state :=
  match e with
  | Calibrate => Some (snd (StepperCmndCalibrate s))
  | Speed data => Some (snd (StepperCmndSpeed data s))
  | Step data => Some (snd (StepperCmndStep GetStateNumber data s))
  | Tick => stepper_timer_isr s
  end.

Fixpoint run (es : list event) (s : state) : option state :=
  match es with
  | [] => Some s
  | e :: es' =>
      match step e s with
      | Some s' => run es' s'
      | None => None
      end
  end.
End Run.

(** The buttons that [Xdrv23] adds to the main web page on
    FUNC_WEB_ADD_MAIN_BUTTON, as (data of the step command, label): the
    links are "/cm?cmnd=step%2032767", "/cm?cmnd=step%200,1" and
    "/cm?cmnd=step%20-32768", in which "%20" stands for the space between
    the command name and its data. *)
Definition web_main_buttons : list (string * string) :=
  [ ("32767", "Up"); ("0,1", "Stop"); ("-32768", "Down") ].

End Tbl.

(* ------------------------------------------------------------------ *)
(** ** unnamed/part_001: the sequencer polled from FUNC_LOOP           *)
(* ------------------------------------------------------------------ *)

Module Poll.
Local Open Scope string_scope.
Local Open Scope Z_scope.
Local Open Scope cmd_scope.

Record state : Type := mk_state {
  next_tick_time : Z;                    (* unsigned long *)
  tick_ms : Z;                           (* unsigned long *)
  enabled : bool;
  have_enable_pins : bool;
  current_scheme : list stepper_state_t;
  max_phase : Z;                         (* int8_t *)
  current_phase : Z;                     (* int8_t *)
  current_pos : Z;                       (* int32_t *)
  wanted_pos : Z;                        (* int32_t *)
  idle : bool;
  lock_when_done : bool;
  pins : list write
}.

Definition set_current_phase v s :=
  mk_state (next_tick_time s) (tick_ms s) (enabled s) (have_enable_pins s)
    (current_scheme s) (max_phase s) v (current_pos s) (wanted_pos s)
    (idle s) (lock_when_done s) (pins s).
Definition set_current_pos v s :=
  mk_state (next_tick_time s) (tick_ms s) (enabled s) (have_enable_pins s)
    (current_scheme s) (max_phase s) (current_phase s) v (wanted_pos s)
    (idle s) (lock_when_done s) (pins s).
Definition set_wanted_pos v s :=
  mk_state (next_tick_time s) (tick_ms s) (enabled s) (have_enable_pins s)
    (current_scheme s) (max_phase s) (current_phase s) (current_pos s) v
    (idle s) (lock_when_done s) (pins s).
Definition set_idle v s :=
  mk_state (next_tick_time s) (tick_ms s) (enabled s) (have_enable_pins s)
    (current_scheme s) (max_phase s) (current_phase s) (current_pos s)
    (wanted_pos s) v (lock_when_done s) (pins s).
Definition set_lock_when_done v s :=
  mk_state (next_tick_time s) (tick_ms s) (enabled s) (have_enable_pins s)
    (current_scheme s) (max_phase s) (current_phase s) (current_pos s)
    (wanted_pos s) (idle s) v (pins s).
Definition apply_phase st s :=
  mk_state (next_tick_time s) (tick_ms s) (enabled s) (have_enable_pins s)
    (current_scheme s) (max_phase s) (current_phase s) (current_pos s)
    (wanted_pos s) (idle s) (lock_when_done s)
    (pins s ++ StepperSet (have_enable_pins s) st)%list.

(** [None]: the function read [current_scheme] outside the table. *)
Definition StepperTick (s : state) : option state :=
  if wanted_pos s <? current_pos s then
    let s := set_current_phase (to_int8 (current_phase s - 1)) s in
    let s := if current_phase s <? 0
             then set_current_phase (to_int8 (max_phase s - 1)) s
             else s in
    let s := set_current_pos (to_int32 (current_pos s - 1)) s in
    option_map (fun st => apply_phase st s)
               (phase_at (current_scheme s) (current_phase s))
  else if current_pos s <? wanted_pos s then
    let s := set_current_phase (to_int8 (current_phase s + 1)) s in
    let s := if max_phase s <=? current_phase s
             then set_current_phase 0 s
             else s in
    let s := set_current_pos (to_int32 (current_pos s + 1)) s in
    option_map (fun st => apply_phase st s)
               (phase_at (current_scheme s) (current_phase s))
  else
    option_map (fun st => set_idle true (apply_phase st s))
               (if lock_when_done s
                then phase_at (current_scheme s) (current_phase s)
                else Some all_off).

Section Commands.
Variable GetStateNumber : string -> Z.

Definition parse_flag (str : string) : @cmd state bool :=
  let (v, n) := strtol str in
  let i := if (n =? 0)%nat then GetStateNumber str else v in
  if negb (i =? 0) && negb (i =? 1) then fail else ret (negb (i =? 0)).

(** The arguments after the first token: [req_pos] from [str], then
    [is_relative] and [lock_when_done]. *)
Definition parse_step (str tok : string) : @cmd state (Z * bool) :=
  let str := skip_isspace str in
  req_pos <- (if nonempty str then
                let (v, n) := strtol str in
                if (n =? 0)%nat then fail else ret (to_int32 v)
              else ret 0) ;;
  match strtok_r None "," tok with
  | (None, _) => ret (req_pos, true)
  | (Some str, tok) =>
      let str := skip_isspace str in
      is_relative <- (if nonempty str then parse_flag str
                      else ret true) ;;
      match strtok_r None "," tok with
      | (None, _) => ret (req_pos, is_relative)
      | (Some str, _) =>
          let str := skip_isspace str in
          (if nonempty str then
             b <- parse_flag str ;; modify (set_lock_when_done b)
           else ret tt) ;;
          ret (req_pos, is_relative)
      end
  end.

(** The first [strtok_r] result is used without a NULL check: [None] is
    the read through the null pointer when the data holds no token. *)
Definition StepperCmndStep (data : string) (s : state)
  : option (response * state) :=
  match strtok_r (Some (c_str data)) "," "" with
  | (None, _) => None
  | (Some str, tok) =>
      Some (handler (
        modify (set_lock_when_done false) ;;
        args <- parse_step str tok ;;
        let (req_pos, is_relative) := args : Z * bool in
        modify (fun s => set_wanted_pos
                  (if is_relative then to_int32 (current_pos s + req_pos)
                   else req_pos) s) ;;
        modify (set_idle false)) s)
  end.
End Commands.

Definition configured (p : Z) : bool := p <? 99.

(** [StepperInit]; this revision tests the B enable pin where the others
    test the B positive pin. *)
Definition StepperInit (pin : pin_table) : state :=
  let en := configured (GPIO_STEPPER_A_POS pin)
            && configured (GPIO_STEPPER_A_NEG pin)
            && configured (GPIO_STEPPER_B_ENA pin)
            && configured (GPIO_STEPPER_B_NEG pin) in
  let hep := en && configured (GPIO_STEPPER_A_ENA pin)
             && configured (GPIO_STEPPER_B_ENA pin) in
  let init_writes :=
    if en then
      ((if hep then [digitalWrite A_ena_pin false;
                     digitalWrite B_ena_pin false] else [])
       ++ [digitalWrite A_pos_pin false; digitalWrite A_neg_pin false;
           digitalWrite B_pos_pin false; digitalWrite B_neg_pin false])%list
    else [] in
  mk_state 0 10 en hep half_step 8 0 0 0 true false init_writes.

Definition set_next_tick_time v s :=
  mk_state v (tick_ms s) (enabled s) (have_enable_pins s)
    (current_scheme s) (max_phase s) (current_phase s) (current_pos s)
    (wanted_pos s) (idle s) (lock_when_done s) (pins s).
Definition set_tick_ms v s :=
  mk_state (next_tick_time s) v (enabled s) (have_enable_pins s)
    (current_scheme s) (max_phase s) (current_phase s) (current_pos s)
    (wanted_pos s) (idle s) (lock_when_done s) (pins s).
Definition set_scheme tbl n s :=
  mk_state (next_tick_time s) (tick_ms s) (enabled s) (have_enable_pins s)
    tbl n (current_phase s) (current_pos s)
    (wanted_pos s) (idle s) (lock_when_done s) (pins s).
Definition set_pins v s :=
  mk_state (next_tick_time s) (tick_ms s) (enabled s) (have_enable_pins s)
    (current_scheme s) (max_phase s) (current_phase s) (current_pos s)
    (wanted_pos s) (idle s) (lock_when_done s) v.

Definition StepperCmndCalibrate (s : state) : response * state :=
  let s := set_current_pos 0 s in
  let s := set_wanted_pos 0 s in
  let s := set_idle true s in
  let s := apply_phase all_off s in
  (Done, s).

(** The [switch (scheme_code)] of [StepperCmndSpeed]. *)
Definition scheme_switch (scheme_code : Z) : @cmd state unit :=
  match scheme_code with
  | 0 => modify (set_scheme rotating_wave 4)
  | 1 => modify (set_scheme full_step 4)
  | 2 => modify (set_scheme half_step 8)
  | 3 => modify (set_scheme half_step_inhibit 8)
  | _ => fail
  end.

(** As in [StepperCmndStep], the first [strtok_r] result is used without a
    NULL check. *)
Definition StepperCmndSpeed (data : string) (s : state)
  : option (response * state) :=
  match strtok_r (Some (c_str data)) "," "" with
  | (None, _) => None
  | (Some str, tok) =>
      Some (handler (
        let str := skip_isspace str in
        (if nonempty str then
           let (v, n) := strtol str in
           modify (set_tick_ms (to_uint32 v)) ;;
           if (n =? 0)%nat then fail else ret tt
         else ret tt) ;;
        match strtok_r None "," tok with
        | (None, _) => ret tt
        | (Some str, _) =>
            let str := skip_isspace str in
            if nonempty str then
              let (scheme_code, n) := strtol str in
              if (n =? 0)%nat then fail
              else scheme_switch scheme_code ;; modify (set_current_phase 0)
            else ret tt
        end) s)
  end.

(** The functions that [Xdrv23] tells apart. [command] is the place of the
    mailbox command in [kStepperCommands] as [DecodeCommand] (support code)
    finds it, [None] for a name that is not there. For [FUNC_LOOP],
    [reached] is the answer of [TimeReached(next_tick_time)] and [next] the
    value that [SetNextTimeInterval] leaves in [next_tick_time] (both
    support code reading the clock). *)
Inductive xdrv_function : Type :=
  | FUNC_INIT (pin : pin_table)
  | FUNC_COMMAND (command : option nat) (data : string)
  | FUNC_LOOP (reached : bool) (next : Z)
  | FUNC_OTHER.

Section Dispatch.
Variable GetStateNumber : string -> Z.

(** The table [StepperCommand]. *)
Definition StepperCommand
  : list (string -> state -> option (response * state)) :=
  [ (fun _ s => Some (StepperCmndCalibrate s));
    StepperCmndSpeed;
    StepperCmndStep GetStateNumber ].

Definition DecodeCommand (command : option nat) (data : string) (s : state)
  : option (bool * state) :=
  match command with
  | Some k =>
      match nth_error StepperCommand k with
      | Some h => option_map (fun r => (true, snd r)) (h data s)
      | None => Some (false, s)
      end
  | None => Some (false, s)
  end.

(** [None]: a handler read through a null pointer, or [StepperTick] read
    outside the scheme table. *)
Definition Xdrv23 (function : xdrv_function) (s : state)
  : option (bool * state) :=
  match function with
  | FUNC_INIT pin =>
      let s0 := StepperInit pin in
      Some (false,
            set_next_tick_time (next_tick_time s)
              (set_pins (pins s ++ pins s0)%list s0))
  | _ =>
      if enabled s then
        match function with
        | FUNC_COMMAND command data => DecodeCommand command data s
        | FUNC_LOOP reached next =>
            if negb (idle s) && reached
            then option_map (fun s' => (false, s'))
                   (StepperTick (set_next_tick_time next s))
            else Some (false, s)
        | _ => Some (false, s)
        end
      else Some (false, s)
  end.

Fixpoint run (calls : list xdrv_function) (s : state) : option state :=
  match calls with
  | [] => Some s
  | f :: calls' =>
      match Xdrv23 f s with
      | Some (_, s') => run calls' s'
      | None => None
      end
  end.
End Dispatch.

End Poll.

(* ================================================================== *)
(** * Vocabulary of the properties                                      *)
(* ================================================================== *)

(** The four direction writes of a phase, in the order of the source. *)
Definition direction_writes (st : stepper_state_t) : list write :=
  [ digitalWrite A_pos_pin (A_pos st);
    digitalWrite A_neg_pin (A_neg st);
    digitalWrite B_pos_pin (B_pos st);
    digitalWrite B_neg_pin (B_neg st) ].

Definition enable_write (level : bool) (w : write) : Prop :=
  is_enable (w_line w) = true /\ w_level w = level.

(** A reload value fits the load register of Timer1. *)
Definition fits_T1L (v : Z) : Prop := 0 <= v < 2 ^ T1L_bits.

(** One step of the sequencer toward the target: from phase [cp] of [N] and
    position [pos] with target [want] to phase [cp'] and position [pos']. *)
Definition step_toward (N cp pos want cp' pos' : Z) : Prop :=
  (pos < want ->
     cp' = (if cp + 1 =? N then 0 else cp + 1)
     /\ cp' = (cp + 1) mod N /\ pos' = pos + 1)
  /\ (want < pos ->
     cp' = (if cp =? 0 then N - 1 else cp - 1)
     /\ cp' = (cp - 1) mod N /\ pos' = pos - 1).

(** ** The arguments a command string carries *)

(** One comma-separated argument: left out (no token, or a blank one),
    not readable, or given. *)
Inductive field (A : Type) : Type :=
  | Absent
  | Malformed
  | Given (a : A).
Arguments Absent {A}.
Arguments Malformed {A}.
Arguments Given {A} a.

Definition well_formed {A} (f : field A) : bool :=
  match f with Malformed => false | _ => true end.

Definition field_or {A} (default : A) (f : field A) : A :=
  match f with Given a => a | _ => default end.

(** A numeric argument: the [long] that [strtol] reads from the token. *)
Definition number_field (tok : option string) : field Z :=
  match tok with
  | None => Absent
  | Some str =>
      let str := skip_isspace str in
      if nonempty str then
        let (v, n) := strtol str in
        if (n =? 0)%nat then Malformed else Given v
      else Absent
  end.

(** A 0/1 argument, as a number or as a word for [GetStateNumber]. *)
Definition flag_field (GetStateNumber : string -> Z) (tok : option string)
  : field bool :=
  match tok with
  | None => Absent
  | Some str =>
      let str := skip_isspace str in
      if nonempty str then
        let (v, n) := strtol str in
        let i := if (n =? 0)%nat then GetStateNumber str else v in
        if negb (i =? 0) && negb (i =? 1) then Malformed
        else Given (negb (i =? 0))
      else Absent
  end.

Definition comma : string := ","%string.

(** The first, second and third token of the command data, each with the
    save pointer that [strtok_r] leaves. *)
Definition token1 (data : string) : option string * string :=
  strtok_r (Some (c_str data)) comma EmptyString.
Definition token2 (data : string) : option string * string :=
  strtok_r None comma (snd (token1 data)).
Definition token3 (data : string) : option string * string :=
  strtok_r None comma (snd (token2 data)).

(** Arguments of the speed command: tick period and scheme code. *)
Definition speed_args (data : string) : field Z * field Z :=
  (number_field (fst (token1 data)), number_field (fst (token2 data))).

(** Arguments of the step command: position and the two flags. *)
Definition step_args (GetStateNumber : string -> Z) (data : string)
  : field Z * field bool * field bool :=
  (number_field (fst (token1 data)),
   flag_field GetStateNumber (fst (token2 data)),
   flag_field GetStateNumber (fst (token3 data))).

(** The built-in schemes with their lengths. *)
Definition builtin_schemes : list (list stepper_state_t * Z) :=
  [ (rotating_wave, 4); (full_step, 4); (half_step, 8);
    (half_step_inhibit, 8) ].

(** ** xdrv_23_stepper.ino *)

(** The table that the [switch] of [StepperCmndSpeed] picks. *)
Definition isr_scheme_for (scheme_code : Z) (have_enable_pins : bool)
  : option (list stepper_state_t * Z) :=
  match scheme_code with
  | 0 => Some (rotating_wave, 4)
  | 1 => Some (full_step, 4)
  | 2 => Some (half_step, 8)
  | 3 => Some (if have_enable_pins then (half_step_inhibit, 8)
               else (half_step, 8))
  | _ => None
  end.

(** What [Isr.StepperCmndSpeed] does with the arguments it reads. *)
Definition isr_speed_effect (args : field Z * field Z) (s : Isr.state)
  : response * Isr.state :=
  let s1 := match fst args with
            | Absent => s
            | Malformed => Isr.set_tick_us 0 s
            | Given v => Isr.set_tick_us (to_uint32 v) s
            end in
  match fst args, snd args with
  | Malformed, _ => (Error, s1)
  | _, Absent => (Done, s1)
  | _, Malformed => (Error, s1)
  | _, Given c =>
      match isr_scheme_for c (Isr.have_enable_pins s) with
      | Some (tbl, n) =>
          (Done, Isr.set_current_phase 0 (Isr.set_scheme tbl n s1))
      | None => (Error, s1)
      end
  end.

(** The end of [Isr.StepperCmndStep], once the arguments are read. *)
Definition isr_start_move (wanted : Z) (s : Isr.state) : Isr.state :=
  let s := Isr.set_wanted_pos wanted s in
  let s := Isr.set_TEIE (teie_disable (Isr.TEIE s)) s in
  let s := if Isr.idle s then Isr.set_T1L 1 (Isr.set_idle false s) else s in
  Isr.set_TEIE (teie_enable (Isr.TEIE s)) s.

(** What [Isr.StepperCmndStep] does with the arguments it reads. *)
Definition isr_step_effect (args : field Z * field bool * field bool)
    (s : Isr.state) : response * Isr.state :=
  let '(p, a, l) := args in
  let s0 := Isr.set_lock_when_done false s in
  if well_formed p && well_formed a && well_formed l then
    let req_pos := to_int32 (field_or 0 p) in
    let is_absolute := field_or true a in
    let s1 := match l with
              | Given b => Isr.set_lock_when_done b s0
              | _ => s0
              end in
    (Done, isr_start_move
             (if is_absolute then req_pos
              else to_int32 (Isr.current_pos s + req_pos)) s1)
  else (Error, s0).

(** Entry and exit of [Isr.stepper_timer_isr]: the interrupt is masked and
    acknowledged; the timer is loaded and unmasked again unless the handler
    went idle. *)
Definition isr_enter (s : Isr.state) : Isr.state :=
  Isr.set_T1I 0 (Isr.set_TEIE (teie_disable (Isr.TEIE s)) s).
Definition isr_rearm (s : Isr.state) : Isr.state :=
  if Isr.idle s then s
  else Isr.set_TEIE (teie_enable (Isr.TEIE s))
         (Isr.set_T1L
            (to_uint32 (ESP8266_CLOCK / 1000000 * Isr.tick_us s)) s).

(** The invariant of the reachable states. *)
Record isr_inv (s : Isr.state) : Prop := mk_isr_inv {
  isr_scheme_ok : In (Isr.current_scheme s, Isr.max_phase s) builtin_schemes;
  isr_phase_ok : 0 <= Isr.current_phase s < Isr.max_phase s;
  isr_cur_ok : is_int32 (Isr.current_pos s);
  isr_want_ok : is_int32 (Isr.wanted_pos s);
  isr_settled : Isr.idle s = false \/ Isr.wanted_pos s = Isr.current_pos s;
  isr_armed : Isr.idle s = true \/ timer_enabled (Isr.TEIE s) = true
}.

(** The state is one that the C types and the scheme tables allow: the
    positions are 32-bit values and [current_phase] indexes the table of
    [max_phase] entries that [current_scheme] points to. *)
Definition isr_valid (s : Isr.state) : Prop :=
  is_int32 (Isr.current_pos s) /\ is_int32 (Isr.wanted_pos s)
  /\ 0 <= Isr.current_phase s < Isr.max_phase s
  /\ Isr.max_phase s = Z.of_nat (List.length (Isr.current_scheme s))
  /\ Isr.max_phase s <= 127.

(** Example: all six pins configured, and a move to position 5 requested
    after startup. *)
Definition all_pins : pin_table := mk_pins 12 13 14 15 4 5.
(** A [GetStateNumber] that knows no state word and answers -1. *)
Definition no_state_word (str : string) : Z := -1.
Definition isr_boot : Isr.state := Isr.StepperInit all_pins 0 0 0.
Definition isr_moving : Isr.state :=
  snd (Isr.StepperCmndStep no_state_word "5" isr_boot).
(** Example: a move to position 10 with lock on arrival is under way. *)
Definition isr_locking : Isr.state :=
  snd (Isr.StepperCmndStep no_state_word "10,1,1" isr_boot).
(** Example: the four direction pins configured, the enable pins not. *)
Definition no_enable_pins : pin_table := mk_pins 99 13 14 99 4 5.
Definition isr_boot_no_enable : Isr.state :=
  Isr.StepperInit no_enable_pins 0 0 0.

(** ** part_001 *)

Fixpoint poll_ticks (n : nat) (s : Poll.state) : option Poll.state :=
  match n with
  | O => Some s
  | S n' =>
      match Poll.StepperTick s with
      | Some s' => poll_ticks n' s'
      | None => None
      end
  end.

(** Example: startup, then the step command with the given data, then [n]
    ticks (the startup state again if that run breaks off). *)
Definition poll_boot : Poll.state := Poll.StepperInit all_pins.
Definition poll_after (data : string) (n : nat) : Poll.state :=
  match Poll.StepperCmndStep no_state_word data poll_boot with
  | Some (_, s) =>
      match poll_ticks n s with Some s' => s' | None => poll_boot end
  | None => poll_boot
  end.
(** A move to position 5 requested. *)
Definition poll_moving : Poll.state := poll_after "5" 0.
(** At rest at position 10: ten steps and the tick of arrival. *)
Definition poll_at_10 : Poll.state := poll_after "10" 11.

Definition has_token (data : string) : bool :=
  match fst (token1 data) with Some _ => true | None => false end.

Definition poll_valid (s : Poll.state) : Prop :=
  is_int32 (Poll.current_pos s) /\ is_int32 (Poll.wanted_pos s)
  /\ 0 <= Poll.current_phase s < Poll.max_phase s
  /\ Poll.max_phase s = Z.of_nat (List.length (Poll.current_scheme s))
  /\ Poll.max_phase s <= 127.

(** What [Poll.StepperCmndStep] does with the arguments it reads; it reads
    through a null pointer when the data holds no token at all. *)
Definition poll_step_effect (has_token : bool)
    (args : field Z * field bool * field bool)
    (s : Poll.state) : option (response * Poll.state) :=
  let '(p, a, l) := args in
  let s0 := Poll.set_lock_when_done false s in
  if has_token then
    Some (if well_formed p && well_formed a && well_formed l then
            let req_pos := to_int32 (field_or 0 p) in
            let is_relative := field_or true a in
            let s1 := match l with
                      | Given b => Poll.set_lock_when_done b s0
                      | _ => s0
                      end in
            (Done, Poll.set_idle false
                     (Poll.set_wanted_pos
                        (if is_relative
                         then to_int32 (Poll.current_pos s + req_pos)
                         else req_pos) s1))
          else (Error, s0))
  else None.

(** ** part_000 *)

(** What [Tbl.StepperCmndSpeed] does with the arguments it reads. *)
Definition tbl_speed_effect (args : field Z * field Z) (s : Tbl.state)
  : response * Tbl.state :=
  let s1 := match fst args with
            | Given v =>
                if negb (to_uint16 v =? Tbl.tick_us s)
                then Tbl.set_Settings
                       (Tbl.set_pwm_frequency (to_uint16 v) (Tbl.Settings s))
                       (Tbl.set_tick_us (to_uint16 v) s)
                else s
            | _ => s
            end in
  match fst args, snd args with
  | Malformed, _ => (Error, s1)
  | _, Absent => (Done, s1)
  | _, Malformed => (Error, s1)
  | _, Given c =>
      let (ok, s2) := Tbl.SelectScheme c s1 in
      (if ok then Done else Error, s2)
  end.

(** Example: startup with tick period 2000, position 0 and scheme 2 in
    [Settings], and a move to position 5 requested after it. *)
Definition tbl_stored : Tbl.settings := Tbl.mk_settings 2000 0 0 2.
Definition tbl_boot : Tbl.state := Tbl.StepperInit all_pins tbl_stored 0 0 0.
Definition tbl_moving : Tbl.state :=
  snd (Tbl.StepperCmndStep no_state_word "5" tbl_boot).
Definition tbl_boot_no_enable : Tbl.state :=
  Tbl.StepperInit no_enable_pins tbl_stored 0 0 0.

Definition tbl_enter (s : Tbl.state) : Tbl.state :=
  Tbl.set_T1I 0 (Tbl.set_TEIE (teie_disable (Tbl.TEIE s)) s).
Definition tbl_rearm (s : Tbl.state) : Tbl.state :=
  if Tbl.idle s then s
  else Tbl.set_TEIE (teie_enable (Tbl.TEIE s))
         (Tbl.set_T1L
            (to_uint32 (ESP8266_CLOCK / 1000000 * Tbl.tick_us s)) s).

Definition tbl_valid (s : Tbl.state) : Prop :=
  is_int16 (Tbl.current_pos s) /\ is_int16 (Tbl.wanted_pos s)
  /\ 0 <= Tbl.current_phase s < Tbl.max_phase (Tbl.current_scheme s)
  /\ Tbl.max_phase (Tbl.current_scheme s)
     = Z.of_nat (List.length (Tbl.phases (Tbl.current_scheme s)))
  /\ Tbl.max_phase (Tbl.current_scheme s) <= 127.

(** ** Further vocabulary: pin levels, runs of ticks, the dispatcher *)

Definition line_eqb (a b : line) : bool :=
  match a, b with
  | A_ena_pin, A_ena_pin | A_pos_pin, A_pos_pin | A_neg_pin, A_neg_pin
  | B_ena_pin, B_ena_pin | B_pos_pin, B_pos_pin | B_neg_pin, B_neg_pin => true
  | _, _ => false
  end.

(** The level of line [l] after the writes [ws], when it was [before]. *)
Fixpoint level_after (ws : list write) (l : line) (before : bool) : bool :=
  match ws with
  | [] => before
  | w :: rest =>
      level_after rest l (if line_eqb (w_line w) l then w_level w else before)
  end.

(** The bit of a phase that belongs to a line. *)
Definition phase_bit (st : stepper_state_t) (l : line) : bool :=
  match l with
  | A_ena_pin => A_ena st
  | A_pos_pin => A_pos st
  | A_neg_pin => A_neg st
  | B_ena_pin => B_ena st
  | B_pos_pin => B_pos st
  | B_neg_pin => B_neg st
  end.

(** [n] runs of the interrupt handler of xdrv_23_stepper.ino in a row. *)
Fixpoint isr_ticks (n : nat) (s : Isr.state) : option Isr.state :=
  match n with
  | O => Some s
  | S n' =>
      match Isr.stepper_timer_isr s with
      | Some s' => isr_ticks n' s'
      | None => None
      end
  end.

Definition isr_is_init (e : Isr.sys_event) : bool :=
  match e with Isr.Call (Isr.FUNC_INIT _) => true | _ => false end.

(** One of the four direction pins is not configured. *)
Definition direction_pin_missing (pin : pin_table) : Prop :=
  99 <= GPIO_STEPPER_A_POS pin \/ 99 <= GPIO_STEPPER_A_NEG pin
  \/ 99 <= GPIO_STEPPER_B_POS pin \/ 99 <= GPIO_STEPPER_B_NEG pin.

(** One of the two enable pins is not configured. *)
Definition enable_pin_missing (pin : pin_table) : Prop :=
  99 <= GPIO_STEPPER_A_ENA pin \/ 99 <= GPIO_STEPPER_B_ENA pin.

(** Writes that go to direction lines only. *)
Definition direction_only (ws : list write) : Prop :=
  Forall (fun w => is_enable (w_line w) = false) ws.

(** Examples of an arrival: the move to 10 with lock of [isr_locking]
    after its ten steps, the move to 5 of [isr_moving] after its five, and
    the same move to 10 with lock in part_000. *)
Definition isr_arriving : Isr.state :=
  match isr_ticks 10 isr_locking with Some s => s | None => isr_locking end.
Definition isr_arriving_unlocked : Isr.state :=
  match isr_ticks 5 isr_moving with Some s => s | None => isr_moving end.
Fixpoint tbl_ticks (n : nat) (s : Tbl.state) : option Tbl.state :=
  match n with
  | O => Some s
  | S n' =>
      match Tbl.stepper_timer_isr s with
      | Some s' => tbl_ticks n' s'
      | None => None
      end
  end.
Definition tbl_locking : Tbl.state :=
  snd (Tbl.StepperCmndStep no_state_word "10,1,1" tbl_boot).
Definition tbl_arriving : Tbl.state :=
  match tbl_ticks 10 tbl_locking with Some s => s | None => tbl_locking end.

(** A statement keeps a property of the state. *)
Definition isr_keeps (P : Isr.state -> Prop) (f : Isr.state -> Isr.state)
  : Prop := forall s, P s -> P (f s).

(** What holds of a driver of xdrv_23_stepper.ino that has no enable
    pins. *)
Record isr_bare (s : Isr.state) : Prop := mk_isr_bare {
  isr_bare_hep : Isr.have_enable_pins s = false;
  isr_bare_scheme : Isr.current_scheme s <> half_step_inhibit;
  isr_bare_pins : direction_only (Isr.pins s)
}.

(** The end of [Tbl.StepperCmndStep], once the arguments are read. *)
Definition tbl_start_move (wanted : Z) (s : Tbl.state) : Tbl.state :=
  let s := Tbl.set_TEIE (teie_disable (Tbl.TEIE s)) s in
  let s := Tbl.set_wanted_pos wanted s in
  let s := if Tbl.idle s then Tbl.set_T1L 1 (Tbl.set_idle false s) else s in
  Tbl.set_TEIE (teie_enable (Tbl.TEIE s)) s.

(** What [Tbl.StepperCmndStep] does with the arguments it reads. *)
Definition tbl_step_effect (args : field Z * field bool * field bool)
    (s : Tbl.state) : response * Tbl.state :=
  let '(p, a, l) := args in
  let s0 := Tbl.set_lock_when_done false s in
  if well_formed p && well_formed a && well_formed l then
    let req_pos := to_int16 (field_or 0 p) in
    let is_absolute := field_or true a in
    let s1 := match l with
              | Given b => Tbl.set_lock_when_done b s0
              | _ => s0
              end in
    (Done, tbl_start_move
             (if is_absolute then req_pos
              else to_int16 (Tbl.current_pos s + req_pos)) s1)
  else (Error, s0).

(** The invariant of the states that part_000 reaches when it starts with
    a scheme index other than 0 in [Settings]. *)
Record tbl_inv (s : Tbl.state) : Prop := mk_tbl_inv {
  tbl_index_ok : 0 <= Tbl.current_scheme_index s <= 3;
  tbl_scheme_ok :
    Tbl.current_scheme s
    = nth (Z.to_nat (Tbl.current_scheme_index s)) Tbl.control_schemes
        Tbl.null_scheme;
  tbl_phase_ok :
    0 <= Tbl.current_phase s < Tbl.max_phase (Tbl.current_scheme s);
  tbl_cur_ok : is_int16 (Tbl.current_pos s);
  tbl_want_ok : is_int16 (Tbl.wanted_pos s);
  tbl_settled : Tbl.idle s = false \/ Tbl.wanted_pos s = Tbl.current_pos s;
  tbl_saved :
    Tbl.idle s = false
    \/ Tbl.saved_pos (Tbl.Settings s) = Tbl.current_pos s;
  tbl_index_saved :
    Tbl.pwm_value_5 (Tbl.Settings s) = Tbl.current_scheme_index s;
  tbl_period_saved : Tbl.pwm_frequency (Tbl.Settings s) = Tbl.tick_us s;
  tbl_period_ok : is_uint16 (Tbl.tick_us s)
}.

(** The string holds nothing but commas (it may be empty). *)
Fixpoint only_commas (s : string) : bool :=
  match s with
  | EmptyString => true
  | String c r => Ascii.eqb c ","%char && only_commas r
  end.

(** A call of [Xdrv23] of part_001 that does not hand data without a token
    to the speed or the step handler. *)
Definition poll_call_ok (f : Poll.xdrv_function) : bool :=
  match f with
  | Poll.FUNC_COMMAND (Some 1%nat) data
  | Poll.FUNC_COMMAND (Some 2%nat) data => has_token data
  | _ => true
  end.

Definition poll_is_init (f : Poll.xdrv_function) : bool :=
  match f with Poll.FUNC_INIT _ => true | _ => false end.

(** The invariant of the states that part_001 reaches. *)
Record poll_inv (s : Poll.state) : Prop := mk_poll_inv {
  poll_scheme_ok :
    In (Poll.current_scheme s, Poll.max_phase s) builtin_schemes;
  poll_phase_ok : 0 <= Poll.current_phase s < Poll.max_phase s;
  poll_cur_ok : is_int32 (Poll.current_pos s);
  poll_want_ok : is_int32 (Poll.wanted_pos s);
  poll_settled : Poll.idle s = false \/ Poll.wanted_pos s = Poll.current_pos s
}.

(* ================================================================== *)
(** * Properties                                                        *)
(* ================================================================== *)

(** ** Integer conversions inside their range *)

Lemma to_int8_id x : is_int8 x -> to_int8 x = x.
Proof.
  unfold is_int8, to_int8, wrap_signed; intros H.
  change (2 ^ (8 - 1)) with 128; change (2 ^ 8) with 256.
  rewrite Z.mod_small; lia.
Qed.

Lemma to_int16_id x : is_int16 x -> to_int16 x = x.
Proof.
  unfold is_int16, to_int16, wrap_signed; intros H.
  change (2 ^ (16 - 1)) with 32768; change (2 ^ 16) with 65536.
  rewrite Z.mod_small; lia.
Qed.

Lemma to_int32_id x : is_int32 x -> to_int32 x = x.
Proof.
  unfold is_int32, to_int32, wrap_signed; intros H.
  change (2 ^ (32 - 1)) with 2147483648; change (2 ^ 32) with 4294967296.
  rewrite Z.mod_small; lia.
Qed.

Lemma to_int16_range x : is_int16 (to_int16 x).
Proof.
  unfold is_int16, to_int16, wrap_signed.
  change (2 ^ (16 - 1)) with 32768; change (2 ^ 16) with 65536.
  pose proof (Z.mod_pos_bound (x + 32768) 65536 eq_refl); lia.
Qed.

Lemma to_int32_range x : is_int32 (to_int32 x).
Proof.
  unfold is_int32, to_int32, wrap_signed.
  change (2 ^ (32 - 1)) with 2147483648; change (2 ^ 32) with 4294967296.
  pose proof (Z.mod_pos_bound (x + 2147483648) 4294967296 eq_refl); lia.
Qed.

Lemma to_uint16_range x : is_uint16 (to_uint16 x).
Proof.
  unfold is_uint16, to_uint16, wrap_unsigned.
  change (2 ^ 16) with 65536.
  pose proof (Z.mod_pos_bound x 65536 eq_refl); lia.
Qed.

Lemma to_uint16_id x : is_uint16 x -> to_uint16 x = x.
Proof.
  unfold is_uint16, to_uint16, wrap_unsigned; intros H.
  change (2 ^ 16) with 65536. rewrite Z.mod_small; lia.
Qed.

Lemma to_uint32_id x : is_uint32 x -> to_uint32 x = x.
Proof.
  unfold is_uint32, to_uint32, wrap_unsigned; intros H.
  change (2 ^ 32) with 4294967296. rewrite Z.mod_small; lia.
Qed.

Lemma clamp_long_range v : is_int32 (clamp_long v).
Proof.
  unfold clamp_long, is_int32, LONG_MIN, LONG_MAX.
  destruct (Z.ltb_spec v (-2147483648)); [lia|].
  destruct (Z.ltb_spec 2147483647 v); lia.
Qed.

(** [strtol] returns a [long]. *)
Lemma strtol_range str : is_int32 (fst (strtol str)).
Proof.
  unfold strtol.
  destruct (match skip_isspace str with
            | EmptyString => _ | String c r => _ end) as [[neg sg] s2].
  destruct (match s2 with
            | EmptyString => _ | String c r => _ end) as [[base pre] s3].
  destruct (digits base s3 0) as [v [|n]]; simpl.
  - unfold is_int32; lia.
  - apply clamp_long_range.
Qed.

(** ** Reading a scheme table *)

Lemma phase_at_in_range (tbl : list stepper_state_t) (i : Z) :
  0 <= i < Z.of_nat (List.length tbl) ->
  exists st, phase_at tbl i = Some st.
Proof.
  intros [Hlo Hhi]. unfold phase_at.
  destruct (Z.ltb_spec i 0); [lia|].
  destruct (nth_error tbl (Z.to_nat i)) as [st|] eqn:E; [eauto|].
  apply nth_error_None in E. lia.
Qed.

Lemma phase_at_Some_range (tbl : list stepper_state_t) (i : Z) st :
  phase_at tbl i = Some st -> 0 <= i < Z.of_nat (List.length tbl).
Proof.
  unfold phase_at. destruct (Z.ltb_spec i 0); [discriminate|].
  intros E. assert (nth_error tbl (Z.to_nat i) <> None) as N by congruence.
  apply nth_error_Some in N. lia.
Qed.

(** ** Timer1 interrupt enable bit *)

Lemma timer_enabled_enable teie : timer_enabled (teie_enable teie) = true.
Proof.
  unfold timer_enabled, teie_enable, TEIE1.
  destruct (Z.eqb_spec (Z.land (Z.lor teie 2) 2) 0) as [E|E]; [|reflexivity].
  apply (f_equal (fun x => Z.testbit x 1)) in E.
  rewrite Z.land_spec, Z.lor_spec in E.
  change (Z.testbit 2 1) with true in E. change (Z.testbit 0 1) with false in E.
  rewrite orb_true_r in E. discriminate.
Qed.

Lemma timer_enabled_disable teie : timer_enabled (teie_disable teie) = false.
Proof.
  unfold timer_enabled, teie_disable, TEIE1.
  rewrite <- Z.land_assoc. change (Z.land (Z.lnot 2) 2) with 0.
  rewrite Z.land_0_r. reflexivity.
Qed.

(** ** The output driver *)

(** C8. With enable lines present, every apply of a phase writes, in this
    order: the enable lines whose target is 0 (and nothing else), then the
    four direction lines with the values of the target phase, then the
    enable lines whose target is 1 (and nothing else). So a falling enable
    precedes the direction change, a rising enable follows it, and no
    enable is raised before the direction lines are written. *)
Theorem StepperSet_write_order (st : stepper_state_t) :
  exists falling rising,
    StepperSet true st = falling ++ direction_writes st ++ rising
    /\ Forall (enable_write false) falling
    /\ Forall (enable_write true) rising
    /\ (if A_ena st then In (digitalWrite A_ena_pin true) rising
        else In (digitalWrite A_ena_pin false) falling)
    /\ (if B_ena st then In (digitalWrite B_ena_pin true) rising
        else In (digitalWrite B_ena_pin false) falling).
Proof.
  unfold StepperSet, direction_writes.
  eexists _, _. split; [reflexivity|].
  destruct st as [ap bp an bn [|] [|]]; simpl;
    repeat split;
    repeat (apply Forall_cons || apply Forall_nil);
    unfold enable_write; simpl; auto.
Qed.

(** The same order by position in the list of writes: a write of 0 to an
    enable line comes before every direction write, a write of 1 to an
    enable line after every direction write. *)
Lemma enable_writes_around_directions
    (st : stepper_state_t) (i j : nat) (wi wj : write) :
  nth_error (StepperSet true st) i = Some wi ->
  nth_error (StepperSet true st) j = Some wj ->
  is_enable (w_line wi) = true -> is_enable (w_line wj) = false ->
  if w_level wi then (j < i)%nat else (i < j)%nat.
Proof.
  destruct st as [ap bp an bn [|] [|]]; unfold StepperSet;
    cbn [A_ena B_ena A_pos B_pos A_neg B_neg negb app];
    intros Hi Hj Ei Ej;
    repeat match goal with
           | H : nth_error _ ?k = Some _ |- _ =>
               is_var k; destruct k; cbn [nth_error] in H
           | H : Some _ = Some _ |- _ => injection H as <-
           | H : None = Some _ |- _ => discriminate H
           end;
    cbn in Ei, Ej; try discriminate; cbn; lia.
Qed.

(** Without enable lines only the direction lines are written. *)
Lemma StepperSet_no_enable_pins (st : stepper_state_t) :
  StepperSet false st = direction_writes st.
Proof. reflexivity. Qed.

(** ** Reading the arguments *)

Lemma strtol_no_conversion str v : strtol str = (v, 0%nat) -> v = 0.
Proof.
  unfold strtol.
  destruct (match skip_isspace str with
            | EmptyString => _ | String c r => _ end) as [[neg sg] s2].
  destruct (match s2 with
            | EmptyString => _ | String c r => _ end) as [[base pre] s3].
  destruct (digits base s3 0) as [w [|n]]; intros E; inversion E.
  - reflexivity.
  - lia.
Qed.

(** Once [strtok_r] has returned NULL the save pointer is at the end of the
    string, so the next call returns NULL again. *)
Lemma strtok_r_None_saveptr str sp tok :
  strtok_r str comma sp = (None, tok) -> tok = EmptyString.
Proof.
  unfold strtok_r. destruct (skip_delims _ _).
  - congruence.
  - destruct (split_token _ _); discriminate.
Qed.

Lemma number_field_range tok v : number_field tok = Given v -> is_int32 v.
Proof.
  unfold number_field. destruct tok as [str|]; [|discriminate].
  destruct (nonempty _); [|discriminate].
  pose proof (strtol_range (skip_isspace str)) as R.
  destruct (strtol _) as [w [|n]]; simpl in *; intros E; inversion E.
  subst; exact R.
Qed.

Lemma flag_field_blank gsn str :
  nonempty (skip_isspace str) = false -> flag_field gsn (Some str) = Absent.
Proof. intros H. unfold flag_field. rewrite H. reflexivity. Qed.

Ltac next_token tok :=
  let str := fresh "str" in
  let tok' := fresh "tok" in
  let T := fresh "T" in
  destruct (strtok_r None "," tok) as [[str|] tok'] eqn:T; cbn [fst snd];
  [ | apply strtok_r_None_saveptr in T; subst tok' ].

(** ** xdrv_23_stepper.ino: the command handlers *)

Ltac isr_fields :=
  cbn [Isr.tick_us Isr.enabled Isr.have_enable_pins Isr.current_scheme
       Isr.max_phase Isr.current_phase Isr.current_pos Isr.wanted_pos
       Isr.idle Isr.lock_when_done Isr.TEIE Isr.T1L Isr.T1I Isr.pins
       Isr.set_tick_us Isr.set_scheme Isr.set_current_phase
       Isr.set_current_pos Isr.set_wanted_pos Isr.set_idle
       Isr.set_lock_when_done Isr.set_TEIE Isr.set_T1L Isr.set_T1I
       Isr.apply_phase] in *.

Lemma isr_scheme_switch_spec c s :
  Isr.scheme_switch c s =
  match isr_scheme_for c (Isr.have_enable_pins s) with
  | Some (tbl, n) => Next tt (Isr.set_scheme tbl n s)
  | None => Exit Error s
  end.
Proof.
  unfold Isr.scheme_switch, isr_scheme_for, modify, fail.
  destruct c as [|p|p]; try reflexivity.
  destruct p as [[p|p|]|[p|p|]|]; try reflexivity.
  destruct (Isr.have_enable_pins s); reflexivity.
Qed.

Lemma isr_scheme_for_builtin c hep tbl n :
  isr_scheme_for c hep = Some (tbl, n) ->
  In (tbl, n) builtin_schemes /\ 0 <= c <= 3.
Proof.
  unfold isr_scheme_for, builtin_schemes.
  destruct c as [|p|p]; try discriminate.
  - intros E; inversion E; simpl; split; [auto|lia].
  - destruct p as [[p|p|]|[p|p|]|]; try discriminate;
      try destruct hep; intros E; inversion E; simpl; split; auto; lia.
Qed.

Lemma builtin_length tbl n :
  In (tbl, n) builtin_schemes ->
  n = Z.of_nat (List.length tbl) /\ 0 < n <= 127.
Proof.
  unfold builtin_schemes; simpl.
  intros [E|[E|[E|[E|[]]]]]; inversion E; subst; simpl; lia.
Qed.

(** [StepperCmndSpeed] is [isr_speed_effect] of the arguments in the data. *)
Lemma Isr_StepperCmndSpeed_args data s :
  Isr.StepperCmndSpeed data s = isr_speed_effect (speed_args data) s.
Proof.
  unfold Isr.StepperCmndSpeed, isr_speed_effect, speed_args, token2, token1,
    number_field, comma.
  destruct (strtok_r (Some (c_str data)) _ _) as [[str|] tok] eqn:T1;
    cbn [fst snd].
  2:{ apply strtok_r_None_saveptr in T1; subst tok. reflexivity. }
  unfold handler, bind, modify, ret, fail.
  destruct (nonempty (skip_isspace str));
    [ destruct (strtol (skip_isspace str)) as [v [|n]] eqn:E1;
      cbn [Nat.eqb fst snd];
      [ apply strtol_no_conversion in E1; subst v; reflexivity | ] | ].
  all: next_token tok; [ | reflexivity ].
  all: destruct (nonempty (skip_isspace str0)); [ | reflexivity ].
  all: destruct (strtol (skip_isspace str0)) as [c [|m]]; cbn [Nat.eqb];
    [ reflexivity | ].
  all: rewrite isr_scheme_switch_spec; isr_fields.
  all: destruct (isr_scheme_for c _) as [[tbl k]|]; reflexivity.
Qed.

Section IsrStep.
Variable GetStateNumber : string -> Z.

Lemma Isr_parse_flag_field str :
  nonempty (skip_isspace str) = true ->
  (flag_field GetStateNumber (Some str) = Malformed /\
   forall s : Isr.state,
     Isr.parse_flag GetStateNumber (skip_isspace str) s = Exit Error s)
  \/ (exists b, flag_field GetStateNumber (Some str) = Given b /\
      forall s : Isr.state,
        Isr.parse_flag GetStateNumber (skip_isspace str) s = Next b s).
Proof.
  intros Hne. unfold Isr.parse_flag, flag_field. rewrite Hne.
  destruct (strtol (skip_isspace str)) as [v n].
  destruct (negb _ && negb _); [left|right; eexists]; split; reflexivity.
Qed.

Ltac flag_token str :=
  let N := fresh "N" in
  let b := fresh "b" in
  let E := fresh "E" in
  let P := fresh "P" in
  destruct (nonempty (skip_isspace str)) eqn:N;
  [ destruct (Isr_parse_flag_field str N) as [[E P]|[b [E P]]];
    rewrite E; try rewrite P
  | rewrite (flag_field_blank GetStateNumber str N) ].

(** [StepperCmndStep] is [isr_step_effect] of the arguments in the data. *)
Lemma Isr_StepperCmndStep_args data s :
  Isr.StepperCmndStep GetStateNumber data s =
  isr_step_effect (step_args GetStateNumber data) s.
Proof.
  unfold Isr.StepperCmndStep, isr_step_effect, isr_start_move, step_args,
    token3, token2, token1, Isr.parse_step, comma.
  unfold handler, bind, ret, fail, modify.
  destruct (strtok_r (Some (c_str data)) _ _) as [[str|] tok] eqn:T1;
    cbn [fst snd].
  2:{ apply strtok_r_None_saveptr in T1; subst tok. reflexivity. }
  unfold number_field.
  destruct (nonempty (skip_isspace str));
    [ destruct (strtol (skip_isspace str)) as [v [|n]] eqn:E1;
      cbn [Nat.eqb];
      [ reflexivity | ] | ].
  all: next_token tok; [ | try reflexivity ].
  all: try flag_token str0; try reflexivity.
  all: try (next_token tok0; [ | try reflexivity ]).
  all: try (flag_token str1; try reflexivity).
  all: try (rewrite (to_int32_id v)
              by (pose proof (strtol_range (skip_isspace str)) as R;
                  rewrite E1 in R; exact R)).
  all: reflexivity.
Qed.
End IsrStep.

(** ** xdrv_23_stepper.ino: the interrupt handler *)

Ltac isr_open s :=
  unfold Isr.stepper_timer_isr, isr_rearm, isr_enter;
  destruct s as [tk en hep sch mx cp pos want idl lk teie t1l t1i pn];
  isr_fields.

Lemma Isr_tick_up s :
  isr_valid s -> Isr.current_pos s < Isr.wanted_pos s ->
  exists st,
    phase_at (Isr.current_scheme s)
             ((Isr.current_phase s + 1) mod Isr.max_phase s) = Some st /\
    Isr.stepper_timer_isr s =
    Some (isr_rearm
            (Isr.apply_phase st
               (Isr.set_current_pos (Isr.current_pos s + 1)
                  (Isr.set_current_phase
                     ((Isr.current_phase s + 1) mod Isr.max_phase s)
                     (isr_enter s))))).
Proof.
  intros (Hc & Hw & [Hp0 Hp1] & Hlen & Hmax) Hlt.
  assert (0 <= (Isr.current_phase s + 1) mod Isr.max_phase s
          < Isr.max_phase s) as Hm by (apply Z.mod_pos_bound; lia).
  destruct (phase_at_in_range (Isr.current_scheme s)
              ((Isr.current_phase s + 1) mod Isr.max_phase s))
    as [st Hst]; [lia|].
  exists st; split; [exact Hst|].
  isr_open s. unfold is_int32 in *.
  destruct (Z.ltb_spec want pos); [lia|].
  destruct (Z.ltb_spec pos want); [|lia].
  rewrite (to_int8_id (cp + 1)) by (unfold is_int8; lia).
  destruct (Z.leb_spec mx (cp + 1)); isr_fields;
    rewrite (to_int32_id (pos + 1)) by (unfold is_int32; lia).
  - assert ((cp + 1) mod mx = 0) as E0
      by (replace (cp + 1) with mx by lia; apply Z.mod_same; lia).
    rewrite E0 in *. rewrite Hst. cbn. destruct idl; reflexivity.
  - assert ((cp + 1) mod mx = cp + 1) as E0 by (apply Z.mod_small; lia).
    rewrite E0 in *. rewrite Hst. cbn. destruct idl; reflexivity.
Qed.

Lemma Isr_tick_down s :
  isr_valid s -> Isr.wanted_pos s < Isr.current_pos s ->
  exists st,
    phase_at (Isr.current_scheme s)
             ((Isr.current_phase s - 1) mod Isr.max_phase s) = Some st /\
    Isr.stepper_timer_isr s =
    Some (isr_rearm
            (Isr.apply_phase st
               (Isr.set_current_pos (Isr.current_pos s - 1)
                  (Isr.set_current_phase
                     ((Isr.current_phase s - 1) mod Isr.max_phase s)
                     (isr_enter s))))).
Proof.
  intros (Hc & Hw & [Hp0 Hp1] & Hlen & Hmax) Hlt.
  assert (0 <= (Isr.current_phase s - 1) mod Isr.max_phase s
          < Isr.max_phase s) as Hm by (apply Z.mod_pos_bound; lia).
  destruct (phase_at_in_range (Isr.current_scheme s)
              ((Isr.current_phase s - 1) mod Isr.max_phase s))
    as [st Hst]; [lia|].
  exists st; split; [exact Hst|].
  isr_open s. unfold is_int32 in *.
  destruct (Z.ltb_spec want pos); [|lia].
  rewrite (to_int8_id (cp - 1)) by (unfold is_int8; lia).
  destruct (Z.ltb_spec (cp - 1) 0); isr_fields;
    rewrite (to_int32_id (pos - 1)) by (unfold is_int32; lia).
  - rewrite (to_int8_id (mx - 1)) by (unfold is_int8; lia).
    assert ((cp - 1) mod mx = mx - 1) as E0.
    { replace (cp - 1) with (-1) by lia.
      rewrite <- (Z.mod_add (-1) 1 mx) by lia.
      replace (-1 + 1 * mx) with (mx - 1) by lia.
      apply Z.mod_small; lia. }
    rewrite E0 in *. rewrite Hst. cbn. destruct idl; reflexivity.
  - assert ((cp - 1) mod mx = cp - 1) as E0 by (apply Z.mod_small; lia).
    rewrite E0 in *. rewrite Hst. cbn. destruct idl; reflexivity.
Qed.

Lemma Isr_tick_arrived s st :
  Isr.wanted_pos s = Isr.current_pos s ->
  (if Isr.lock_when_done s
   then phase_at (Isr.current_scheme s) (Isr.current_phase s)
   else Some all_off) = Some st ->
  Isr.stepper_timer_isr s =
  Some (Isr.set_idle true (Isr.apply_phase st (isr_enter s))).
Proof.
  intros Heq Hst. isr_open s. subst want.
  rewrite Z.ltb_irrefl. rewrite Hst. reflexivity.
Qed.

(** ** xdrv_23_stepper.ino: the reachable states *)

Lemma isr_inv_valid s : isr_inv s -> isr_valid s.
Proof.
  intros [Hs Hp Hc Hw _ _]. destruct (builtin_length _ _ Hs) as [Hl Hn].
  unfold isr_valid. repeat split; try (apply Hc || apply Hw); lia.
Qed.

Lemma isr_inv_init pin teie t1l t1i :
  isr_inv (Isr.StepperInit pin teie t1l t1i).
Proof.
  unfold Isr.StepperInit. split; isr_fields.
  - unfold builtin_schemes; simpl; auto.
  - lia.
  - unfold is_int32; lia.
  - unfold is_int32; lia.
  - right; reflexivity.
  - left; reflexivity.
Qed.

Lemma isr_inv_calibrate s :
  isr_inv s -> isr_inv (snd (Isr.StepperCmndCalibrate s)).
Proof.
  intros [Hs Hp Hc Hw Hi Ha]. unfold Isr.StepperCmndCalibrate.
  destruct s; isr_fields. cbn [snd]. split; isr_fields; auto.
  - unfold is_int32; lia.
  - unfold is_int32; lia.
Qed.

Lemma isr_inv_speed data s :
  isr_inv s -> isr_inv (snd (Isr.StepperCmndSpeed data s)).
Proof.
  intros [Hs Hp Hc Hw Hi Ha]. rewrite Isr_StepperCmndSpeed_args.
  unfold isr_speed_effect.
  destruct (speed_args data) as [[| |v] [| |c]]; cbn [fst snd];
    try (destruct s; split; isr_fields; assumption).
  all: destruct (isr_scheme_for c _) as [[tbl n]|] eqn:E; cbn [snd];
    try (destruct s; split; isr_fields; assumption).
  all: apply isr_scheme_for_builtin in E; destruct E as [E _];
    pose proof (builtin_length _ _ E);
    destruct s; split; isr_fields; auto; lia.
Qed.

Lemma isr_inv_step gsn data s :
  isr_inv s -> isr_inv (snd (Isr.StepperCmndStep gsn data s)).
Proof.
  intros [Hs Hp Hc Hw Hi Ha]. rewrite Isr_StepperCmndStep_args.
  unfold isr_step_effect, isr_start_move.
  destruct (step_args gsn data) as [[p a] l].
  destruct (well_formed p && well_formed a && well_formed l); cbn [snd].
  - assert (is_int32 (if field_or true a then to_int32 (field_or 0 p)
                      else to_int32 (Isr.current_pos s
                                     + to_int32 (field_or 0 p)))) as Hr
      by (destruct (field_or true a); apply to_int32_range).
    revert Hr. generalize (if field_or true a then to_int32 (field_or 0 p)
                      else to_int32 (Isr.current_pos s
                                     + to_int32 (field_or 0 p))).
    intros w Hr.
    destruct s; destruct l; isr_fields;
      match goal with |- context [if ?b then _ else _] => destruct b end;
      split; isr_fields; auto; right; apply timer_enabled_enable.
  - destruct s; split; isr_fields; assumption.
Qed.

Lemma isr_inv_tick s :
  isr_inv s -> exists s', Isr.stepper_timer_isr s = Some s' /\ isr_inv s'.
Proof.
  intros I. pose proof (isr_inv_valid s I) as V.
  destruct I as [Hs Hp Hc Hw Hi Ha].
  destruct (builtin_length _ _ Hs) as [Hl Hn].
  destruct (Z.lt_total (Isr.current_pos s) (Isr.wanted_pos s))
    as [Hlt|[Heq|Hgt]].
  - destruct (Isr_tick_up s V Hlt) as (st & Hst & ->).
    eexists; split; [reflexivity|].
    assert (0 <= (Isr.current_phase s + 1) mod Isr.max_phase s
            < Isr.max_phase s) as Hm by (apply Z.mod_pos_bound; lia).
    unfold isr_rearm, isr_enter, is_int32 in *.
    destruct s; isr_fields.
    destruct idle; [destruct Hi; [discriminate|lia]|].
    split; isr_fields; auto; unfold is_int32; try lia;
      right; apply timer_enabled_enable.
  - destruct (phase_at_in_range (Isr.current_scheme s) (Isr.current_phase s))
      as [st0 Hst0]; [lia|].
    erewrite Isr_tick_arrived; [ | auto | ].
    2:{ instantiate (1 := if Isr.lock_when_done s then st0 else all_off).
        destruct (Isr.lock_when_done s); [exact Hst0|reflexivity]. }
    eexists; split; [reflexivity|].
    unfold isr_enter. destruct s; split; isr_fields; auto.
  - destruct (Isr_tick_down s V Hgt) as (st & Hst & ->).
    eexists; split; [reflexivity|].
    assert (0 <= (Isr.current_phase s - 1) mod Isr.max_phase s
            < Isr.max_phase s) as Hm by (apply Z.mod_pos_bound; lia).
    unfold isr_rearm, isr_enter, is_int32 in *.
    destruct s; isr_fields.
    destruct idle; [destruct Hi; [discriminate|lia]|].
    split; isr_fields; auto; unfold is_int32; try lia;
      right; apply timer_enabled_enable.
Qed.

Lemma isr_inv_run gsn es :
  forall s, isr_inv s -> forallb Isr.uncut es = true ->
  exists s', Isr.run gsn es s = Some s' /\ isr_inv s'.
Proof.
  induction es as [|e es IH]; intros s I U.
  - exists s; split; [reflexivity|exact I].
  - cbn [forallb] in U. apply andb_true_iff in U as [Ue U].
    cbn [Isr.run]. destruct e; cbn [Isr.uncut] in Ue; try discriminate;
      cbn [Isr.step].
    + apply IH; [apply isr_inv_calibrate, I|exact U].
    + apply IH; [apply isr_inv_speed, I|exact U].
    + apply IH; [apply isr_inv_step, I|exact U].
    + destruct (isr_inv_tick s I) as (s1 & -> & I1). apply IH; assumption.
Qed.

(** Every state reached from startup, with no interrupt inside a command
    handler, meets the side conditions under which the sequencer lemmas
    are stated. *)
Lemma Isr_reachable_valid gsn pin teie t1l t1i es :
  forallb Isr.uncut es = true ->
  exists s,
    Isr.run gsn es (Isr.StepperInit pin teie t1l t1i) = Some s
    /\ isr_valid s.
Proof.
  intros U.
  destruct (isr_inv_run gsn es _ (isr_inv_init pin teie t1l t1i) U)
    as (s & R & I).
  exists s. split; [exact R|exact (isr_inv_valid s I)].
Qed.

(** *** The statement lists against the handlers *)

Ltac isr_stmts :=
  cbn [Isr.set_current_scheme Isr.set_max_phase Isr.write_pin
       Isr.tick_us Isr.enabled Isr.have_enable_pins Isr.current_scheme
       Isr.max_phase Isr.current_phase Isr.current_pos Isr.wanted_pos
       Isr.idle Isr.lock_when_done Isr.TEIE Isr.T1L Isr.T1I Isr.pins
       Isr.set_tick_us Isr.set_scheme Isr.set_current_phase
       Isr.set_current_pos Isr.set_wanted_pos Isr.set_idle
       Isr.set_lock_when_done Isr.set_TEIE Isr.set_T1L Isr.set_T1I
       Isr.apply_phase] in *.

Lemma Isr_preempted_nil stmts s :
  Isr.preempted stmts [] s = Some (fold_left (fun s f => f s) stmts s).
Proof.
  revert s. induction stmts as [|f rest IH]; intros s; [reflexivity|].
  cbn [Isr.preempted hd tl Isr.interrupts fold_left]. apply IH.
Qed.

Lemma Isr_StepperSet_stmts st s :
  fold_left (fun s f => f s) (Isr.StepperSet_stmts st) s
  = Isr.apply_phase st s.
Proof.
  unfold Isr.StepperSet_stmts, Isr.apply_phase, StepperSet.
  cbn [fold_left].
  destruct s as [tk en hep sch mx cp pos want idl lk teie t1l t1i pn].
  destruct st as [ap bp an bn ae be].
  destruct hep, ae, be; cbv - [app]; rewrite <- ?app_assoc; cbn [app];
    reflexivity.
Qed.

Lemma Isr_StepperCmndCalibrate_stmts s :
  fold_left (fun s f => f s) Isr.StepperCmndCalibrate_stmts s
  = snd (Isr.StepperCmndCalibrate s).
Proof.
  unfold Isr.StepperCmndCalibrate_stmts, Isr.StepperCmndCalibrate.
  rewrite fold_left_app. cbn [fold_left snd].
  apply Isr_StepperSet_stmts.
Qed.

Lemma Isr_scheme_switch_stmts c s :
  match Isr.scheme_switch_stmts c with
  | Some two =>
      Isr.scheme_switch c s = Next tt (fold_left (fun s f => f s) two s)
  | None => Isr.scheme_switch c s = Exit Error s
  end.
Proof.
  unfold Isr.scheme_switch, Isr.scheme_switch_stmts, modify, fail.
  destruct c as [|q|q]; [ | | reflexivity].
  - destruct s; reflexivity.
  - destruct q as [[q|q|]|[q|q|]|]; try reflexivity;
      destruct s as [tk en [|] sch mx cp pos want idl lk teie t1l t1i pn];
      reflexivity.
Qed.

Lemma Isr_StepperCmndSpeed_stmts data s :
  fold_left (fun s f => f s) (Isr.StepperCmndSpeed_stmts data) s
  = snd (Isr.StepperCmndSpeed data s).
Proof.
  unfold Isr.StepperCmndSpeed_stmts, Isr.StepperCmndSpeed.
  destruct (strtok_r (Some (c_str data)) "," "") as [[str|] tok];
    [|reflexivity].
  unfold handler, bind, modify, ret, fail.
  destruct (nonempty (skip_isspace str));
    [ destruct (strtol (skip_isspace str)) as [v [|n]]; cbn [Nat.eqb];
      [ reflexivity | ] | ].
  all: rewrite ?fold_left_app; cbn [app fold_left].
  all: destruct (strtok_r None "," tok) as [[str0|] tok']; [|reflexivity].
  all: destruct (nonempty (skip_isspace str0)); [|reflexivity].
  all: destruct (strtol (skip_isspace str0)) as [c [|m]]; cbn [Nat.eqb];
    [reflexivity|].
  all: match goal with
       | |- context [Isr.scheme_switch ?cv ?s1] =>
           pose proof (Isr_scheme_switch_stmts cv s1) as W;
           destruct (Isr.scheme_switch_stmts cv) as [two|]; rewrite W
       end; [|reflexivity].
  all: rewrite fold_left_app; reflexivity.
Qed.

Section IsrStmts.
Variable GetStateNumber : string -> Z.

Lemma Isr_read_flag str (s : Isr.state) :
  Isr.parse_flag GetStateNumber str s
  = match Isr.read_flag GetStateNumber str with
    | Some b => Next b s
    | None => Exit Error s
    end.
Proof.
  unfold Isr.parse_flag, Isr.read_flag.
  destruct (strtol str) as [v n].
  destruct (negb _ && negb _); reflexivity.
Qed.

Lemma Isr_StepperCmndStep_stmts data s :
  fold_left (fun s f => f s) (Isr.StepperCmndStep_stmts GetStateNumber data) s
  = snd (Isr.StepperCmndStep GetStateNumber data s).
Proof.
  unfold Isr.StepperCmndStep_stmts, Isr.StepperCmndStep, Isr.parse_step,
    Isr.start_move_stmts.
  unfold handler, bind, modify, ret, fail. cbn [fold_left].
  destruct (strtok_r (Some (c_str data)) "," "") as [[str|] tok];
    [|reflexivity].
  destruct (nonempty (skip_isspace str));
    [ destruct (strtol (skip_isspace str)) as [v [|n]]; cbn [Nat.eqb];
      [ reflexivity | ] | ].
  all: destruct (strtok_r None "," tok) as [[str0|] tok0]; [|reflexivity].
  all: destruct (nonempty (skip_isspace str0));
    [ rewrite Isr_read_flag;
      destruct (Isr.read_flag GetStateNumber (skip_isspace str0)) as [a|];
      [ | reflexivity ] | ].
  all: destruct (strtok_r None "," tok0) as [[str1|] tok1]; [|reflexivity].
  all: destruct (nonempty (skip_isspace str1));
    [ rewrite Isr_read_flag;
      destruct (Isr.read_flag GetStateNumber (skip_isspace str1)) as [b|];
      reflexivity | reflexivity ].
Qed.

(** A handler into which no interrupt cuts is the handler run to its
    end. *)
Lemma Isr_cut_without_interrupt data s :
  Isr.step GetStateNumber (Isr.CalibrateCut []) s
  = Isr.step GetStateNumber Isr.Calibrate s
  /\ Isr.step GetStateNumber (Isr.SpeedCut data []) s
     = Isr.step GetStateNumber (Isr.Speed data) s
  /\ Isr.step GetStateNumber (Isr.StepCut data []) s
     = Isr.step GetStateNumber (Isr.Step data) s.
Proof.
  cbn [Isr.step]. rewrite !Isr_preempted_nil.
  rewrite Isr_StepperCmndCalibrate_stmts, Isr_StepperCmndSpeed_stmts,
    Isr_StepperCmndStep_stmts.
  repeat split.
Qed.
End IsrStmts.

(** C1: the defect. The claim holds as long as no interrupt cuts into a
    command handler: after any Calibrate, Speed and Step commands and ticks
    the run is going, the scheme is one of the four tables, [max_phase] is
    its length and [current_phase] lies in [[0, max_phase)]. It fails when
    the Timer1 interrupt cuts into [StepperCmndSpeed], which changes the
    table and [max_phase] before it sets [current_phase] to 0 and does not
    mask the interrupt. During a move down from 0, three ticks leave
    phase index 5 of the 8 half-step phases; the speed command with data
    2000,1 assigns full_step and [max_phase = 4]; an interrupt before its
    next statement finds the interrupt enabled and index 5 with 4 phases,
    decrements it to 4 and reads [current_scheme[4]], outside the table. *)
Theorem Isr_speed_cut_leaves_phase_range :
  (exists s1 s2,
     Isr.run no_state_word
       [Isr.Step "-10"; Isr.Tick; Isr.Tick; Isr.Tick] isr_boot = Some s1
     /\ Isr.current_phase s1 = 5 /\ Isr.max_phase s1 = 8
     /\ Isr.preempted (firstn 3 (Isr.StepperCmndSpeed_stmts "2000,1")) [] s1
        = Some s2
     /\ Isr.current_scheme s2 = full_step
     /\ Isr.max_phase s2 = 4
     /\ Isr.current_phase s2 = 5
     /\ ~ (0 <= Isr.current_phase s2 < Isr.max_phase s2)
     /\ timer_enabled (Isr.TEIE s2) = true
     /\ Isr.interrupt s2 = None
     /\ Isr.run no_state_word [Isr.SpeedCut "2000,1" [0; 0; 0; 1]]%nat s1
        = None
     /\ Isr.run no_state_word
          [Isr.Step "-10"; Isr.Tick; Isr.Tick; Isr.Tick;
           Isr.SpeedCut "2000,1" [0; 0; 0; 1]%nat] isr_boot
        = None)
  /\ (forall (GetStateNumber : string -> Z) (pin : pin_table)
        (teie t1l t1i : Z) (es : list Isr.event),
        forallb Isr.uncut es = true ->
        exists s,
          Isr.run GetStateNumber es (Isr.StepperInit pin teie t1l t1i)
          = Some s
          /\ In (Isr.current_scheme s)
                [rotating_wave; full_step; half_step; half_step_inhibit]
          /\ Isr.max_phase s
             = Z.of_nat (List.length (Isr.current_scheme s))
          /\ 0 <= Isr.current_phase s < Isr.max_phase s).
Proof.
  split.
  - eexists _, _.
    split; [vm_compute; reflexivity|].
    split; [reflexivity|]. split; [reflexivity|].
    split; [vm_compute; reflexivity|].
    split; [reflexivity|]. split; [reflexivity|]. split; [reflexivity|].
    split; [cbn [Isr.current_phase Isr.max_phase]; lia|].
    split; [vm_compute; reflexivity|].
    split; [vm_compute; reflexivity|].
    split; vm_compute; reflexivity.
  - intros GetStateNumber pin teie t1l t1i es U.
    destruct (isr_inv_run GetStateNumber es _
                (isr_inv_init pin teie t1l t1i) U)
      as (s & R & [Hs Hp _ _ _ _]).
    exists s. split; [exact R|].
    destruct (builtin_length _ _ Hs) as [Hl _].
    repeat split; try lia.
    unfold builtin_schemes in Hs; simpl in Hs |- *.
    destruct Hs as [E|[E|[E|[E|[]]]]]; inversion E; auto.
Qed.

(** C10: the defect. The claim holds as long as no interrupt cuts into a
    command handler: the driver is then idle only with
    [wanted_pos = current_pos], and the Timer1 interrupt is enabled
    whenever it is not idle. It fails when the interrupt cuts into
    [StepperCmndCalibrate], which writes [current_pos], [wanted_pos] and
    [idle] without masking it. Two ticks into a move to 5, Calibrate
    sets [current_pos = 0]; an interrupt before its next statement still
    sees the target 5 and steps to position 1; Calibrate then sets
    [wanted_pos = 0] and [idle = true]. The handler returns with the
    driver idle, the target 0 and the position 1. *)
Theorem Isr_calibrate_cut_idle_off_target :
  (exists s1 s,
     Isr.run no_state_word [Isr.Step "5"; Isr.Tick; Isr.Tick] isr_boot
     = Some s1
     /\ Isr.idle s1 = false /\ timer_enabled (Isr.TEIE s1) = true
     /\ Isr.run no_state_word [Isr.CalibrateCut [0; 1]]%nat s1 = Some s
     /\ Isr.run no_state_word
          [Isr.Step "5"; Isr.Tick; Isr.Tick; Isr.CalibrateCut [0; 1]%nat]
          isr_boot
        = Some s
     /\ Isr.idle s = true
     /\ Isr.wanted_pos s = 0
     /\ Isr.current_pos s = 1
     /\ Isr.wanted_pos s <> Isr.current_pos s)
  /\ (forall (GetStateNumber : string -> Z) (pin : pin_table)
        (teie t1l t1i : Z) (es : list Isr.event),
        forallb Isr.uncut es = true ->
        exists s,
          Isr.run GetStateNumber es (Isr.StepperInit pin teie t1l t1i)
          = Some s
          /\ (Isr.idle s = false \/ Isr.wanted_pos s = Isr.current_pos s)
          /\ (Isr.idle s = true \/ timer_enabled (Isr.TEIE s) = true)).
Proof.
  split.
  - eexists _, _.
    split; [vm_compute; reflexivity|].
    split; [reflexivity|]. split; [vm_compute; reflexivity|].
    split; [vm_compute; reflexivity|].
    split; [vm_compute; reflexivity|].
    split; [reflexivity|]. split; [reflexivity|]. split; [reflexivity|].
    cbn [Isr.wanted_pos Isr.current_pos]. discriminate.
  - intros GetStateNumber pin teie t1l t1i es U.
    destruct (isr_inv_run GetStateNumber es _
                (isr_inv_init pin teie t1l t1i) U)
      as (s & R & [_ _ _ _ Hi Ha]).
    exists s; repeat split; assumption.
Qed.

(** ** part_001: the polled sequencer *)

Ltac poll_fields :=
  cbn [Poll.next_tick_time Poll.tick_ms Poll.enabled Poll.have_enable_pins
       Poll.current_scheme Poll.max_phase Poll.current_phase Poll.current_pos
       Poll.wanted_pos Poll.idle Poll.lock_when_done Poll.pins
       Poll.set_current_phase Poll.set_current_pos Poll.set_wanted_pos
       Poll.set_idle Poll.set_lock_when_done Poll.apply_phase] in *.

Ltac poll_open s :=
  unfold Poll.StepperTick;
  destruct s as [nt tk en hep sch mx cp pos want idl lk pn];
  poll_fields.

Lemma Poll_tick_up s :
  poll_valid s -> Poll.current_pos s < Poll.wanted_pos s ->
  exists st,
    phase_at (Poll.current_scheme s)
             ((Poll.current_phase s + 1) mod Poll.max_phase s) = Some st /\
    Poll.StepperTick s =
    Some (Poll.apply_phase st
            (Poll.set_current_pos (Poll.current_pos s + 1)
               (Poll.set_current_phase
                  ((Poll.current_phase s + 1) mod Poll.max_phase s) s))).
Proof.
  intros (Hc & Hw & [Hp0 Hp1] & Hlen & Hmax) Hlt.
  assert (0 <= (Poll.current_phase s + 1) mod Poll.max_phase s
          < Poll.max_phase s) as Hm by (apply Z.mod_pos_bound; lia).
  destruct (phase_at_in_range (Poll.current_scheme s)
              ((Poll.current_phase s + 1) mod Poll.max_phase s))
    as [st Hst]; [lia|].
  exists st; split; [exact Hst|].
  poll_open s. unfold is_int32 in *.
  destruct (Z.ltb_spec want pos); [lia|].
  destruct (Z.ltb_spec pos want); [|lia].
  rewrite (to_int8_id (cp + 1)) by (unfold is_int8; lia).
  destruct (Z.leb_spec mx (cp + 1)); poll_fields;
    rewrite (to_int32_id (pos + 1)) by (unfold is_int32; lia).
  - assert ((cp + 1) mod mx = 0) as E0
      by (replace (cp + 1) with mx by lia; apply Z.mod_same; lia).
    rewrite E0 in *. rewrite Hst. reflexivity.
  - assert ((cp + 1) mod mx = cp + 1) as E0 by (apply Z.mod_small; lia).
    rewrite E0 in *. rewrite Hst. reflexivity.
Qed.

Lemma Poll_tick_down s :
  poll_valid s -> Poll.wanted_pos s < Poll.current_pos s ->
  exists st,
    phase_at (Poll.current_scheme s)
             ((Poll.current_phase s - 1) mod Poll.max_phase s) = Some st /\
    Poll.StepperTick s =
    Some (Poll.apply_phase st
            (Poll.set_current_pos (Poll.current_pos s - 1)
               (Poll.set_current_phase
                  ((Poll.current_phase s - 1) mod Poll.max_phase s) s))).
Proof.
  intros (Hc & Hw & [Hp0 Hp1] & Hlen & Hmax) Hlt.
  assert (0 <= (Poll.current_phase s - 1) mod Poll.max_phase s
          < Poll.max_phase s) as Hm by (apply Z.mod_pos_bound; lia).
  destruct (phase_at_in_range (Poll.current_scheme s)
              ((Poll.current_phase s - 1) mod Poll.max_phase s))
    as [st Hst]; [lia|].
  exists st; split; [exact Hst|].
  poll_open s. unfold is_int32 in *.
  destruct (Z.ltb_spec want pos); [|lia].
  rewrite (to_int8_id (cp - 1)) by (unfold is_int8; lia).
  destruct (Z.ltb_spec (cp - 1) 0); poll_fields;
    rewrite (to_int32_id (pos - 1)) by (unfold is_int32; lia).
  - rewrite (to_int8_id (mx - 1)) by (unfold is_int8; lia).
    assert ((cp - 1) mod mx = mx - 1) as E0.
    { replace (cp - 1) with (-1) by lia.
      rewrite <- (Z.mod_add (-1) 1 mx) by lia.
      replace (-1 + 1 * mx) with (mx - 1) by lia.
      apply Z.mod_small; lia. }
    rewrite E0 in *. rewrite Hst. reflexivity.
  - assert ((cp - 1) mod mx = cp - 1) as E0 by (apply Z.mod_small; lia).
    rewrite E0 in *. rewrite Hst. reflexivity.
Qed.

(** ** One step per tick *)

Lemma step_toward_up N cp pos want :
  0 <= cp < N -> pos < want ->
  step_toward N cp pos want ((cp + 1) mod N) (pos + 1).
Proof.
  intros Hcp Hlt. split; [intros _|lia].
  repeat split.
  destruct (Z.eqb_spec (cp + 1) N) as [E|E].
  - rewrite E. apply Z.mod_same; lia.
  - apply Z.mod_small; lia.
Qed.

Lemma step_toward_down N cp pos want :
  0 <= cp < N -> want < pos ->
  step_toward N cp pos want ((cp - 1) mod N) (pos - 1).
Proof.
  intros Hcp Hlt. split; [lia|intros _].
  repeat split.
  destruct (Z.eqb_spec cp 0) as [E|E].
  - subst cp. rewrite <- (Z.mod_add (0 - 1) 1 N) by lia.
    replace (0 - 1 + 1 * N) with (N - 1) by lia. apply Z.mod_small; lia.
  - apply Z.mod_small; lia.
Qed.

(** C2. On a tick with [wanted_pos <> current_pos], in a state whose
    positions are 32-bit values and whose [current_phase] indexes the
    current table, the sequencer moves one step toward the target: toward a larger target the phase index goes up
    by one modulo [max_phase] (back to 0 from the last phase) and the
    position up by one; toward a smaller target the index goes down by one
    modulo [max_phase] (to [max_phase - 1] from 0) and the position down by
    one. The phase at the new index is the one applied, and the target, the
    scheme and the flags stay as they were. This holds for the interrupt
    handler of xdrv_23_stepper.ino and for [StepperTick] of part_001. *)
Theorem tick_moves_one_step :
  (forall s, isr_valid s -> Isr.wanted_pos s <> Isr.current_pos s ->
     exists s' st,
       Isr.stepper_timer_isr s = Some s'
       /\ step_toward (Isr.max_phase s) (Isr.current_phase s)
            (Isr.current_pos s) (Isr.wanted_pos s)
            (Isr.current_phase s') (Isr.current_pos s')
       /\ phase_at (Isr.current_scheme s) (Isr.current_phase s') = Some st
       /\ Isr.pins s' = Isr.pins s ++ StepperSet (Isr.have_enable_pins s) st
       /\ Isr.wanted_pos s' = Isr.wanted_pos s
       /\ Isr.current_scheme s' = Isr.current_scheme s
       /\ Isr.max_phase s' = Isr.max_phase s
       /\ Isr.idle s' = Isr.idle s
       /\ Isr.lock_when_done s' = Isr.lock_when_done s)
  /\ (forall s, poll_valid s -> Poll.wanted_pos s <> Poll.current_pos s ->
     exists s' st,
       Poll.StepperTick s = Some s'
       /\ step_toward (Poll.max_phase s) (Poll.current_phase s)
            (Poll.current_pos s) (Poll.wanted_pos s)
            (Poll.current_phase s') (Poll.current_pos s')
       /\ phase_at (Poll.current_scheme s) (Poll.current_phase s') = Some st
       /\ Poll.pins s' = Poll.pins s ++ StepperSet (Poll.have_enable_pins s) st
       /\ Poll.wanted_pos s' = Poll.wanted_pos s
       /\ Poll.current_scheme s' = Poll.current_scheme s
       /\ Poll.max_phase s' = Poll.max_phase s
       /\ Poll.idle s' = Poll.idle s
       /\ Poll.lock_when_done s' = Poll.lock_when_done s).
Proof.
  split; intros s V Hne.
  - pose proof V as (_ & _ & Hp & _).
    destruct (Z.lt_total (Isr.current_pos s) (Isr.wanted_pos s))
      as [Hlt|[Heq|Hgt]]; [ | congruence | ].
    + destruct (Isr_tick_up s V Hlt) as (st & Hst & ->).
      pose proof (step_toward_up _ _ _ _ Hp Hlt) as T.
      exists (isr_rearm
                (Isr.apply_phase st
                   (Isr.set_current_pos (Isr.current_pos s + 1)
                      (Isr.set_current_phase
                         ((Isr.current_phase s + 1) mod Isr.max_phase s)
                         (isr_enter s))))), st.
      unfold isr_rearm, isr_enter in *.
      destruct s; isr_fields; destruct idle; isr_fields;
        repeat (split; [first [reflexivity | exact T | assumption] | ]);
        reflexivity.
    + destruct (Isr_tick_down s V Hgt) as (st & Hst & ->).
      pose proof (step_toward_down _ _ _ _ Hp Hgt) as T.
      exists (isr_rearm
                (Isr.apply_phase st
                   (Isr.set_current_pos (Isr.current_pos s - 1)
                      (Isr.set_current_phase
                         ((Isr.current_phase s - 1) mod Isr.max_phase s)
                         (isr_enter s))))), st.
      unfold isr_rearm, isr_enter in *.
      destruct s; isr_fields; destruct idle; isr_fields;
        repeat (split; [first [reflexivity | exact T | assumption] | ]);
        reflexivity.
  - pose proof V as (_ & _ & Hp & _).
    destruct (Z.lt_total (Poll.current_pos s) (Poll.wanted_pos s))
      as [Hlt|[Heq|Hgt]]; [ | congruence | ].
    + destruct (Poll_tick_up s V Hlt) as (st & Hst & ->).
      pose proof (step_toward_up _ _ _ _ Hp Hlt) as T.
      eexists _, st. split; [reflexivity|].
      destruct s; poll_fields;
        repeat (split; [first [reflexivity | exact T | assumption] | ]);
        reflexivity.
    + destruct (Poll_tick_down s V Hgt) as (st & Hst & ->).
      pose proof (step_toward_down _ _ _ _ Hp Hgt) as T.
      eexists _, st. split; [reflexivity|].
      destruct s; poll_fields;
        repeat (split; [first [reflexivity | exact T | assumption] | ]);
        reflexivity.
Qed.

(** ** part_000: sequencer, saved position and scheme selection *)

Ltac tbl_fields :=
  cbn [Tbl.enabled Tbl.have_enable_pins Tbl.idle Tbl.current_phase
       Tbl.wanted_pos Tbl.lock_when_done Tbl.tick_us Tbl.current_scheme_index
       Tbl.current_scheme Tbl.current_pos Tbl.Settings Tbl.TEIE Tbl.T1L
       Tbl.T1I Tbl.pins Tbl.phases Tbl.max_phase
       Tbl.pwm_frequency Tbl.pwm_value_0 Tbl.pwm_value_1 Tbl.pwm_value_5
       Tbl.set_idle Tbl.set_current_phase Tbl.set_wanted_pos
       Tbl.set_lock_when_done Tbl.set_tick_us Tbl.set_current_scheme_index
       Tbl.set_current_scheme Tbl.set_current_pos Tbl.set_Settings
       Tbl.set_TEIE Tbl.set_T1L Tbl.set_T1I Tbl.apply_phase
       Tbl.set_pwm_frequency Tbl.set_pwm_value_0 Tbl.set_pwm_value_1
       Tbl.set_pwm_value_5 Tbl.SaveCurrentPos] in *.

Lemma Tbl_tick_arrived s st :
  Tbl.wanted_pos s = Tbl.current_pos s ->
  (if Tbl.lock_when_done s
   then phase_at (Tbl.phases (Tbl.current_scheme s)) (Tbl.current_phase s)
   else Some all_off) = Some st ->
  Tbl.stepper_timer_isr s =
  Some (Tbl.set_idle true
          (Tbl.SaveCurrentPos (Tbl.apply_phase st (tbl_enter s)))).
Proof.
  intros Heq Hst. unfold Tbl.stepper_timer_isr, tbl_enter.
  destruct s as [en hep idl cp want lk tk idx sch pos stg teie t1l t1i pn].
  tbl_fields. subst want.
  rewrite Z.ltb_irrefl. rewrite Hst. reflexivity.
Qed.

(** The two bytes that [SaveCurrentPos] stores give the position back. *)
Lemma saved_pos_SaveCurrentPos s :
  is_int16 (Tbl.current_pos s) ->
  Tbl.saved_pos (Tbl.Settings (Tbl.SaveCurrentPos s)) = Tbl.current_pos s.
Proof.
  intros H. unfold Tbl.saved_pos. destruct s; tbl_fields.
  unfold is_int16 in H.
  change 255 with (Z.ones 8). rewrite !Z.land_ones by lia.
  rewrite Z.shiftr_div_pow2, Z.shiftl_mul_pow2 by lia.
  unfold to_uint8, to_uint16, to_int16, wrap_unsigned, wrap_signed.
  change (2 ^ 8) with 256; change (2 ^ 16) with 65536;
    change (2 ^ (16 - 1)) with 32768.
  rewrite (Z.mod_mod current_pos 256) by lia.
  rewrite (Z.mod_mod (current_pos / 256) 256) by lia.
  rewrite (Z.mod_small ((current_pos / 256) mod 256) 65536)
    by (pose proof (Z.mod_pos_bound (current_pos / 256) 256 eq_refl); lia).
  replace (current_pos mod 256 + (current_pos / 256) mod 256 * 256)
    with (current_pos mod 65536).
  - rewrite Zplus_mod_idemp_l. rewrite Z.mod_small; lia.
  - change 65536 with (256 * 256). rewrite Z.rem_mul_r by lia. lia.
Qed.

Lemma Tbl_SelectScheme_out_of_range c s :
  c < 0 \/ 3 < c -> Tbl.SelectScheme c s = (false, s).
Proof.
  intros H. unfold Tbl.SelectScheme.
  change Tbl.SCHEMES_MAX with 4.
  destruct (Z.ltb_spec c 0); [reflexivity|].
  destruct (Z.leb_spec 4 c); [reflexivity|lia].
Qed.

Lemma Tbl_SelectScheme_same c s :
  0 <= c <= 3 -> c = Tbl.current_scheme_index s ->
  Tbl.SelectScheme c s = (true, s).
Proof.
  intros H E. unfold Tbl.SelectScheme.
  change Tbl.SCHEMES_MAX with 4.
  destruct (Z.ltb_spec c 0); [lia|].
  destruct (Z.leb_spec 4 c); [lia|]. cbn [orb].
  rewrite <- E, Z.eqb_refl. reflexivity.
Qed.

(** A change of scheme: the new table is loaded, the phase index goes back
    to 0 and the target is set to the current position. *)
Lemma Tbl_SelectScheme_change c s :
  0 <= c <= 3 -> c <> Tbl.current_scheme_index s ->
  exists s',
    Tbl.SelectScheme c s = (true, s')
    /\ Tbl.current_scheme s' = nth (Z.to_nat c) Tbl.control_schemes Tbl.null_scheme
    /\ Tbl.current_scheme_index s' = c
    /\ Tbl.current_phase s' = 0
    /\ Tbl.wanted_pos s' = Tbl.current_pos s
    /\ Tbl.current_pos s' = Tbl.current_pos s
    /\ Tbl.idle s' = Tbl.idle s
    /\ Tbl.lock_when_done s' = Tbl.lock_when_done s
    /\ Tbl.tick_us s' = Tbl.tick_us s
    /\ Tbl.have_enable_pins s' = Tbl.have_enable_pins s
    /\ Tbl.pins s' = Tbl.pins s.
Proof.
  intros H E. unfold Tbl.SelectScheme.
  change Tbl.SCHEMES_MAX with 4.
  destruct (Z.ltb_spec c 0); [lia|].
  destruct (Z.leb_spec 4 c); [lia|]. cbn [orb].
  destruct (Z.eqb_spec c (Tbl.current_scheme_index s)); [contradiction|].
  eexists; split; [reflexivity|].
  assert (to_uint8 c = c) as U
    by (unfold to_uint8, wrap_unsigned; change (2 ^ 8) with 256;
        apply Z.mod_small; lia).
  destruct s; tbl_fields. rewrite U.
  destruct idle; tbl_fields; repeat split; reflexivity.
Qed.

Lemma Tbl_SelectScheme_tick_us c s :
  Tbl.tick_us (snd (Tbl.SelectScheme c s)) = Tbl.tick_us s.
Proof.
  unfold Tbl.SelectScheme.
  destruct (_ || _); [reflexivity|].
  destruct (_ =? _); [reflexivity|].
  destruct s; tbl_fields. destruct idle; reflexivity.
Qed.

(** [StepperCmndSpeed] is [tbl_speed_effect] of the arguments in the data. *)
Lemma Tbl_StepperCmndSpeed_args data s :
  Tbl.StepperCmndSpeed data s = tbl_speed_effect (speed_args data) s.
Proof.
  unfold Tbl.StepperCmndSpeed, tbl_speed_effect, speed_args, token2, token1,
    number_field, comma.
  destruct (strtok_r (Some (c_str data)) _ _) as [[str|] tok] eqn:T1;
    cbn [fst snd].
  2:{ apply strtok_r_None_saveptr in T1; subst tok. reflexivity. }
  unfold handler, bind, modify, ret, fail.
  destruct (nonempty (skip_isspace str));
    [ destruct (strtol (skip_isspace str)) as [v [|n]] eqn:E1;
      cbn [Nat.eqb fst snd]; [ reflexivity | ] | ].
  all: next_token tok; [ | reflexivity ].
  all: destruct (nonempty (skip_isspace str0)); [ | reflexivity ].
  all: destruct (strtol (skip_isspace str0)) as [c [|m]]; cbn [Nat.eqb];
    [ reflexivity | ].
  all: destruct (Tbl.SelectScheme c _) as [[|] s2]; reflexivity.
Qed.

(** When the handler leaves the timer running, the value it loads is the
    tick period times 80. *)
Lemma Tbl_isr_reload s s' :
  is_uint16 (Tbl.tick_us s) ->
  Tbl.stepper_timer_isr s = Some s' -> Tbl.idle s' = false ->
  Tbl.T1L s' = 80 * Tbl.tick_us s /\ fits_T1L (Tbl.T1L s').
Proof.
  intros Hu E Hi.
  assert (Tbl.T1L s' = 80 * Tbl.tick_us s) as R.
  { unfold Tbl.stepper_timer_isr in E. cbv zeta in E.
    match type of E with
    | option_map _ ?mv = Some _ =>
        destruct mv as [m|] eqn:M; [|discriminate]
    end.
    cbn [option_map] in E. injection E as <-.
    assert (Tbl.tick_us m = Tbl.tick_us s) as TK.
    { revert M. destruct s; tbl_fields.
      repeat match goal with
             | |- context [if ?b then _ else _] => destruct b
             end;
        match goal with
        | |- option_map _ ?o = _ -> _ => destruct o
        end; cbn [option_map]; intros X; inversion X; reflexivity. }
    destruct (Tbl.idle m) eqn:I; cbn [negb] in *.
    - rewrite I in Hi; discriminate.
    - destruct m; tbl_fields. rewrite TK.
      change (ESP8266_CLOCK / 1000000) with 80.
      unfold to_uint32, wrap_unsigned, is_uint16 in *.
      change (2 ^ 32) with 4294967296. apply Z.mod_small; lia. }
  split; [exact R|].
  rewrite R. unfold fits_T1L, T1L_bits, is_uint16 in *.
  change (2 ^ 23) with 8388608. lia.
Qed.

(** ** part_001: the step command *)

Section PollStep.
Variable GetStateNumber : string -> Z.

Lemma Poll_parse_flag_field str :
  nonempty (skip_isspace str) = true ->
  (flag_field GetStateNumber (Some str) = Malformed /\
   forall s : Poll.state,
     Poll.parse_flag GetStateNumber (skip_isspace str) s = Exit Error s)
  \/ (exists b, flag_field GetStateNumber (Some str) = Given b /\
      forall s : Poll.state,
        Poll.parse_flag GetStateNumber (skip_isspace str) s = Next b s).
Proof.
  intros Hne. unfold Poll.parse_flag, flag_field. rewrite Hne.
  destruct (strtol (skip_isspace str)) as [v n].
  destruct (negb _ && negb _); [left|right; eexists]; split; reflexivity.
Qed.

Ltac flag_token str :=
  let N := fresh "N" in
  let b := fresh "b" in
  let E := fresh "E" in
  let P := fresh "P" in
  destruct (nonempty (skip_isspace str)) eqn:N;
  [ destruct (Poll_parse_flag_field str N) as [[E P]|[b [E P]]];
    rewrite E; try rewrite P
  | rewrite (flag_field_blank GetStateNumber str N) ].

(** [StepperCmndStep] is [poll_step_effect] of the arguments in the data. *)
Lemma Poll_StepperCmndStep_args data s :
  Poll.StepperCmndStep GetStateNumber data s =
  poll_step_effect (has_token data) (step_args GetStateNumber data) s.
Proof.
  unfold Poll.StepperCmndStep, poll_step_effect, step_args, has_token,
    token3, token2, token1, Poll.parse_step, comma.
  unfold handler, bind, ret, fail, modify.
  destruct (strtok_r (Some (c_str data)) _ _) as [[str|] tok] eqn:T1;
    cbn [fst snd]; [ | reflexivity ].
  f_equal. unfold number_field.
  destruct (nonempty (skip_isspace str));
    [ destruct (strtol (skip_isspace str)) as [v [|n]] eqn:E1;
      cbn [Nat.eqb];
      [ reflexivity | ] | ].
  all: next_token tok; [ | try reflexivity ].
  all: try flag_token str0; try reflexivity.
  all: try (next_token tok0; [ | try reflexivity ]).
  all: try (flag_token str1; try reflexivity).
  all: try (rewrite (to_int32_id v)
              by (pose proof (strtol_range (skip_isspace str)) as R;
                  rewrite E1 in R; exact R)).
  all: reflexivity.
Qed.
End PollStep.

(** ** Arrival *)

(** xdrv_23_stepper.ino keeps no copy of the position: startup always
    begins at position 0. *)
Lemma Isr_StepperInit_position pin teie t1l t1i :
  Isr.current_pos (Isr.StepperInit pin teie t1l t1i) = 0.
Proof. reflexivity. Qed.

(** Counterexample to C3 as stated. In xdrv_23_stepper.ino the arrival tick
    stores nothing: after a move to position 5 has arrived and the driver
    has gone idle, a restart begins at position 0 again. *)
Lemma Isr_arrival_not_persistent :
  exists s,
    Isr.run no_state_word
      [Isr.Step "5"; Isr.Tick; Isr.Tick; Isr.Tick; Isr.Tick; Isr.Tick;
       Isr.Tick] isr_boot = Some s
    /\ Isr.idle s = true
    /\ Isr.current_pos s = 5
    /\ Isr.current_pos (Isr.StepperInit all_pins 0 0 0) = 0
    /\ Isr.current_pos (Isr.StepperInit all_pins 0 0 0) <> Isr.current_pos s.
Proof.
  eexists. split; [vm_compute; reflexivity|].
  repeat split. discriminate.
Qed.

(** C3, amended. On a tick with [wanted_pos = current_pos] the sequencer
    applies the phase at [current_phase] when [lock_when_done] is set and
    the all-off phase otherwise, sets [idle] and leaves the timer interrupt
    masked; position, phase index, target, scheme and lock flag keep their
    values. In part_000 the tick also stores the position in
    [Settings.pwm_value[0..1]], from where startup reads it back;
    xdrv_23_stepper.ino has no such store. *)
Theorem tick_at_target :
  (forall s st,
     Isr.wanted_pos s = Isr.current_pos s ->
     (if Isr.lock_when_done s
      then phase_at (Isr.current_scheme s) (Isr.current_phase s)
      else Some all_off) = Some st ->
     exists s',
       Isr.stepper_timer_isr s = Some s'
       /\ Isr.pins s' = Isr.pins s ++ StepperSet (Isr.have_enable_pins s) st
       /\ Isr.idle s' = true
       /\ timer_enabled (Isr.TEIE s') = false
       /\ Isr.current_pos s' = Isr.current_pos s
       /\ Isr.current_phase s' = Isr.current_phase s
       /\ Isr.wanted_pos s' = Isr.wanted_pos s
       /\ Isr.current_scheme s' = Isr.current_scheme s
       /\ Isr.max_phase s' = Isr.max_phase s
       /\ Isr.lock_when_done s' = Isr.lock_when_done s)
  /\ (forall s st,
     Tbl.wanted_pos s = Tbl.current_pos s ->
     is_int16 (Tbl.current_pos s) ->
     (if Tbl.lock_when_done s
      then phase_at (Tbl.phases (Tbl.current_scheme s)) (Tbl.current_phase s)
      else Some all_off) = Some st ->
     exists s',
       Tbl.stepper_timer_isr s = Some s'
       /\ Tbl.pins s' = Tbl.pins s ++ StepperSet (Tbl.have_enable_pins s) st
       /\ Tbl.idle s' = true
       /\ timer_enabled (Tbl.TEIE s') = false
       /\ Tbl.saved_pos (Tbl.Settings s') = Tbl.current_pos s
       /\ Tbl.current_pos s' = Tbl.current_pos s
       /\ Tbl.current_phase s' = Tbl.current_phase s
       /\ Tbl.wanted_pos s' = Tbl.wanted_pos s
       /\ Tbl.current_scheme s' = Tbl.current_scheme s
       /\ Tbl.lock_when_done s' = Tbl.lock_when_done s).
Proof.
  split.
  - intros s st Heq Hst.
    rewrite (Isr_tick_arrived s st Heq Hst).
    eexists; split; [reflexivity|].
    unfold isr_enter. destruct s; isr_fields.
    repeat split. apply timer_enabled_disable.
  - intros s st Heq Hpos Hst.
    rewrite (Tbl_tick_arrived s st Heq Hst).
    eexists; split; [reflexivity|].
    pose proof (saved_pos_SaveCurrentPos
                  (Tbl.apply_phase st (tbl_enter s))) as SP.
    unfold tbl_enter in *. destruct s; tbl_fields.
    repeat split; [apply timer_enabled_disable | exact (SP Hpos)].
Qed.

(** The amended C3 at work, on ticks that end a move. In
    xdrv_23_stepper.ino: the move to 10 with lock arrives with phase index
    2, the driver not yet idle and the interrupt enabled; the tick applies
    phase 2 of half-step, sets [idle] and leaves the interrupt masked.
    The move to 5 without lock ends with the all-off phase. In part_000 the
    move to 10 with lock arrives with the position 0 still in [Settings];
    the tick applies phase 2, sets [idle], masks the interrupt and stores
    10. *)
Lemma tick_at_target_witness :
  (Isr.idle isr_arriving = false
   /\ timer_enabled (Isr.TEIE isr_arriving) = true
   /\ Isr.lock_when_done isr_arriving = true
   /\ Isr.current_pos isr_arriving = 10
   /\ Isr.current_phase isr_arriving = 2
   /\ exists s',
        Isr.stepper_timer_isr isr_arriving = Some s'
        /\ Isr.pins s'
           = (Isr.pins isr_arriving ++ StepperSet true (ph 1 1 0 0 1 1))%list
        /\ Isr.idle s' = true
        /\ timer_enabled (Isr.TEIE s') = false
        /\ Isr.current_pos s' = 10
        /\ Isr.current_phase s' = 2)
  /\ (Isr.idle isr_arriving_unlocked = false
      /\ Isr.lock_when_done isr_arriving_unlocked = false
      /\ Isr.current_pos isr_arriving_unlocked = 5
      /\ exists s',
           Isr.stepper_timer_isr isr_arriving_unlocked = Some s'
           /\ Isr.pins s'
              = (Isr.pins isr_arriving_unlocked
                 ++ StepperSet true all_off)%list
           /\ Isr.idle s' = true
           /\ Isr.current_pos s' = 5)
  /\ (Tbl.idle tbl_arriving = false
      /\ timer_enabled (Tbl.TEIE tbl_arriving) = true
      /\ Tbl.lock_when_done tbl_arriving = true
      /\ Tbl.current_pos tbl_arriving = 10
      /\ Tbl.saved_pos (Tbl.Settings tbl_arriving) = 0
      /\ exists s',
           Tbl.stepper_timer_isr tbl_arriving = Some s'
           /\ Tbl.pins s'
              = (Tbl.pins tbl_arriving
                 ++ StepperSet true (ph 1 1 0 0 1 1))%list
           /\ Tbl.idle s' = true
           /\ timer_enabled (Tbl.TEIE s') = false
           /\ Tbl.saved_pos (Tbl.Settings s') = 10
           /\ Tbl.current_pos s' = 10).
Proof.
  split; [|split].
  - repeat (split; [vm_compute; reflexivity|]).
    destruct (proj1 tick_at_target isr_arriving (ph 1 1 0 0 1 1))
      as (s' & E & P & I & T & C & Q & _);
      [vm_compute; reflexivity | vm_compute; reflexivity | ].
    exists s'. split; [exact E|]. split; [exact P|]. split; [exact I|].
    split; [exact T|]. split; [rewrite C|rewrite Q]; vm_compute; reflexivity.
  - repeat (split; [vm_compute; reflexivity|]).
    destruct (proj1 tick_at_target isr_arriving_unlocked all_off)
      as (s' & E & P & I & _ & C & _);
      [vm_compute; reflexivity | vm_compute; reflexivity | ].
    exists s'. split; [exact E|]. split; [exact P|]. split; [exact I|].
    rewrite C. vm_compute; reflexivity.
  - repeat (split; [vm_compute; reflexivity|]).
    assert (is_int16 (Tbl.current_pos tbl_arriving)) as R
      by (vm_compute; split; discriminate).
    destruct (proj2 tick_at_target tbl_arriving (ph 1 1 0 0 1 1))
      as (s' & E & P & I & T & SP & C & _);
      [vm_compute; reflexivity | exact R | vm_compute; reflexivity | ].
    exists s'. split; [exact E|]. split; [exact P|]. split; [exact I|].
    split; [exact T|]. split; [rewrite SP|rewrite C]; vm_compute; reflexivity.
Defined.

(** Startup of part_000 restores the position that was saved. *)
Lemma Tbl_StepperInit_position pin stored teie t1l t1i :
  Tbl.current_pos (Tbl.StepperInit pin stored teie t1l t1i)
  = Tbl.saved_pos stored.
Proof.
  unfold Tbl.StepperInit, Tbl.SelectScheme.
  repeat match goal with
         | |- context [if ?b then _ else _] => destruct b
         end; reflexivity.
Qed.

(** Startup of part_000 with scheme index 0 in [Settings]: [SelectScheme]
    finds the index equal to the zero-initialised [current_scheme_index] and
    returns before it loads the table. The driver then starts idle with no
    scheme ([max_phase] 0), with the restored position 7 and the target 0,
    and its first tick reads outside the (absent) table. The invariants
    proved above for xdrv_23_stepper.ino do not carry over to this
    revision. *)
Lemma Tbl_startup_scheme0_not_loaded :
  exists s,
    s = Tbl.StepperInit all_pins (Tbl.mk_settings 2000 7 0 0) 0 0 0
    /\ Tbl.current_scheme s = Tbl.null_scheme
    /\ Tbl.idle s = true
    /\ Tbl.current_pos s = 7
    /\ Tbl.wanted_pos s = 0
    /\ Tbl.stepper_timer_isr s = None.
Proof.
  eexists. split; [reflexivity|]. repeat split.
Qed.

(** ** Commands that fail *)

(** A step command that fails has cleared [lock_when_done] and done
    nothing else. *)
Lemma Isr_failed_step_frame gsn data s s' :
  Isr.StepperCmndStep gsn data s = (Error, s') ->
  s' = Isr.set_lock_when_done false s.
Proof.
  rewrite Isr_StepperCmndStep_args. unfold isr_step_effect.
  destruct (step_args gsn data) as [[p a] l].
  destruct (well_formed p && well_formed a && well_formed l);
    intros E; inversion E; reflexivity.
Qed.

(** A speed command that fails has changed nothing but, possibly,
    [tick_us]. *)
Lemma Isr_failed_speed_frame data s s' :
  Isr.StepperCmndSpeed data s = (Error, s') ->
  s' = s \/ exists t, s' = Isr.set_tick_us t s.
Proof.
  rewrite Isr_StepperCmndSpeed_args. unfold isr_speed_effect.
  destruct (speed_args data) as [[| |v] [| |c]]; cbn [fst snd];
    try destruct (isr_scheme_for c _) as [[tbl n]|];
    intros E; inversion E; eauto.
Qed.

(** Counterexample to C4 as stated, in xdrv_23_stepper.ino. While a move
    with lock on arrival is under way, a step command with an unreadable
    position answers with an error and has cleared [lock_when_done]. After
    startup, a speed command with a scheme code out of range answers with
    an error and has changed [tick_us] from 2000 to 100, and one with an
    unreadable period answers with an error and has set [tick_us] to 0. *)
Lemma Isr_failed_command_changes_state :
  Isr.lock_when_done isr_locking = true
  /\ (exists s',
        Isr.StepperCmndStep no_state_word "x" isr_locking = (Error, s')
        /\ Isr.lock_when_done s' = false
        /\ Isr.lock_when_done s' <> Isr.lock_when_done isr_locking)
  /\ Isr.tick_us isr_boot = 2000
  /\ (exists s',
        Isr.StepperCmndSpeed "100,9" isr_boot = (Error, s')
        /\ Isr.tick_us s' = 100
        /\ Isr.tick_us s' <> Isr.tick_us isr_boot)
  /\ (exists s',
        Isr.StepperCmndSpeed "x" isr_boot = (Error, s')
        /\ Isr.tick_us s' = 0
        /\ Isr.tick_us s' <> Isr.tick_us isr_boot).
Proof.
  split; [reflexivity|]. split; [|split; [reflexivity|split]].
  - eexists. split; [vm_compute; reflexivity|].
    split; [reflexivity|discriminate].
  - eexists. split; [vm_compute; reflexivity|].
    split; [reflexivity|discriminate].
  - eexists. split; [vm_compute; reflexivity|].
    split; [reflexivity|discriminate].
Qed.

(** C4, amended, for xdrv_23_stepper.ino. The calibrate command never
    fails. A step command that fails leaves positions, phase index, scheme,
    [idle], the tick period and the hardware as they were and leaves
    [lock_when_done] false, having cleared it before it read its arguments.
    A speed command that fails leaves positions, phase index, scheme,
    [idle], [lock_when_done] and the hardware as they were; it takes its
    arguments in order, so a period that was read stays in [tick_us] when
    the scheme code after it is unreadable or out of range. *)
Theorem failed_command_frame (GetStateNumber : string -> Z) :
  (forall s, fst (Isr.StepperCmndCalibrate s) = Done)
  /\ (forall data s s',
        Isr.StepperCmndStep GetStateNumber data s = (Error, s') ->
        Isr.current_pos s' = Isr.current_pos s
        /\ Isr.wanted_pos s' = Isr.wanted_pos s
        /\ Isr.current_phase s' = Isr.current_phase s
        /\ Isr.current_scheme s' = Isr.current_scheme s
        /\ Isr.max_phase s' = Isr.max_phase s
        /\ Isr.idle s' = Isr.idle s
        /\ Isr.tick_us s' = Isr.tick_us s
        /\ Isr.lock_when_done s' = false
        /\ Isr.TEIE s' = Isr.TEIE s /\ Isr.T1L s' = Isr.T1L s
        /\ Isr.pins s' = Isr.pins s)
  /\ (forall data s s',
        Isr.StepperCmndSpeed data s = (Error, s') ->
        Isr.current_pos s' = Isr.current_pos s
        /\ Isr.wanted_pos s' = Isr.wanted_pos s
        /\ Isr.current_phase s' = Isr.current_phase s
        /\ Isr.current_scheme s' = Isr.current_scheme s
        /\ Isr.max_phase s' = Isr.max_phase s
        /\ Isr.idle s' = Isr.idle s
        /\ Isr.lock_when_done s' = Isr.lock_when_done s
        /\ Isr.TEIE s' = Isr.TEIE s /\ Isr.T1L s' = Isr.T1L s
        /\ Isr.pins s' = Isr.pins s)
  /\ (forall data s v c,
        fst (speed_args data) = Given v ->
        snd (speed_args data) = Malformed
        \/ (snd (speed_args data) = Given c /\ (c < 0 \/ 3 < c)) ->
        Isr.StepperCmndSpeed data s
        = (Error, Isr.set_tick_us (to_uint32 v) s)).
Proof.
  split; [reflexivity|]. split; [|split].
  - intros data s s' E. apply Isr_failed_step_frame in E. subst s'.
    destruct s; isr_fields. repeat split.
  - intros data s s' E.
    destruct (Isr_failed_speed_frame data s s' E) as [->|[t ->]];
      destruct s; isr_fields; repeat split.
  - intros data s v c Hv Hc. rewrite Isr_StepperCmndSpeed_args.
    unfold isr_speed_effect. rewrite Hv.
    destruct Hc as [->|[-> Hr]]; [reflexivity|].
    assert (isr_scheme_for c (Isr.have_enable_pins s) = None) as ->.
    { destruct (isr_scheme_for c (Isr.have_enable_pins s))
        as [[tbl n]|] eqn:E; [|reflexivity].
      apply isr_scheme_for_builtin in E. lia. }
    reflexivity.
Qed.

(** The amended C4 at work: the failing step command during the locking
    move, and the speed command with scheme code 9 after startup. *)
Lemma failed_command_frame_witness :
  (exists s',
     Isr.StepperCmndStep no_state_word "x" isr_locking = (Error, s')
     /\ Isr.wanted_pos s' = 10
     /\ Isr.lock_when_done s' = false)
  /\ Isr.StepperCmndSpeed "100,9" isr_boot
     = (Error, Isr.set_tick_us 100 isr_boot).
Proof.
  destruct (failed_command_frame no_state_word) as (_ & P2 & _ & P4).
  split.
  - destruct (Isr.StepperCmndStep no_state_word "x" isr_locking)
      as [r s'] eqn:E.
    assert (r = Error) as -> by (vm_compute in E; congruence).
    destruct (P2 "x"%string isr_locking s' E) as (_ & W & _ & _ & _ & _ & _ & L & _).
    exists s'. split; [reflexivity|]. split; [rewrite W; reflexivity|exact L].
  - apply (P4 "100,9"%string isr_boot 100 9 eq_refl).
    right. split; [reflexivity|lia].
Defined.

(** ** Choosing a scheme *)

(** In xdrv_23_stepper.ino, scheme code 3 without enable pins selects the
    half-step table. *)
Lemma Isr_scheme3_without_enable_pins data s :
  Isr.have_enable_pins s = false ->
  well_formed (fst (speed_args data)) = true ->
  snd (speed_args data) = Given 3 ->
  exists s',
    Isr.StepperCmndSpeed data s = (Done, s')
    /\ Isr.current_scheme s' = half_step
    /\ Isr.max_phase s' = 8
    /\ Isr.current_phase s' = 0.
Proof.
  intros Hep Hwf H3. rewrite Isr_StepperCmndSpeed_args.
  unfold isr_speed_effect. rewrite H3, Hep.
  destruct (fst (speed_args data)); try discriminate;
    cbn [isr_scheme_for]; eexists; (split; [reflexivity|]);
    destruct s; isr_fields; repeat split.
Qed.

(** With enable pins it selects the table with inhibition. *)
Lemma Isr_scheme3_with_enable_pins data s :
  Isr.have_enable_pins s = true ->
  well_formed (fst (speed_args data)) = true ->
  snd (speed_args data) = Given 3 ->
  exists s',
    Isr.StepperCmndSpeed data s = (Done, s')
    /\ Isr.current_scheme s' = half_step_inhibit
    /\ Isr.max_phase s' = 8.
Proof.
  intros Hep Hwf H3. rewrite Isr_StepperCmndSpeed_args.
  unfold isr_speed_effect. rewrite H3, Hep.
  destruct (fst (speed_args data)); try discriminate;
    cbn [isr_scheme_for]; eexists; (split; [reflexivity|]);
    destruct s; isr_fields; repeat split.
Qed.

(** C5 at its failing input: the speed command "2000,3" after startup with
    the enable pins not configured. xdrv_23_stepper.ino answers Done and
    selects the half-step table of 8 phases; part_000 answers Done too but
    loads the table with inhibition, although [have_enable_pins] is
    false. *)
Theorem scheme3_without_enable_pins :
  Isr.have_enable_pins isr_boot_no_enable = false
  /\ (exists s',
        Isr.StepperCmndSpeed "2000,3" isr_boot_no_enable = (Done, s')
        /\ Isr.current_scheme s' = half_step
        /\ Isr.max_phase s' = 8)
  /\ Tbl.have_enable_pins tbl_boot_no_enable = false
  /\ (exists s',
        Tbl.StepperCmndSpeed "2000,3" tbl_boot_no_enable = (Done, s')
        /\ Tbl.have_enable_pins s' = false
        /\ Tbl.current_scheme s' = Tbl.mk_scheme half_step_inhibit 8).
Proof.
  split; [reflexivity|]. split.
  - eexists. split; [vm_compute; reflexivity|]. split; reflexivity.
  - split; [reflexivity|].
    eexists. split; [vm_compute; reflexivity|]. split; reflexivity.
Qed.

(** Counterexample to C9 as stated. In part_000, with a move from 0 to 5
    under way in scheme 2, the speed command "2000,1" changes the scheme and
    also moves the target: [wanted_pos] goes from 5 to 0. *)
Lemma Tbl_scheme_change_moves_target :
  Tbl.wanted_pos tbl_moving = 5
  /\ Tbl.current_scheme_index tbl_moving = 2
  /\ exists s',
       Tbl.StepperCmndSpeed "2000,1" tbl_moving = (Done, s')
       /\ Tbl.current_scheme_index s' = 1
       /\ Tbl.wanted_pos s' = 0
       /\ Tbl.wanted_pos s' <> Tbl.wanted_pos tbl_moving.
Proof.
  split; [reflexivity|]. split; [reflexivity|].
  eexists. split; [vm_compute; reflexivity|].
  split; [reflexivity|]. split; [reflexivity|]. discriminate.
Qed.

(** C9, amended. A speed command that selects a scheme (codes 0 to 3) sets
    [current_phase] to 0 and leaves [current_pos], [idle], [lock_when_done]
    and the pins as they were. In xdrv_23_stepper.ino [wanted_pos] is left
    alone as well; in part_000, where the change happens only for a code
    other than the current one, [SelectScheme] sets [wanted_pos] to
    [current_pos]. *)
Theorem speed_selects_scheme :
  (forall data s c,
     well_formed (fst (speed_args data)) = true ->
     snd (speed_args data) = Given c ->
     0 <= c <= 3 ->
     exists s',
       Isr.StepperCmndSpeed data s = (Done, s')
       /\ isr_scheme_for c (Isr.have_enable_pins s)
          = Some (Isr.current_scheme s', Isr.max_phase s')
       /\ Isr.current_phase s' = 0
       /\ Isr.current_pos s' = Isr.current_pos s
       /\ Isr.wanted_pos s' = Isr.wanted_pos s
       /\ Isr.idle s' = Isr.idle s
       /\ Isr.lock_when_done s' = Isr.lock_when_done s
       /\ Isr.pins s' = Isr.pins s
       /\ Isr.TEIE s' = Isr.TEIE s
       /\ Isr.T1L s' = Isr.T1L s)
  /\ (forall data s c,
     well_formed (fst (speed_args data)) = true ->
     snd (speed_args data) = Given c ->
     0 <= c <= 3 ->
     c <> Tbl.current_scheme_index s ->
     exists s',
       Tbl.StepperCmndSpeed data s = (Done, s')
       /\ Tbl.current_scheme s'
          = nth (Z.to_nat c) Tbl.control_schemes Tbl.null_scheme
       /\ Tbl.current_scheme_index s' = c
       /\ Tbl.current_phase s' = 0
       /\ Tbl.current_pos s' = Tbl.current_pos s
       /\ Tbl.wanted_pos s' = Tbl.current_pos s
       /\ Tbl.idle s' = Tbl.idle s
       /\ Tbl.lock_when_done s' = Tbl.lock_when_done s
       /\ Tbl.pins s' = Tbl.pins s).
Proof.
  split.
  - intros data s c Hwf Hc Hr. rewrite Isr_StepperCmndSpeed_args.
    unfold isr_speed_effect. rewrite Hc.
    assert (exists tbl n, isr_scheme_for c (Isr.have_enable_pins s)
                          = Some (tbl, n)) as (tbl & n & E).
    { unfold isr_scheme_for.
      assert (c = 0 \/ c = 1 \/ c = 2 \/ c = 3) as Hcases by lia.
      destruct Hcases as [E|[E|[E|E]]]; subst c;
        try destruct (Isr.have_enable_pins s); eauto. }
    rewrite E.
    destruct (fst (speed_args data)); try discriminate;
      eexists; (split; [reflexivity|]);
      destruct s; isr_fields; repeat split.
  - intros data s c Hwf Hc Hr Hne. rewrite Tbl_StepperCmndSpeed_args.
    unfold tbl_speed_effect. rewrite Hc.
    set (s1 := match fst (speed_args data) with
               | Given v => _ | _ => s end).
    assert (Tbl.current_scheme_index s1 = Tbl.current_scheme_index s
            /\ Tbl.current_pos s1 = Tbl.current_pos s
            /\ Tbl.idle s1 = Tbl.idle s
            /\ Tbl.lock_when_done s1 = Tbl.lock_when_done s
            /\ Tbl.pins s1 = Tbl.pins s) as (F1 & F2 & F3 & F4 & F5).
    { subst s1. destruct (fst (speed_args data)) as [| |v];
        try (repeat split; reflexivity).
      destruct (negb _); destruct s; repeat split; reflexivity. }
    rewrite <- F1 in Hne.
    destruct (Tbl_SelectScheme_change c s1 Hr Hne)
      as (s' & E & G1 & G2 & G3 & G4 & G5 & G6 & G7 & G8 & G9 & G10).
    rewrite E.
    destruct (fst (speed_args data)) eqn:F; try discriminate;
      exists s'; repeat split; congruence.
Qed.

(** The amended C9 at work: scheme 1 chosen while a move from 0 to 5 is
    under way in scheme 2. *)
Lemma speed_selects_scheme_witness :
  (exists s',
     Isr.StepperCmndSpeed "2000,1" isr_moving = (Done, s')
     /\ Isr.current_phase s' = 0
     /\ Isr.wanted_pos s' = Isr.wanted_pos isr_moving)
  /\ (exists s',
     Tbl.StepperCmndSpeed "2000,1" tbl_moving = (Done, s')
     /\ Tbl.current_phase s' = 0
     /\ Tbl.wanted_pos s' = Tbl.current_pos tbl_moving).
Proof.
  split.
  - destruct (proj1 speed_selects_scheme "2000,1"%string isr_moving 1
                eq_refl eq_refl)
      as (s' & E & _ & P & _ & W & _); [lia|].
    exists s'. repeat split; assumption.
  - destruct (proj2 speed_selects_scheme "2000,1"%string tbl_moving 1
                eq_refl eq_refl)
      as (s' & E & _ & _ & P & _ & W & _); [lia| vm_compute; discriminate |].
    exists s'. repeat split; assumption.
Defined.

(** ** The tick period and the timer *)

(** Counterexample to C6 as stated. xdrv_23_stepper.ino accepts the period
    200000 and the next tick loads 16000000 into the 23-bit register;
    part_000 accepts the same command too and keeps 200000 mod 65536. *)
Lemma tick_period_not_checked :
  (exists s1 s2,
     Isr.StepperCmndSpeed "200000" isr_boot = (Done, s1)
     /\ Isr.tick_us s1 = 200000
     /\ Isr.run no_state_word [Isr.Step "5"; Isr.Tick] s1 = Some s2
     /\ Isr.T1L s2 = 16000000
     /\ ~ fits_T1L (Isr.T1L s2))
  /\ (exists s1,
     Tbl.StepperCmndSpeed "200000" tbl_boot = (Done, s1)
     /\ Tbl.tick_us s1 = 3392
     /\ ~ fits_T1L (ESP8266_CLOCK / 1000000 * 200000)).
Proof.
  split.
  - eexists _, _. split; [vm_compute; reflexivity|].
    split; [reflexivity|]. split; [vm_compute; reflexivity|].
    split; [reflexivity|].
    unfold fits_T1L, T1L_bits. cbn [Isr.T1L]. change (2 ^ 23) with 8388608.
    lia.
  - eexists. split; [vm_compute; reflexivity|]. split; [reflexivity|].
    unfold fits_T1L, T1L_bits. change (2 ^ 23) with 8388608.
    change (ESP8266_CLOCK / 1000000 * 200000) with 16000000. lia.
Qed.

(** C6, amended. In part_000, where [tick_us] is a 16-bit value, whatever
    the speed command stores is a 16-bit value again and 80 times that fits
    the 23-bit load register; this is the value the interrupt handler loads
    when it leaves the timer running. No period is turned down for its
    size: a period given alone is accepted and stored modulo 65536. *)
Theorem Tbl_tick_period_fits :
  (forall data s,
     is_uint16 (Tbl.tick_us s) ->
     is_uint16 (Tbl.tick_us (snd (Tbl.StepperCmndSpeed data s)))
     /\ fits_T1L (ESP8266_CLOCK / 1000000
                  * Tbl.tick_us (snd (Tbl.StepperCmndSpeed data s))))
  /\ (forall s s',
     is_uint16 (Tbl.tick_us s) ->
     Tbl.stepper_timer_isr s = Some s' -> Tbl.idle s' = false ->
     Tbl.T1L s' = ESP8266_CLOCK / 1000000 * Tbl.tick_us s
     /\ fits_T1L (Tbl.T1L s'))
  /\ (forall data s v,
     fst (speed_args data) = Given v -> snd (speed_args data) = Absent ->
     exists s',
       Tbl.StepperCmndSpeed data s = (Done, s')
       /\ Tbl.tick_us s' = to_uint16 v).
Proof.
  split; [|split].
  - intros data s Hu.
    assert (is_uint16 (Tbl.tick_us (snd (Tbl.StepperCmndSpeed data s)))) as R.
    { rewrite Tbl_StepperCmndSpeed_args. unfold tbl_speed_effect.
      set (s1 := match fst (speed_args data) with
                 | Given v => _ | _ => s end).
      assert (is_uint16 (Tbl.tick_us s1)) as H1.
      { subst s1. destruct (fst (speed_args data)) as [| |v]; try exact Hu.
        destruct (negb _); [|exact Hu].
        destruct s; tbl_fields. apply to_uint16_range. }
      destruct (fst (speed_args data)), (snd (speed_args data)) as [| |c];
        cbn [snd]; try exact H1.
      all: pose proof (Tbl_SelectScheme_tick_us c s1) as T;
        destruct (Tbl.SelectScheme c s1) as [ok s2]; cbn [snd] in *;
        rewrite T; exact H1. }
    split; [exact R|].
    unfold fits_T1L, T1L_bits, is_uint16 in *.
    change (ESP8266_CLOCK / 1000000) with 80. change (2 ^ 23) with 8388608.
    lia.
  - intros s s' Hu E Hi. change (ESP8266_CLOCK / 1000000) with 80.
    exact (Tbl_isr_reload s s' Hu E Hi).
  - intros data s v Hv Ha. rewrite Tbl_StepperCmndSpeed_args.
    unfold tbl_speed_effect. rewrite Hv, Ha.
    eexists; split; [reflexivity|].
    destruct (Z.eqb_spec (to_uint16 v) (Tbl.tick_us s)) as [E|E]; cbn [negb].
    + symmetry; exact E.
    + destruct s; reflexivity.
Qed.

(** The amended C6 at work: the period 200000 is accepted as 3392, and the
    reload after it is 80 * 3392. *)
Lemma Tbl_tick_period_fits_witness :
  (exists s',
     Tbl.StepperCmndSpeed "200000" tbl_boot = (Done, s')
     /\ Tbl.tick_us s' = 3392)
  /\ fits_T1L (ESP8266_CLOCK / 1000000
               * Tbl.tick_us (snd (Tbl.StepperCmndSpeed "200000" tbl_boot)))
  /\ (exists s',
     Tbl.stepper_timer_isr tbl_moving = Some s'
     /\ Tbl.T1L s' = 160000).
Proof.
  assert (is_uint16 (Tbl.tick_us tbl_boot)) as U0
    by (vm_compute; split; discriminate).
  assert (is_uint16 (Tbl.tick_us tbl_moving)) as U1
    by (vm_compute; split; discriminate).
  destruct Tbl_tick_period_fits as (P1 & P2 & P3).
  split; [|split].
  - destruct (P3 "200000"%string tbl_boot 200000 eq_refl eq_refl)
      as (s' & E & T).
    exists s'. split; [exact E|]. rewrite T. reflexivity.
  - exact (proj2 (P1 "200000"%string tbl_boot U0)).
  - destruct (Tbl.stepper_timer_isr tbl_moving) as [s'|] eqn:E;
      [|vm_compute in E; discriminate].
    assert (Tbl.idle s' = false) as I
      by (vm_compute in E; injection E as <-; reflexivity).
    destruct (P2 tbl_moving s' U1 E I) as [L _].
    exists s'. split; [reflexivity|]. rewrite L. reflexivity.
Defined.

(** ** The step command *)

(** Counterexample to C7 as stated. In part_001, at rest at position 10, a
    step command without arguments does not target position 0: with empty
    data the handler reads through the null pointer that [strtok_r]
    returned, and with blank data (no position, no flags) it answers Done
    and the target stays at 10. *)
Lemma Poll_step_defaults_differ :
  Poll.current_pos poll_at_10 = 10
  /\ Poll.idle poll_at_10 = true
  /\ Poll.StepperCmndStep no_state_word "" poll_at_10 = None
  /\ (exists s',
        Poll.StepperCmndStep no_state_word " " poll_at_10 = Some (Done, s')
        /\ Poll.wanted_pos s' = 10
        /\ Poll.wanted_pos s' <> 0).
Proof.
  split; [reflexivity|]. split; [reflexivity|]. split; [reflexivity|].
  eexists. split; [vm_compute; reflexivity|].
  split; [reflexivity|discriminate].
Qed.

(** C7, amended. In xdrv_23_stepper.ino a step command succeeds exactly
    when none of its arguments is unreadable. On success [wanted_pos] is
    the requested position when [is_absolute] is set (the default) and
    [current_pos] plus the requested position, in the 32-bit position type,
    when it is clear; [lock_when_done] is the third argument (false when
    left out), [idle] is false, the Timer1 interrupt is enabled and the
    timer is loaded with 1 if the driver was idle; a command without
    arguments targets position 0 with [lock_when_done] false.
    In part_001 the second argument is [is_relative] with default true. A
    command whose data holds at least one token succeeds exactly when none
    of its arguments is unreadable. On success [wanted_pos] is
    [current_pos] plus the requested position (32-bit) when [is_relative]
    is set and the requested position when it is clear, a position left
    out counting as 0; [lock_when_done] is the third argument (false when
    left out) and [idle] is false. So a command in which every argument is
    left blank keeps [current_pos] as its target. *)
Theorem step_sets_target (GetStateNumber : string -> Z) :
  (forall data s,
     fst (Isr.StepperCmndStep GetStateNumber data s)
     = (let '(p, a, l) := step_args GetStateNumber data in
        if well_formed p && well_formed a && well_formed l
        then Done else Error))
  /\ (forall data s s' p a l,
     Isr.StepperCmndStep GetStateNumber data s = (Done, s') ->
     step_args GetStateNumber data = (p, a, l) ->
     Isr.wanted_pos s'
     = (if field_or true a then field_or 0 p
        else to_int32 (Isr.current_pos s + field_or 0 p))
     /\ Isr.lock_when_done s' = field_or false l
     /\ Isr.idle s' = false
     /\ timer_enabled (Isr.TEIE s') = true
     /\ (Isr.idle s = true -> Isr.T1L s' = 1)
     /\ Isr.current_pos s' = Isr.current_pos s
     /\ Isr.current_phase s' = Isr.current_phase s)
  /\ (forall data s,
     has_token data = false ->
     exists s',
       Isr.StepperCmndStep GetStateNumber data s = (Done, s')
       /\ Isr.wanted_pos s' = 0
       /\ Isr.lock_when_done s' = false
       /\ Isr.idle s' = false
       /\ timer_enabled (Isr.TEIE s') = true)
  /\ (forall data s s' p a l,
     Poll.StepperCmndStep GetStateNumber data s = Some (Done, s') ->
     step_args GetStateNumber data = (p, a, l) ->
     Poll.wanted_pos s'
     = (if field_or true a
        then to_int32 (Poll.current_pos s + field_or 0 p)
        else field_or 0 p)
     /\ Poll.lock_when_done s' = field_or false l
     /\ Poll.idle s' = false
     /\ Poll.current_pos s' = Poll.current_pos s)
  /\ (forall data s,
     has_token data = true ->
     exists s',
       Poll.StepperCmndStep GetStateNumber data s
       = Some ((let '(p, a, l) := step_args GetStateNumber data in
                if well_formed p && well_formed a && well_formed l
                then Done else Error), s'))
  /\ (forall data s s',
     Poll.StepperCmndStep GetStateNumber data s = Some (Done, s') ->
     step_args GetStateNumber data = (Absent, Absent, Absent) ->
     is_int32 (Poll.current_pos s) ->
     Poll.wanted_pos s' = Poll.current_pos s
     /\ Poll.lock_when_done s' = false
     /\ Poll.idle s' = false).
Proof.
  split; [|split; [|split; [|split; [|split]]]].
  - intros data s. rewrite Isr_StepperCmndStep_args. unfold isr_step_effect.
    destruct (step_args GetStateNumber data) as [[p a] l].
    destruct (well_formed p && well_formed a && well_formed l); reflexivity.
  - intros data s s' p a l E A.
    rewrite Isr_StepperCmndStep_args, A in E.
    unfold isr_step_effect, isr_start_move in E.
    destruct (well_formed p && well_formed a && well_formed l);
      [|discriminate].
    injection E as <-.
    assert (to_int32 (field_or 0 p) = field_or 0 p) as Rq.
    { apply to_int32_id. unfold step_args in A. injection A as Hp _ _.
      destruct p as [| |v]; cbn [field_or]; try (unfold is_int32; lia).
      exact (number_field_range _ _ Hp). }
    rewrite Rq.
    destruct s; destruct l as [| |b]; isr_fields; destruct idle; isr_fields;
      repeat split; try apply timer_enabled_enable; try discriminate.
  - intros data s Hnone. rewrite Isr_StepperCmndStep_args.
    unfold has_token in Hnone.
    unfold step_args, token3, token2.
    destruct (token1 data) as [[str|] tok] eqn:T1; cbn [fst] in Hnone;
      [discriminate|].
    unfold token1 in T1. apply strtok_r_None_saveptr in T1. subst tok.
    cbn [fst snd]. change (strtok_r None comma EmptyString)
      with (@None string, EmptyString). cbn [fst snd].
    change (strtok_r None comma EmptyString)
      with (@None string, EmptyString). cbn [fst snd number_field flag_field].
    unfold isr_step_effect, isr_start_move.
    cbn [well_formed andb field_or].
    eexists; split; [reflexivity|].
    destruct s; isr_fields; destruct idle; isr_fields; repeat split;
      apply timer_enabled_enable.
  - intros data s s' p a l E A.
    rewrite Poll_StepperCmndStep_args, A in E.
    unfold poll_step_effect in E.
    destruct (has_token data); [|discriminate].
    destruct (well_formed p && well_formed a && well_formed l);
      [|discriminate].
    injection E as <-.
    assert (to_int32 (field_or 0 p) = field_or 0 p) as Rq.
    { apply to_int32_id. unfold step_args in A. injection A as Hp _ _.
      destruct p as [| |v]; cbn [field_or]; try (unfold is_int32; lia).
      exact (number_field_range _ _ Hp). }
    rewrite Rq.
    destruct s; destruct l as [| |b]; poll_fields; repeat split.
  - intros data s Ht. rewrite Poll_StepperCmndStep_args, Ht.
    unfold poll_step_effect.
    destruct (step_args GetStateNumber data) as [[p a] l].
    destruct (well_formed p && well_formed a && well_formed l);
      eexists; reflexivity.
  - intros data s s' E A R.
    rewrite Poll_StepperCmndStep_args, A in E.
    unfold poll_step_effect in E.
    destruct (has_token data); [|discriminate].
    cbn [well_formed andb field_or] in E. injection E as <-.
    change (to_int32 0) with 0. rewrite Z.add_0_r.
    rewrite (to_int32_id _ R).
    destruct s; poll_fields; repeat split.
Qed.

(** The amended C7 at work: "5" after startup, a command without arguments
    during that move, and in part_001, at rest at position 10, an absolute
    move to 5, a relative move by 5 and a command with blank data. *)
Lemma step_sets_target_witness :
  (Isr.wanted_pos isr_moving = 5
   /\ Isr.idle isr_moving = false
   /\ timer_enabled (Isr.TEIE isr_moving) = true
   /\ Isr.T1L isr_moving = 1)
  /\ (exists s',
        Isr.StepperCmndStep no_state_word "" isr_moving = (Done, s')
        /\ Isr.wanted_pos s' = 0
        /\ Isr.lock_when_done s' = false)
  /\ (exists s',
        Poll.StepperCmndStep no_state_word "5,0" poll_at_10 = Some (Done, s')
        /\ Poll.wanted_pos s' = 5
        /\ Poll.idle s' = false)
  /\ (exists s',
        Poll.StepperCmndStep no_state_word "5,1,1" poll_at_10
        = Some (Done, s')
        /\ Poll.wanted_pos s' = 15
        /\ Poll.lock_when_done s' = true)
  /\ (exists s',
        Poll.StepperCmndStep no_state_word " " poll_at_10 = Some (Done, s')
        /\ Poll.wanted_pos s' = 10
        /\ Poll.idle s' = false).
Proof.
  destruct (step_sets_target no_state_word) as (_ & P2 & P3 & P4 & P5 & P6).
  split; [|split; [|split; [|split]]].
  - destruct (P2 "5"%string isr_boot isr_moving (Given 5) Absent Absent
                eq_refl eq_refl) as (W & _ & I & T & L & _).
    split; [exact W|]. split; [exact I|]. split; [exact T|exact (L eq_refl)].
  - destruct (P3 ""%string isr_moving eq_refl) as (s' & E & W & L & _).
    exists s'. repeat split; assumption.
  - destruct (P5 "5,0"%string poll_at_10 eq_refl) as (s' & E).
    destruct (P4 "5,0"%string poll_at_10 s' (Given 5) (Given false) Absent
                E eq_refl) as (W & _ & I & _).
    exists s'. repeat split; assumption.
  - destruct (P5 "5,1,1"%string poll_at_10 eq_refl) as (s' & E).
    destruct (P4 "5,1,1"%string poll_at_10 s' (Given 5) (Given true)
                (Given true) E eq_refl) as (W & L & _).
    exists s'. repeat split; assumption.
  - destruct (P5 " "%string poll_at_10 eq_refl) as (s' & E).
    assert (is_int32 (Poll.current_pos poll_at_10)) as R
      by (vm_compute; split; discriminate).
    destruct (P6 " "%string poll_at_10 s' E eq_refl R) as (W & _ & I).
    exists s'. repeat split; assumption.
Defined.

(** C2 at work: the first tick of a move from 0 to 5 in half-step. *)
Lemma tick_moves_one_step_witness :
  (exists s',
     Isr.stepper_timer_isr isr_moving = Some s'
     /\ Isr.current_phase s' = 1 /\ Isr.current_pos s' = 1)
  /\ (exists s',
     Poll.StepperTick poll_moving = Some s'
     /\ Poll.current_phase s' = 1 /\ Poll.current_pos s' = 1).
Proof.
  destruct tick_moves_one_step as [P Q].
  split.
  - assert (isr_valid isr_moving) as V
      by (repeat split; vm_compute; discriminate).
    assert (Isr.wanted_pos isr_moving <> Isr.current_pos isr_moving) as N
      by (vm_compute; discriminate).
    destruct (P isr_moving V N) as (s' & st & E & [Up _] & _).
    destruct (Up eq_refl) as (_ & C & X).
    exists s'. repeat split; assumption.
  - assert (poll_valid poll_moving) as V
      by (repeat split; vm_compute; discriminate).
    assert (Poll.wanted_pos poll_moving <> Poll.current_pos poll_moving) as N
      by (vm_compute; discriminate).
    destruct (Q poll_moving V N) as (s' & st & E & [Up _] & _).
    destruct (Up eq_refl) as (_ & C & X).
    exists s'. repeat split; assumption.
Defined.

(* ================================================================== *)
(** * Further properties of the code                                    *)
(* ================================================================== *)

(** ** The output driver: the levels it leaves *)

(** X1. With the enable pins present, [StepperSet] leaves each of the six
    lines at the bit the phase has for it, whatever the level was before,
    with six writes. Without them it leaves the four direction
    lines at the bits of the phase and the enable lines as they were. *)
Theorem StepperSet_sets_levels (st : stepper_state_t) (l : line) (b : bool) :
  level_after (StepperSet true st) l b = phase_bit st l
  /\ List.length (StepperSet true st) = 6%nat
  /\ level_after (StepperSet false st) l b
     = (if is_enable l then b else phase_bit st l).
Proof.
  destruct st as [ap bp an bn [|] [|]], l; repeat split.
Qed.

(** ** xdrv_23_stepper.ino: a move from start to arrival *)

Lemma Isr_tick_up_valid s :
  isr_valid s -> Isr.current_pos s < Isr.wanted_pos s ->
  exists s',
    Isr.stepper_timer_isr s = Some s'
    /\ isr_valid s'
    /\ Isr.current_pos s' = Isr.current_pos s + 1
    /\ Isr.wanted_pos s' = Isr.wanted_pos s
    /\ Isr.current_phase s'
       = (Isr.current_phase s + 1) mod Isr.max_phase s
    /\ Isr.max_phase s' = Isr.max_phase s
    /\ Isr.current_scheme s' = Isr.current_scheme s
    /\ Isr.lock_when_done s' = Isr.lock_when_done s
    /\ Isr.idle s' = Isr.idle s.
Proof.
  intros V Hlt. destruct (Isr_tick_up s V Hlt) as (st & Hst & ->).
  destruct V as (Hc & Hw & Hp & Hlen & Hmax).
  assert (0 <= (Isr.current_phase s + 1) mod Isr.max_phase s
          < Isr.max_phase s) as Hm by (apply Z.mod_pos_bound; lia).
  eexists; split; [reflexivity|].
  unfold isr_valid, isr_rearm, isr_enter, is_int32 in *.
  destruct s; isr_fields; destruct idle; isr_fields;
    repeat split; try assumption; try lia.
Qed.

Lemma Isr_tick_down_valid s :
  isr_valid s -> Isr.wanted_pos s < Isr.current_pos s ->
  exists s',
    Isr.stepper_timer_isr s = Some s'
    /\ isr_valid s'
    /\ Isr.current_pos s' = Isr.current_pos s - 1
    /\ Isr.wanted_pos s' = Isr.wanted_pos s
    /\ Isr.current_phase s'
       = (Isr.current_phase s - 1) mod Isr.max_phase s
    /\ Isr.max_phase s' = Isr.max_phase s
    /\ Isr.current_scheme s' = Isr.current_scheme s
    /\ Isr.lock_when_done s' = Isr.lock_when_done s
    /\ Isr.idle s' = Isr.idle s.
Proof.
  intros V Hlt. destruct (Isr_tick_down s V Hlt) as (st & Hst & ->).
  destruct V as (Hc & Hw & Hp & Hlen & Hmax).
  assert (0 <= (Isr.current_phase s - 1) mod Isr.max_phase s
          < Isr.max_phase s) as Hm by (apply Z.mod_pos_bound; lia).
  eexists; split; [reflexivity|].
  unfold isr_valid, isr_rearm, isr_enter, is_int32 in *.
  destruct s; isr_fields; destruct idle; isr_fields;
    repeat split; try assumption; try lia.
Qed.

Lemma isr_ticks_up n :
  forall s,
    isr_valid s -> Isr.wanted_pos s - Isr.current_pos s = Z.of_nat n ->
    exists s',
      isr_ticks n s = Some s'
      /\ isr_valid s'
      /\ Isr.current_pos s' = Isr.wanted_pos s
      /\ Isr.wanted_pos s' = Isr.wanted_pos s
      /\ Isr.current_phase s'
         = (Isr.current_phase s + Z.of_nat n) mod Isr.max_phase s
      /\ Isr.max_phase s' = Isr.max_phase s
      /\ Isr.current_scheme s' = Isr.current_scheme s
      /\ Isr.lock_when_done s' = Isr.lock_when_done s
      /\ Isr.idle s' = Isr.idle s.
Proof.
  induction n as [|n IH]; intros s V Hd.
  - exists s. cbn [isr_ticks]. pose proof V as (_ & _ & Hp & _).
    change (Z.of_nat 0) with 0. rewrite Z.add_0_r, Z.mod_small by lia.
    repeat (split; [first [reflexivity | assumption | lia] | ]).
    reflexivity.
  - destruct (Isr_tick_up_valid s V) as
      (s1 & E1 & V1 & P1 & W1 & C1 & M1 & S1 & L1 & I1); [lia|].
    destruct (IH s1 V1) as (s' & E & V' & P & W & C & M & Sc & L & I);
      [lia|].
    assert (Isr.current_phase s'
            = (Isr.current_phase s + Z.of_nat (S n)) mod Isr.max_phase s)
      as C' by (rewrite C, C1, M1, Zplus_mod_idemp_l; f_equal; lia).
    exists s'. cbn [isr_ticks]. rewrite E1.
    repeat (split; [first [assumption | congruence] | ]). congruence.
Qed.

Lemma isr_ticks_down n :
  forall s,
    isr_valid s -> Isr.current_pos s - Isr.wanted_pos s = Z.of_nat n ->
    exists s',
      isr_ticks n s = Some s'
      /\ isr_valid s'
      /\ Isr.current_pos s' = Isr.wanted_pos s
      /\ Isr.wanted_pos s' = Isr.wanted_pos s
      /\ Isr.current_phase s'
         = (Isr.current_phase s - Z.of_nat n) mod Isr.max_phase s
      /\ Isr.max_phase s' = Isr.max_phase s
      /\ Isr.current_scheme s' = Isr.current_scheme s
      /\ Isr.lock_when_done s' = Isr.lock_when_done s
      /\ Isr.idle s' = Isr.idle s.
Proof.
  induction n as [|n IH]; intros s V Hd.
  - exists s. cbn [isr_ticks]. pose proof V as (_ & _ & Hp & _).
    change (Z.of_nat 0) with 0. rewrite Z.sub_0_r, Z.mod_small by lia.
    repeat (split; [first [reflexivity | assumption | lia] | ]).
    reflexivity.
  - destruct (Isr_tick_down_valid s V) as
      (s1 & E1 & V1 & P1 & W1 & C1 & M1 & S1 & L1 & I1); [lia|].
    destruct (IH s1 V1) as (s' & E & V' & P & W & C & M & Sc & L & I);
      [lia|].
    assert (Isr.current_phase s'
            = (Isr.current_phase s - Z.of_nat (S n)) mod Isr.max_phase s)
      as C' by (rewrite C, C1, M1, Zminus_mod_idemp_l; f_equal; lia).
    exists s'. cbn [isr_ticks]. rewrite E1.
    repeat (split; [first [assumption | congruence] | ]). congruence.
Qed.

(** X2. A move takes as many ticks as the target is away. From a state
    whose positions are 32-bit values and whose phase index is inside the
    table, after |wanted_pos - current_pos| ticks the position is the
    target and the phase index has advanced by the signed distance modulo
    [max_phase]; the tick after that changes neither, sets [idle] and
    leaves the Timer1 interrupt disabled. *)
Theorem Isr_move_arrives (s : Isr.state) :
  isr_valid s ->
  exists s1 s2,
    isr_ticks (Z.abs_nat (Isr.wanted_pos s - Isr.current_pos s)) s = Some s1
    /\ Isr.current_pos s1 = Isr.wanted_pos s
    /\ Isr.current_phase s1
       = (Isr.current_phase s + (Isr.wanted_pos s - Isr.current_pos s))
         mod Isr.max_phase s
    /\ Isr.idle s1 = Isr.idle s
    /\ Isr.stepper_timer_isr s1 = Some s2
    /\ Isr.idle s2 = true
    /\ Isr.current_pos s2 = Isr.wanted_pos s
    /\ Isr.current_phase s2 = Isr.current_phase s1
    /\ timer_enabled (Isr.TEIE s2) = false.
Proof.
  intros V.
  assert (exists s1,
            isr_ticks (Z.abs_nat (Isr.wanted_pos s - Isr.current_pos s)) s
            = Some s1
            /\ isr_valid s1
            /\ Isr.current_pos s1 = Isr.wanted_pos s
            /\ Isr.wanted_pos s1 = Isr.wanted_pos s
            /\ Isr.current_phase s1
               = (Isr.current_phase s
                  + (Isr.wanted_pos s - Isr.current_pos s))
                 mod Isr.max_phase s
            /\ Isr.idle s1 = Isr.idle s) as (s1 & E1 & V1 & P1 & W1 & C1 & I1).
  { destruct (Z.le_ge_cases (Isr.current_pos s) (Isr.wanted_pos s)) as [H|H].
    - destruct (isr_ticks_up
                  (Z.abs_nat (Isr.wanted_pos s - Isr.current_pos s)) s V)
        as (s1 & E & V1 & P & W & C & _ & _ & _ & I); [lia|].
      exists s1. split; [exact E|]. split; [exact V1|].
      split; [exact P|]. split; [exact W|].
      split; [rewrite C; f_equal; lia | exact I].
    - destruct (isr_ticks_down
                  (Z.abs_nat (Isr.wanted_pos s - Isr.current_pos s)) s V)
        as (s1 & E & V1 & P & W & C & _ & _ & _ & I); [lia|].
      exists s1. split; [exact E|]. split; [exact V1|].
      split; [exact P|]. split; [exact W|].
      split; [rewrite C; f_equal; lia | exact I]. }
  pose proof V1 as (_ & _ & Hp & Hlen & _).
  destruct (phase_at_in_range (Isr.current_scheme s1) (Isr.current_phase s1))
    as [st0 Hst0]; [lia|].
  assert ((if Isr.lock_when_done s1
           then phase_at (Isr.current_scheme s1) (Isr.current_phase s1)
           else Some all_off)
          = Some (if Isr.lock_when_done s1 then st0 else all_off)) as Hst
    by (destruct (Isr.lock_when_done s1); [exact Hst0|reflexivity]).
  assert (Isr.wanted_pos s1 = Isr.current_pos s1) as Heq by congruence.
  pose proof (Isr_tick_arrived s1 _ Heq Hst) as E2.
  eexists s1, _. split; [exact E1|].
  split; [exact P1|]. split; [exact C1|]. split; [exact I1|].
  split; [exact E2|].
  unfold isr_enter. destruct s1; isr_fields.
  repeat split; try assumption. apply timer_enabled_disable.
Qed.

(** X2 at work: the move from 0 to 5 in half-step. *)
Lemma Isr_move_arrives_witness :
  exists s1 s2,
    isr_ticks 5 isr_moving = Some s1
    /\ Isr.current_pos s1 = 5
    /\ Isr.current_phase s1 = 5
    /\ Isr.stepper_timer_isr s1 = Some s2
    /\ Isr.idle s2 = true.
Proof.
  assert (isr_valid isr_moving) as V
    by (repeat split; vm_compute; discriminate).
  destruct (Isr_move_arrives isr_moving V)
    as (s1 & s2 & E1 & P & C & _ & E2 & I & _).
  exists s1, s2. repeat split; assumption.
Defined.

(** ** xdrv_23_stepper.ino: the timer around a tick *)

(** X3. Whatever the state, a run of the interrupt handler that returns
    acknowledges the interrupt ([T1I = 0]), keeps [tick_us], and leaves the
    Timer1 interrupt enabled exactly when the driver is not idle
    afterwards; in that case the timer is reloaded with
    80 * tick_us reduced to 32 bits, otherwise [T1L] is untouched. [idle]
    becomes true exactly on a tick that finds the target reached. *)
Theorem Isr_tick_timer (s s' : Isr.state) :
  Isr.stepper_timer_isr s = Some s' ->
  Isr.T1I s' = 0
  /\ Isr.tick_us s' = Isr.tick_us s
  /\ timer_enabled (Isr.TEIE s') = negb (Isr.idle s')
  /\ Isr.T1L s'
     = (if Isr.idle s' then Isr.T1L s
        else to_uint32 (80 * Isr.tick_us s))
  /\ Isr.idle s'
     = (Isr.idle s || (Isr.wanted_pos s =? Isr.current_pos s)).
Proof.
  unfold Isr.stepper_timer_isr.
  destruct s as [tk en hep sch mx cp pos want idl lk teie t1l t1i pn];
    isr_fields.
  pose proof (timer_enabled_disable teie) as Hd.
  pose proof (timer_enabled_enable (teie_disable teie)) as He.
  destruct (Z.ltb_spec want pos) as [H1|H1];
    [ | destruct (Z.ltb_spec pos want) as [H2|H2] ].
  - destruct (Z.eqb_spec want pos); [lia|].
    match goal with
    | |- context [option_map _ (phase_at ?t ?i)] =>
        destruct (phase_at t i) end;
      cbn [option_map]; [|discriminate].
    destruct (to_int8 (cp - 1) <? 0); isr_fields;
      intros E; injection E as <-; isr_fields;
      destruct idl; cbn [negb orb]; isr_fields; rewrite ?Hd, ?He;
      repeat split.
  - destruct (Z.eqb_spec want pos); [lia|].
    match goal with
    | |- context [option_map _ (phase_at ?t ?i)] =>
        destruct (phase_at t i) end;
      cbn [option_map]; [|discriminate].
    destruct (mx <=? to_int8 (cp + 1)); isr_fields;
      intros E; injection E as <-; isr_fields;
      destruct idl; cbn [negb orb]; isr_fields; rewrite ?Hd, ?He;
      repeat split.
  - destruct (Z.eqb_spec want pos); [|lia].
    destruct (if lk then phase_at sch cp else Some all_off);
      cbn [option_map]; [|discriminate].
    intros E; injection E as <-; isr_fields.
    rewrite Hd, orb_true_r. cbn [negb]. isr_fields. repeat split.
Qed.

(** X3 at work: the first tick of the move to 5 at the default period. *)
Lemma Isr_tick_timer_witness :
  exists s',
    Isr.stepper_timer_isr isr_moving = Some s'
    /\ Isr.idle s' = false
    /\ timer_enabled (Isr.TEIE s') = true
    /\ Isr.T1L s' = 160000.
Proof.
  destruct (Isr.stepper_timer_isr isr_moving) as [s'|] eqn:E;
    [|vm_compute in E; discriminate].
  exists s'. split; [reflexivity|].
  destruct (Isr_tick_timer isr_moving s' E) as (_ & _ & Ht & Hl & Hi).
  assert (Isr.idle s' = false) as I by (rewrite Hi; reflexivity).
  rewrite I in Ht, Hl.
  split; [exact I|]. split; [exact Ht|]. rewrite Hl. reflexivity.
Defined.

(** ** xdrv_23_stepper.ino: calibrating during a move *)



(** ** xdrv_23_stepper.ino: a driver without enable pins *)

Lemma StepperSet_direction_only st : direction_only (StepperSet false st).
Proof.
  unfold direction_only, StepperSet. cbn [app].
  repeat constructor.
Qed.

Lemma Isr_tick_frame s s' :
  Isr.stepper_timer_isr s = Some s' ->
  Isr.enabled s' = Isr.enabled s
  /\ Isr.have_enable_pins s' = Isr.have_enable_pins s
  /\ Isr.current_scheme s' = Isr.current_scheme s
  /\ Isr.max_phase s' = Isr.max_phase s
  /\ exists st,
       Isr.pins s'
       = (Isr.pins s ++ StepperSet (Isr.have_enable_pins s) st)%list.
Proof.
  unfold Isr.stepper_timer_isr.
  destruct s as [tk en hep sch mx cp pos want idl lk teie t1l t1i pn];
    isr_fields.
  destruct (want <? pos); [ | destruct (pos <? want) ].
  - match goal with
    | |- context [option_map _ (phase_at ?t ?i)] =>
        destruct (phase_at t i) as [st|] end;
      cbn [option_map]; [|discriminate].
    destruct (to_int8 (cp - 1) <? 0); isr_fields;
      intros E; injection E as <-; destruct idl; isr_fields;
      repeat split; exists st; reflexivity.
  - match goal with
    | |- context [option_map _ (phase_at ?t ?i)] =>
        destruct (phase_at t i) as [st|] end;
      cbn [option_map]; [|discriminate].
    destruct (mx <=? to_int8 (cp + 1)); isr_fields;
      intros E; injection E as <-; destruct idl; isr_fields;
      repeat split; exists st; reflexivity.
  - destruct (if lk then phase_at sch cp else Some all_off) as [st|];
      cbn [option_map]; [|discriminate].
    intros E; injection E as <-; isr_fields.
    repeat split; exists st; reflexivity.
Qed.

Lemma isr_bare_step gsn e s s' :
  Isr.uncut e = true ->
  isr_bare s -> Isr.step gsn e s = Some s' -> isr_bare s'.
Proof.
  intros U [Hh Hs Hp]. destruct e; cbn [Isr.uncut] in U; try discriminate;
    cbn [Isr.step].
  - intros E; injection E as <-. unfold Isr.StepperCmndCalibrate. cbn [snd].
    destruct s; isr_fields. subst. split; isr_fields; auto.
    apply Forall_app; split; [exact Hp|apply StepperSet_direction_only].
  - intros E; injection E as <-. rewrite Isr_StepperCmndSpeed_args.
    unfold isr_speed_effect. rewrite Hh.
    assert (forall c tbl n, isr_scheme_for c false = Some (tbl, n) ->
                            tbl <> half_step_inhibit) as Hne.
    { intros c tbl n. unfold isr_scheme_for.
      destruct c as [|q|q]; try discriminate;
        [ | destruct q as [[q|q|]|[q|q|]|]; try discriminate ];
        intros E; inversion E; discriminate. }
    destruct (speed_args data) as [[| |v] [| |c]]; cbn [fst snd];
      try (destruct s; split; isr_fields; assumption).
    all: destruct (isr_scheme_for c false) as [[tbl n]|] eqn:E; cbn [snd];
      try (destruct s; split; isr_fields; assumption).
    all: apply Hne in E; destruct s; split; isr_fields; assumption.
  - intros E; injection E as <-. rewrite Isr_StepperCmndStep_args.
    unfold isr_step_effect, isr_start_move.
    destruct (step_args gsn data) as [[p a] l].
    destruct (well_formed p && well_formed a && well_formed l); cbn [snd].
    + destruct s; destruct l; isr_fields;
        match goal with |- context [if ?b then _ else _] => destruct b end;
        split; isr_fields; assumption.
    + destruct s; split; isr_fields; assumption.
  - intros E. destruct (Isr_tick_frame s s' E) as (_ & H1 & H2 & _ & st & H3).
    split; [congruence|congruence|].
    rewrite H3, Hh. apply Forall_app; split;
      [exact Hp|apply StepperSet_direction_only].
Qed.

(** The same through a handler into which the interrupt cuts. *)
Lemma isr_bare_interrupts n :
  forall s s', isr_bare s -> Isr.interrupts n s = Some s' -> isr_bare s'.
Proof.
  induction n as [|n IH]; intros s s' B; cbn [Isr.interrupts].
  - intros E; injection E as <-; exact B.
  - destruct (Isr.interrupt s) as [s1|] eqn:E1; [|discriminate].
    apply IH. unfold Isr.interrupt in E1.
    destruct (timer_enabled (Isr.TEIE s)).
    + exact (isr_bare_step (fun _ => 0) Isr.Tick s s1 eq_refl B E1).
    + injection E1 as <-. exact B.
Qed.

Lemma isr_bare_preempted stmts :
  Forall (isr_keeps isr_bare) stmts ->
  forall irq s s',
    isr_bare s -> Isr.preempted stmts irq s = Some s' -> isr_bare s'.
Proof.
  induction 1 as [|f rest Hf _ IH]; intros irq s s' B; cbn [Isr.preempted].
  - intros E; injection E as <-; exact B.
  - destruct (Isr.interrupts (hd 0%nat irq) s) as [s1|] eqn:E1;
      [|discriminate].
    apply IH, Hf. exact (isr_bare_interrupts _ s s1 B E1).
Qed.

Lemma isr_bare_setters :
  (forall v, isr_keeps isr_bare (Isr.set_tick_us v))
  /\ (forall v, isr_keeps isr_bare (Isr.set_max_phase v))
  /\ (forall v, isr_keeps isr_bare (Isr.set_current_phase v))
  /\ (forall v, isr_keeps isr_bare (Isr.set_current_pos v))
  /\ (forall v, isr_keeps isr_bare (Isr.set_wanted_pos v))
  /\ (forall v, isr_keeps isr_bare (Isr.set_idle v))
  /\ (forall v, isr_keeps isr_bare (Isr.set_lock_when_done v))
  /\ (forall tbl, tbl <> half_step_inhibit ->
        isr_keeps isr_bare (Isr.set_current_scheme tbl))
  /\ (forall w, is_enable (w_line w) = false ->
        isr_keeps isr_bare (Isr.write_pin w)).
Proof.
  unfold isr_keeps.
  repeat match goal with |- _ /\ _ => split end; intros;
    match goal with
    | B : isr_bare ?st |- _ => destruct B as [Hh Hs Hp]; destruct st
    end;
    isr_stmts; split; isr_stmts; try assumption.
  apply Forall_app; split; [exact Hp|]. repeat constructor. assumption.
Qed.

Lemma isr_bare_StepperSet_stmts st :
  Forall (isr_keeps isr_bare) (Isr.StepperSet_stmts st).
Proof.
  destruct isr_bare_setters as (_ & _ & _ & _ & _ & _ & _ & _ & Kw).
  unfold Isr.StepperSet_stmts.
  repeat (apply Forall_cons || apply Forall_nil);
    try (apply Kw; reflexivity).
  all: intros s B; pose proof (isr_bare_hep s B) as Hh; rewrite Hh;
    exact B.
Qed.

Lemma isr_bare_Calibrate_stmts :
  Forall (isr_keeps isr_bare) Isr.StepperCmndCalibrate_stmts.
Proof.
  destruct isr_bare_setters as (_ & _ & _ & Kp & Kw & Ki & _).
  unfold Isr.StepperCmndCalibrate_stmts. apply Forall_app. split.
  - repeat (apply Forall_cons || apply Forall_nil);
      [apply Kp|apply Kw|apply Ki].
  - apply isr_bare_StepperSet_stmts.
Qed.

Lemma isr_bare_Speed_stmts data :
  Forall (isr_keeps isr_bare) (Isr.StepperCmndSpeed_stmts data).
Proof.
  destruct isr_bare_setters as (Kt & Km & Kc & _ & _ & _ & _ & Ks & _).
  assert (forall c two, Isr.scheme_switch_stmts c = Some two ->
            Forall (isr_keeps isr_bare) two) as Sw.
  { intros c two. unfold Isr.scheme_switch_stmts.
    destruct c as [|q|q]; try discriminate;
      [ | destruct q as [[q|q|]|[q|q|]|]; try discriminate ];
      intros E; injection E as <-;
      repeat (apply Forall_cons || apply Forall_nil);
      try apply Km; try (apply Ks; discriminate).
    intros s B. pose proof (isr_bare_hep s B) as Hh. rewrite Hh.
    apply Ks; [discriminate|exact B]. }
  unfold Isr.StepperCmndSpeed_stmts.
  destruct (strtok_r (Some (c_str data)) "," "") as [[str|] tok];
    [|constructor].
  assert (Forall (isr_keeps isr_bare)
            match strtok_r None "," tok with
            | (Some str0, _) =>
                if nonempty (skip_isspace str0)
                then
                  let (scheme_code, n) := strtol (skip_isspace str0) in
                  if (n =? 0)%nat then []
                  else match Isr.scheme_switch_stmts scheme_code with
                       | Some two => (two ++ [Isr.set_current_phase 0])%list
                       | None => []
                       end
                else []
            | (None, _) => []
            end) as Tail.
  { destruct (strtok_r None "," tok) as [[str0|] tok']; [|constructor].
    destruct (nonempty (skip_isspace str0)); [|constructor].
    destruct (strtol (skip_isspace str0)) as [c [|m]]; cbn [Nat.eqb];
      [constructor|].
    destruct (Isr.scheme_switch_stmts c) as [two|] eqn:E; [|constructor].
    apply Forall_app. split; [exact (Sw c two E)|].
    apply Forall_cons; [apply Kc|apply Forall_nil]. }
  destruct (nonempty (skip_isspace str)).
  - destruct (strtol (skip_isspace str)) as [v [|n]]; cbn [Nat.eqb].
    + apply Forall_cons; [apply Kt|apply Forall_nil].
    + apply Forall_app. split; [|exact Tail].
      apply Forall_cons; [apply Kt|apply Forall_nil].
  - exact Tail.
Qed.

Lemma isr_bare_Step_stmts gsn data :
  Forall (isr_keeps isr_bare) (Isr.StepperCmndStep_stmts gsn data).
Proof.
  destruct isr_bare_setters as (_ & _ & _ & _ & Kw & Ki & Kl & _).
  assert (forall r a, Forall (isr_keeps isr_bare) (Isr.start_move_stmts r a))
    as Mv.
  { intros r a. unfold Isr.start_move_stmts.
    repeat (apply Forall_cons || apply Forall_nil).
    - intros s B. apply Kw, B.
    - intros s [Hh Hs Hp]. destruct s; split; isr_stmts; assumption.
    - intros s [Hh Hs Hp]. destruct s as [tk en hep sch mx cp pos want [|] lk
                                          teie t1l t1i pn];
        split; isr_stmts; assumption.
    - intros s [Hh Hs Hp]. destruct s; split; isr_stmts; assumption. }
  unfold Isr.StepperCmndStep_stmts. apply Forall_cons; [apply Kl|].
  destruct (strtok_r (Some (c_str data)) "," "") as [[str|] tok];
    [|apply Mv].
  destruct (if nonempty (skip_isspace str)
            then let (v, n) := strtol (skip_isspace str) in
                 if (n =? 0)%nat then None else Some (to_int32 v)
            else Some 0) as [r|]; [|constructor].
  destruct (strtok_r None "," tok) as [[str0|] tok0]; [|apply Mv].
  destruct (if nonempty (skip_isspace str0)
            then Isr.read_flag gsn (skip_isspace str0) else Some true)
    as [a|]; [|constructor].
  destruct (strtok_r None "," tok0) as [[str1|] tok1]; [|apply Mv].
  destruct (nonempty (skip_isspace str1)); [|apply Mv].
  destruct (Isr.read_flag gsn (skip_isspace str1)) as [b|]; [|constructor].
  apply Forall_cons; [apply Kl|apply Mv].
Qed.

Lemma isr_bare_any_step gsn e s s' :
  isr_bare s -> Isr.step gsn e s = Some s' -> isr_bare s'.
Proof.
  intros B. destruct e;
    try (apply isr_bare_step; [reflexivity|exact B]); cbn [Isr.step].
  - apply isr_bare_preempted; [apply isr_bare_Calibrate_stmts|exact B].
  - apply isr_bare_preempted; [apply isr_bare_Speed_stmts|exact B].
  - apply isr_bare_preempted; [apply isr_bare_Step_stmts|exact B].
Qed.

Lemma isr_bare_run gsn es :
  forall s s', isr_bare s -> Isr.run gsn es s = Some s' -> isr_bare s'.
Proof.
  induction es as [|e es IH]; intros s s' B; cbn [Isr.run].
  - intros E; injection E as <-; exact B.
  - destruct (Isr.step gsn e s) as [s1|] eqn:E1; [|discriminate].
    apply IH. exact (isr_bare_any_step gsn e s s1 B E1).
Qed.

Lemma isr_bare_init pin teie t1l t1i :
  enable_pin_missing pin -> isr_bare (Isr.StepperInit pin teie t1l t1i).
Proof.
  intros M. unfold Isr.StepperInit, Isr.configured.
  assert ((GPIO_STEPPER_A_POS pin <? 99) && (GPIO_STEPPER_A_NEG pin <? 99)
          && (GPIO_STEPPER_B_POS pin <? 99) && (GPIO_STEPPER_B_NEG pin <? 99)
          && (GPIO_STEPPER_A_ENA pin <? 99) && (GPIO_STEPPER_B_ENA pin <? 99)
          = false) as Hh.
  { destruct M as [M|M];
      [ destruct (Z.ltb_spec (GPIO_STEPPER_A_ENA pin) 99); [lia|]
      | destruct (Z.ltb_spec (GPIO_STEPPER_B_ENA pin) 99); [lia|] ];
      rewrite ?andb_false_r; reflexivity. }
  rewrite Hh. split; isr_fields; [reflexivity|discriminate|].
  clear Hh. unfold direction_only.
  match goal with |- context [if ?b then _ else _] => destruct b end;
    cbn [app]; repeat constructor.
Qed.

(** X5. A driver whose enable pins are not both configured never touches
    an enable line. After startup and any Calibrate, Speed and Step
    commands and ticks, also when the interrupt cuts into the command
    handlers, every state the run reaches has [have_enable_pins] false,
    every write made so far went to a direction line, and the active
    scheme is not the inhibit table, whatever scheme codes the Speed
    commands carried. When no interrupt cuts into a handler the run is
    still going. *)
Theorem Isr_without_enable_pins
    (GetStateNumber : string -> Z) (pin : pin_table) (teie t1l t1i : Z)
    (es : list Isr.event) :
  enable_pin_missing pin ->
  (forallb Isr.uncut es = true ->
   exists s,
     Isr.run GetStateNumber es (Isr.StepperInit pin teie t1l t1i) = Some s
     /\ Isr.have_enable_pins s = false
     /\ Isr.current_scheme s <> half_step_inhibit
     /\ Forall (fun w => is_enable (w_line w) = false) (Isr.pins s))
  /\ (forall s,
        Isr.run GetStateNumber es (Isr.StepperInit pin teie t1l t1i) = Some s ->
        Isr.have_enable_pins s = false
        /\ Isr.current_scheme s <> half_step_inhibit
        /\ Forall (fun w => is_enable (w_line w) = false) (Isr.pins s)).
Proof.
  intros M.
  assert (forall s,
            Isr.run GetStateNumber es (Isr.StepperInit pin teie t1l t1i)
            = Some s ->
            Isr.have_enable_pins s = false
            /\ Isr.current_scheme s <> half_step_inhibit
            /\ Forall (fun w => is_enable (w_line w) = false) (Isr.pins s))
    as Safe.
  { intros s R.
    destruct (isr_bare_run GetStateNumber es _ s
                (isr_bare_init pin teie t1l t1i M) R) as [H1 H2 H3].
    repeat split; assumption. }
  split; [|exact Safe].
  intros U.
  destruct (isr_inv_run GetStateNumber es _
              (isr_inv_init pin teie t1l t1i) U) as (s & R & _).
  exists s. split; [exact R|exact (Safe s R)].
Qed.

(** X5 at work: on the board without enable pins, a move during which the
    interrupt cuts into a speed command with scheme code 3. *)
Lemma Isr_without_enable_pins_witness :
  exists s,
    Isr.run no_state_word
      [Isr.Step "3"; Isr.SpeedCut "1000,3" [0; 1]%nat; Isr.Tick]
      (Isr.StepperInit no_enable_pins 0 0 0) = Some s
    /\ Isr.have_enable_pins s = false
    /\ Isr.current_scheme s <> half_step_inhibit
    /\ Forall (fun w => is_enable (w_line w) = false) (Isr.pins s).
Proof.
  assert (enable_pin_missing no_enable_pins) as M
    by (left; vm_compute; discriminate).
  destruct (Isr.run no_state_word
              [Isr.Step "3"; Isr.SpeedCut "1000,3" [0; 1]%nat; Isr.Tick]
              (Isr.StepperInit no_enable_pins 0 0 0)) as [s|] eqn:R;
    [|vm_compute in R; discriminate].
  exists s. split; [reflexivity|].
  exact (proj2 (Isr_without_enable_pins no_state_word no_enable_pins 0 0 0
                  [Isr.Step "3"; Isr.SpeedCut "1000,3" [0; 1]%nat; Isr.Tick]
                  M) s R).
Defined.

(** ** xdrv_23_stepper.ino: a module that is not enabled *)

Lemma Isr_init_disabled pin teie t1l t1i :
  direction_pin_missing pin ->
  Isr.StepperInit pin teie t1l t1i
  = Isr.mk_state 2000 false false half_step 8 0 0 0 true false
      teie t1l t1i [].
Proof.
  intros M. unfold Isr.StepperInit, Isr.configured.
  assert ((GPIO_STEPPER_A_POS pin <? 99) && (GPIO_STEPPER_A_NEG pin <? 99)
          && (GPIO_STEPPER_B_POS pin <? 99) && (GPIO_STEPPER_B_NEG pin <? 99)
          = false) as Hh.
  { destruct M as [M|[M|[M|M]]];
      [ destruct (Z.ltb_spec (GPIO_STEPPER_A_POS pin) 99); [lia|]
      | destruct (Z.ltb_spec (GPIO_STEPPER_A_NEG pin) 99); [lia|]
      | destruct (Z.ltb_spec (GPIO_STEPPER_B_POS pin) 99); [lia|]
      | destruct (Z.ltb_spec (GPIO_STEPPER_B_NEG pin) 99); [lia|] ];
      rewrite ?andb_false_r; reflexivity. }
  rewrite Hh. reflexivity.
Qed.

(** X6. When one of the four direction pins is not configured the module
    is inert: startup writes no pin and leaves the Timer1 interrupt
    register alone, and afterwards every command is refused ([Xdrv23]
    returns false) and neither a command nor a timer interrupt changes the
    state, however many follow. *)
Theorem Isr_disabled_module_inert
    (GetStateNumber : string -> Z) (pin : pin_table) (teie t1l t1i : Z)
    (es : list Isr.sys_event) :
  direction_pin_missing pin ->
  forallb (fun e => negb (isr_is_init e)) es = true ->
  let s0 := Isr.StepperInit pin teie t1l t1i in
  Isr.sys_run GetStateNumber es s0 = Some s0
  /\ Isr.pins s0 = [] /\ Isr.TEIE s0 = teie
  /\ forall command data,
       Isr.Xdrv23 GetStateNumber (Isr.FUNC_COMMAND command data) s0
       = (false, s0).
Proof.
  intros M Hes s0. subst s0. rewrite (Isr_init_disabled pin teie t1l t1i M).
  split; [|repeat split].
  induction es as [|e es IH]; [reflexivity|].
  cbn [forallb] in Hes. apply andb_true_iff in Hes as [He Hes].
  cbn [Isr.sys_run].
  destruct e as [[pin'|command data|]|]; cbn in He; try discriminate;
    cbn [Isr.sys_step Isr.Xdrv23 Isr.enabled snd]; exact (IH Hes).
Qed.

(** X6 at work: B+ left unconfigured, a step command and two interrupts. *)
Lemma Isr_disabled_module_inert_witness :
  let s0 := Isr.StepperInit (mk_pins 12 13 14 15 99 5) 0 0 0 in
  Isr.sys_run no_state_word
    [Isr.Call (Isr.FUNC_COMMAND (Some 2%nat) "100"); Isr.TimerIrq;
     Isr.TimerIrq] s0 = Some s0
  /\ Isr.pins s0 = [] /\ Isr.TEIE s0 = 0
  /\ forall command data,
       Isr.Xdrv23 no_state_word (Isr.FUNC_COMMAND command data) s0
       = (false, s0).
Proof.
  apply (Isr_disabled_module_inert no_state_word (mk_pins 12 13 14 15 99 5)).
  - right. right. left. vm_compute. discriminate.
  - reflexivity.
Defined.

(** ** part_000: one step per tick *)

Ltac tbl_open s :=
  unfold Tbl.stepper_timer_isr, tbl_rearm, tbl_enter;
  destruct s as [en hep idl cp want lk tk idx [tbl mx] pos stg teie t1l t1i pn];
  tbl_fields.

Lemma Tbl_tick_up s :
  tbl_valid s -> Tbl.current_pos s < Tbl.wanted_pos s ->
  exists st,
    phase_at (Tbl.phases (Tbl.current_scheme s))
             ((Tbl.current_phase s + 1)
              mod Tbl.max_phase (Tbl.current_scheme s)) = Some st /\
    Tbl.stepper_timer_isr s =
    Some (tbl_rearm
            (Tbl.apply_phase st
               (Tbl.set_current_pos (Tbl.current_pos s + 1)
                  (Tbl.set_current_phase
                     ((Tbl.current_phase s + 1)
                      mod Tbl.max_phase (Tbl.current_scheme s))
                     (tbl_enter s))))).
Proof.
  intros (Hc & Hw & [Hp0 Hp1] & Hlen & Hmax) Hlt.
  assert (0 <= (Tbl.current_phase s + 1)
               mod Tbl.max_phase (Tbl.current_scheme s)
          < Tbl.max_phase (Tbl.current_scheme s)) as Hm
    by (apply Z.mod_pos_bound; lia).
  destruct (phase_at_in_range (Tbl.phases (Tbl.current_scheme s))
              ((Tbl.current_phase s + 1)
               mod Tbl.max_phase (Tbl.current_scheme s)))
    as [st Hst]; [lia|].
  exists st; split; [exact Hst|].
  tbl_open s. unfold is_int16 in *.
  destruct (Z.ltb_spec want pos); [lia|].
  destruct (Z.ltb_spec pos want); [|lia].
  rewrite (to_int8_id (cp + 1)) by (unfold is_int8; lia).
  destruct (Z.leb_spec mx (cp + 1)); tbl_fields;
    rewrite (to_int16_id (pos + 1)) by (unfold is_int16; lia).
  - assert ((cp + 1) mod mx = 0) as E0
      by (replace (cp + 1) with mx by lia; apply Z.mod_same; lia).
    rewrite E0 in *. rewrite Hst. cbn. destruct idl; reflexivity.
  - assert ((cp + 1) mod mx = cp + 1) as E0 by (apply Z.mod_small; lia).
    rewrite E0 in *. rewrite Hst. cbn. destruct idl; reflexivity.
Qed.

Lemma Tbl_tick_down s :
  tbl_valid s -> Tbl.wanted_pos s < Tbl.current_pos s ->
  exists st,
    phase_at (Tbl.phases (Tbl.current_scheme s))
             ((Tbl.current_phase s - 1)
              mod Tbl.max_phase (Tbl.current_scheme s)) = Some st /\
    Tbl.stepper_timer_isr s =
    Some (tbl_rearm
            (Tbl.apply_phase st
               (Tbl.set_current_pos (Tbl.current_pos s - 1)
                  (Tbl.set_current_phase
                     ((Tbl.current_phase s - 1)
                      mod Tbl.max_phase (Tbl.current_scheme s))
                     (tbl_enter s))))).
Proof.
  intros (Hc & Hw & [Hp0 Hp1] & Hlen & Hmax) Hlt.
  assert (0 <= (Tbl.current_phase s - 1)
               mod Tbl.max_phase (Tbl.current_scheme s)
          < Tbl.max_phase (Tbl.current_scheme s)) as Hm
    by (apply Z.mod_pos_bound; lia).
  destruct (phase_at_in_range (Tbl.phases (Tbl.current_scheme s))
              ((Tbl.current_phase s - 1)
               mod Tbl.max_phase (Tbl.current_scheme s)))
    as [st Hst]; [lia|].
  exists st; split; [exact Hst|].
  tbl_open s. unfold is_int16 in *.
  destruct (Z.ltb_spec want pos); [|lia].
  rewrite (to_int8_id (cp - 1)) by (unfold is_int8; lia).
  destruct (Z.ltb_spec (cp - 1) 0); tbl_fields;
    rewrite (to_int16_id (pos - 1)) by (unfold is_int16; lia).
  - rewrite (to_int8_id (mx - 1)) by (unfold is_int8; lia).
    assert ((cp - 1) mod mx = mx - 1) as E0.
    { replace (cp - 1) with (-1) by lia.
      rewrite <- (Z.mod_add (-1) 1 mx) by lia.
      replace (-1 + 1 * mx) with (mx - 1) by lia.
      apply Z.mod_small; lia. }
    rewrite E0 in *. rewrite Hst. cbn. destruct idl; reflexivity.
  - assert ((cp - 1) mod mx = cp - 1) as E0 by (apply Z.mod_small; lia).
    rewrite E0 in *. rewrite Hst. cbn. destruct idl; reflexivity.
Qed.

(** X7. The interrupt handler of part_000 moves one step per tick: with
    [wanted_pos <> current_pos], 16-bit positions and a phase index inside
    the loaded table, the phase index moves by one modulo [max_phase]
    toward the target, the position by one, and the phase at the new index
    is applied. The target, the scheme, the flags and [Settings] stay as
    they were: the position is not stored while the motor is on its way. *)
Theorem Tbl_tick_moves_one_step (s : Tbl.state) :
  tbl_valid s -> Tbl.wanted_pos s <> Tbl.current_pos s ->
  exists s' st,
    Tbl.stepper_timer_isr s = Some s'
    /\ step_toward (Tbl.max_phase (Tbl.current_scheme s))
         (Tbl.current_phase s) (Tbl.current_pos s) (Tbl.wanted_pos s)
         (Tbl.current_phase s') (Tbl.current_pos s')
    /\ phase_at (Tbl.phases (Tbl.current_scheme s)) (Tbl.current_phase s')
       = Some st
    /\ Tbl.pins s' = (Tbl.pins s ++ StepperSet (Tbl.have_enable_pins s) st)%list
    /\ Tbl.wanted_pos s' = Tbl.wanted_pos s
    /\ Tbl.current_scheme s' = Tbl.current_scheme s
    /\ Tbl.idle s' = Tbl.idle s
    /\ Tbl.lock_when_done s' = Tbl.lock_when_done s
    /\ Tbl.Settings s' = Tbl.Settings s.
Proof.
  intros V Hne. pose proof V as (_ & _ & Hp & _).
  destruct (Z.lt_total (Tbl.current_pos s) (Tbl.wanted_pos s))
    as [Hlt|[Heq|Hgt]]; [ | congruence | ].
  - destruct (Tbl_tick_up s V Hlt) as (st & Hst & ->).
    pose proof (step_toward_up _ _ _ _ Hp Hlt) as T.
    exists (tbl_rearm
              (Tbl.apply_phase st
                 (Tbl.set_current_pos (Tbl.current_pos s + 1)
                    (Tbl.set_current_phase
                       ((Tbl.current_phase s + 1)
                        mod Tbl.max_phase (Tbl.current_scheme s))
                       (tbl_enter s))))), st.
    unfold tbl_rearm, tbl_enter in *.
    destruct s; tbl_fields; destruct idle; tbl_fields;
      repeat (split; [first [reflexivity | exact T | assumption] | ]);
      reflexivity.
  - destruct (Tbl_tick_down s V Hgt) as (st & Hst & ->).
    pose proof (step_toward_down _ _ _ _ Hp Hgt) as T.
    exists (tbl_rearm
              (Tbl.apply_phase st
                 (Tbl.set_current_pos (Tbl.current_pos s - 1)
                    (Tbl.set_current_phase
                       ((Tbl.current_phase s - 1)
                        mod Tbl.max_phase (Tbl.current_scheme s))
                       (tbl_enter s))))), st.
    unfold tbl_rearm, tbl_enter in *.
    destruct s; tbl_fields; destruct idle; tbl_fields;
      repeat (split; [first [reflexivity | exact T | assumption] | ]);
      reflexivity.
Qed.

(** X7 at work: the first tick of the move from 0 to 5. *)
Lemma Tbl_tick_moves_one_step_witness :
  exists s',
    Tbl.stepper_timer_isr tbl_moving = Some s'
    /\ Tbl.current_pos s' = 1 /\ Tbl.current_phase s' = 1
    /\ Tbl.Settings s' = Tbl.Settings tbl_moving.
Proof.
  assert (tbl_valid tbl_moving) as V
    by (repeat split; vm_compute; discriminate).
  assert (Tbl.wanted_pos tbl_moving <> Tbl.current_pos tbl_moving) as Hne
    by (vm_compute; discriminate).
  destruct (Tbl_tick_moves_one_step tbl_moving V Hne)
    as (s' & st & E & [Up _] & _ & _ & _ & _ & _ & _ & St).
  destruct Up as (_ & C & P); [vm_compute; reflexivity|].
  exists s'. repeat split; assumption.
Defined.

(** ** part_000: the step command *)

Section TblStep.
Variable GetStateNumber : string -> Z.

Lemma Tbl_parse_flag_field str :
  nonempty (skip_isspace str) = true ->
  (flag_field GetStateNumber (Some str) = Malformed /\
   forall s : Tbl.state,
     Tbl.parse_flag GetStateNumber (skip_isspace str) s = Exit Error s)
  \/ (exists b, flag_field GetStateNumber (Some str) = Given b /\
      forall s : Tbl.state,
        Tbl.parse_flag GetStateNumber (skip_isspace str) s = Next b s).
Proof.
  intros Hne. unfold Tbl.parse_flag, flag_field. rewrite Hne.
  destruct (strtol (skip_isspace str)) as [v n].
  destruct (negb _ && negb _); [left|right; eexists]; split; reflexivity.
Qed.

Ltac flag_token str :=
  let N := fresh "N" in
  let b := fresh "b" in
  let E := fresh "E" in
  let P := fresh "P" in
  destruct (nonempty (skip_isspace str)) eqn:N;
  [ destruct (Tbl_parse_flag_field str N) as [[E P]|[b [E P]]];
    rewrite E; try rewrite P
  | rewrite (flag_field_blank GetStateNumber str N) ].

(** [StepperCmndStep] is [tbl_step_effect] of the arguments in the data. *)
Lemma Tbl_StepperCmndStep_args data s :
  Tbl.StepperCmndStep GetStateNumber data s =
  tbl_step_effect (step_args GetStateNumber data) s.
Proof.
  unfold Tbl.StepperCmndStep, tbl_step_effect, tbl_start_move, step_args,
    token3, token2, token1, Tbl.parse_step, comma.
  unfold handler, bind, ret, fail, modify.
  destruct (strtok_r (Some (c_str data)) _ _) as [[str|] tok] eqn:T1;
    cbn [fst snd].
  2:{ apply strtok_r_None_saveptr in T1; subst tok. reflexivity. }
  unfold number_field.
  destruct (nonempty (skip_isspace str));
    [ destruct (strtol (skip_isspace str)) as [v [|n]] eqn:E1;
      cbn [Nat.eqb];
      [ reflexivity | ] | ].
  all: next_token tok; [ | try reflexivity ].
  all: try flag_token str0; try reflexivity.
  all: try (next_token tok0; [ | try reflexivity ]).
  all: try (flag_token str1; try reflexivity).
Qed.
End TblStep.

(** X8. The step command of part_000 answers Done exactly when none of its
    arguments is unreadable. The requested position is reduced to 16 bits
    on reading; on success [wanted_pos] is that value for an absolute move
    (the default) and [current_pos] plus it, reduced to 16 bits again, for
    a relative one. [lock_when_done] is the third argument (false when left
    out), [idle] is false, the Timer1 interrupt is enabled, the timer is
    loaded with 1 if the driver was idle and left alone otherwise; the
    position, the phase index, the scheme and [Settings] are unchanged. *)
Theorem Tbl_step_sets_target
    (GetStateNumber : string -> Z) (data : string) (s : Tbl.state) :
  let '(p, a, l) := step_args GetStateNumber data in
  let r := Tbl.StepperCmndStep GetStateNumber data s in
  fst r = (if well_formed p && well_formed a && well_formed l
           then Done else Error)
  /\ (fst r = Done ->
      Tbl.wanted_pos (snd r)
      = (if field_or true a then to_int16 (field_or 0 p)
         else to_int16 (Tbl.current_pos s + to_int16 (field_or 0 p)))
      /\ Tbl.lock_when_done (snd r) = field_or false l
      /\ Tbl.idle (snd r) = false
      /\ timer_enabled (Tbl.TEIE (snd r)) = true
      /\ Tbl.T1L (snd r) = (if Tbl.idle s then 1 else Tbl.T1L s)
      /\ Tbl.current_pos (snd r) = Tbl.current_pos s
      /\ Tbl.current_phase (snd r) = Tbl.current_phase s
      /\ Tbl.current_scheme (snd r) = Tbl.current_scheme s
      /\ Tbl.Settings (snd r) = Tbl.Settings s).
Proof.
  rewrite Tbl_StepperCmndStep_args. unfold tbl_step_effect, tbl_start_move.
  destruct (step_args GetStateNumber data) as [[p a] l].
  destruct (well_formed p && well_formed a && well_formed l); cbn [fst snd];
    (split; [reflexivity|]); [|discriminate].
  intros _.
  destruct s; destruct l as [| |b]; tbl_fields; destruct idle; tbl_fields;
    repeat split; try apply timer_enabled_enable; try discriminate.
Qed.

(** X9. What the three buttons of the main web page do. Each sends a step
    command that succeeds, leaves [lock_when_done] false and starts a move:
    Up to the absolute position 32767, Down to -32768, and Stop, whose data
    is 0,1, to the absolute position 0, because the second argument is
    [is_absolute] in this revision. Stop therefore keeps the motor where it
    is only when it is at position 0. *)
Theorem Tbl_web_buttons (GetStateNumber : string -> Z) (s : Tbl.state) :
  map snd Tbl.web_main_buttons = ["Up"; "Stop"; "Down"]%string
  /\ map (fun b => let r := Tbl.StepperCmndStep GetStateNumber (fst b) s in
                   (fst r, Tbl.wanted_pos (snd r),
                    Tbl.lock_when_done (snd r), Tbl.idle (snd r)))
       Tbl.web_main_buttons
     = [ (Done, 32767, false, false);
         (Done, 0, false, false);
         (Done, -32768, false, false) ].
Proof.
  split; [reflexivity|].
  unfold Tbl.web_main_buttons. cbn [map fst].
  rewrite !Tbl_StepperCmndStep_args.
  assert (step_args GetStateNumber "32767" = (Given 32767, Absent, Absent))
    as -> by reflexivity.
  assert (step_args GetStateNumber "0,1" = (Given 0, Given true, Absent))
    as -> by reflexivity.
  assert (step_args GetStateNumber "-32768" = (Given (-32768), Absent, Absent))
    as -> by reflexivity.
  unfold tbl_step_effect, tbl_start_move.
  cbn [well_formed andb field_or fst snd].
  destruct s; tbl_fields; destruct idle; tbl_fields; reflexivity.
Qed.

(** ** part_000: the speed command and the choice of scheme *)

Lemma Tbl_SelectScheme_accepts c s :
  fst (Tbl.SelectScheme c s) = (0 <=? c) && (c <=? 3).
Proof.
  unfold Tbl.SelectScheme. change Tbl.SCHEMES_MAX with 4.
  destruct (Z.ltb_spec c 0), (Z.leb_spec 4 c), (Z.leb_spec 0 c),
    (Z.leb_spec c 3); try lia; cbn [orb andb fst]; try reflexivity.
  destruct (c =? Tbl.current_scheme_index s); reflexivity.
Qed.

(** X10. The speed command of part_000 answers Error exactly when the
    period is unreadable, or the scheme code is unreadable or outside
    0..3. A period that was read is reduced to 16 bits and stored in
    [tick_us], and in [Settings.pwm_frequency] when it differs from the old
    one, also when the scheme code after it is rejected. A scheme code
    equal to the active index selects nothing: the phase index, the target,
    the table and the interrupt register keep their values. *)
Theorem Tbl_speed_result (data : string) (s : Tbl.state) :
  let r := Tbl.StepperCmndSpeed data s in
  fst r
  = match speed_args data with
    | (Malformed, _) => Error
    | (_, Absent) => Done
    | (_, Malformed) => Error
    | (_, Given c) => if (0 <=? c) && (c <=? 3) then Done else Error
    end
  /\ Tbl.tick_us (snd r)
     = match fst (speed_args data) with
       | Given v => to_uint16 v
       | _ => Tbl.tick_us s
       end
  /\ Tbl.pwm_frequency (Tbl.Settings (snd r))
     = match fst (speed_args data) with
       | Given v => if to_uint16 v =? Tbl.tick_us s
                    then Tbl.pwm_frequency (Tbl.Settings s)
                    else to_uint16 v
       | _ => Tbl.pwm_frequency (Tbl.Settings s)
       end
  /\ (snd (speed_args data) = Given (Tbl.current_scheme_index s) ->
      Tbl.current_phase (snd r) = Tbl.current_phase s
      /\ Tbl.wanted_pos (snd r) = Tbl.wanted_pos s
      /\ Tbl.current_scheme (snd r) = Tbl.current_scheme s
      /\ Tbl.TEIE (snd r) = Tbl.TEIE s).
Proof.
  cbv zeta. rewrite Tbl_StepperCmndSpeed_args. unfold tbl_speed_effect.
  destruct (speed_args data) as [t c]. cbn [fst snd].
  set (s1 := match t with
             | Given v =>
                 if negb (to_uint16 v =? Tbl.tick_us s)
                 then Tbl.set_Settings
                        (Tbl.set_pwm_frequency (to_uint16 v) (Tbl.Settings s))
                        (Tbl.set_tick_us (to_uint16 v) s)
                 else s
             | _ => s
             end).
  assert (Tbl.tick_us s1
          = match t with Given v => to_uint16 v | _ => Tbl.tick_us s end
          /\ Tbl.pwm_frequency (Tbl.Settings s1)
             = match t with
               | Given v => if to_uint16 v =? Tbl.tick_us s
                            then Tbl.pwm_frequency (Tbl.Settings s)
                            else to_uint16 v
               | _ => Tbl.pwm_frequency (Tbl.Settings s)
               end
          /\ Tbl.current_scheme_index s1 = Tbl.current_scheme_index s
          /\ Tbl.current_phase s1 = Tbl.current_phase s
          /\ Tbl.wanted_pos s1 = Tbl.wanted_pos s
          /\ Tbl.current_scheme s1 = Tbl.current_scheme s
          /\ Tbl.TEIE s1 = Tbl.TEIE s) as (K1 & K2 & K3 & K4 & K5 & K6 & K7).
  { subst s1. destruct t as [| |v]; try (repeat split; reflexivity).
    destruct (Z.eqb_spec (to_uint16 v) (Tbl.tick_us s)) as [E|E];
      cbn [negb]; destruct s; tbl_fields; repeat split; auto. }
  assert (forall k,
            Tbl.pwm_frequency (Tbl.Settings (snd (Tbl.SelectScheme k s1)))
            = Tbl.pwm_frequency (Tbl.Settings s1)) as F.
  { intros k. unfold Tbl.SelectScheme.
    destruct (_ || _); [reflexivity|].
    destruct (_ =? _); [reflexivity|].
    destruct s1; tbl_fields. destruct idle; reflexivity. }
  clearbody s1.
  destruct t as [| |v], c as [| |k]; cbn [fst snd];
    try (repeat split; first [assumption | discriminate | reflexivity]).
  all: pose proof (Tbl_SelectScheme_accepts k s1) as A;
    pose proof (Tbl_SelectScheme_tick_us k s1) as T;
    pose proof (F k) as F';
    destruct (Tbl.SelectScheme k s1) as [ok s2] eqn:S; cbn [fst snd] in *;
    rewrite <- A.
  all: split; [destruct ok; reflexivity|].
  all: split; [congruence|]. all: split; [congruence|].
  all: intros Ek; injection Ek as ->.
  all: assert (s2 = s1) as ->
      by (revert S; unfold Tbl.SelectScheme; rewrite K3;
          destruct (_ || _); [intros X; inversion X; reflexivity|];
          rewrite Z.eqb_refl; intros X; inversion X; reflexivity).
  all: repeat split; assumption.
Qed.

(** The fields that [StepperInit] of part_000 leaves, by the stored index. *)
Lemma Tbl_StepperInit_fields
    (pin : pin_table) (stored : Tbl.settings) (teie t1l t1i : Z) :
  let s := Tbl.StepperInit pin stored teie t1l t1i in
  let k := Tbl.pwm_value_5 stored in
  Tbl.current_scheme_index s
  = (if (0 <=? k) && (k <=? 3) then k else 1)
  /\ Tbl.current_scheme s
     = (if k =? 0 then Tbl.null_scheme
        else nth (Z.to_nat (Tbl.current_scheme_index s)) Tbl.control_schemes
               Tbl.null_scheme)
  /\ Tbl.wanted_pos s = (if k =? 0 then 0 else Tbl.saved_pos stored)
  /\ Tbl.pwm_value_5 (Tbl.Settings s)
     = (if (0 <=? k) && (k <=? 3) then k else 1)
  /\ Tbl.current_pos s = Tbl.saved_pos stored
  /\ Tbl.idle s = true
  /\ Tbl.current_phase s = 0
  /\ Tbl.tick_us s = to_uint16 (Tbl.pwm_frequency stored).
Proof.
  cbv zeta. unfold Tbl.StepperInit.
  destruct stored as [fq v0 v1 k]. tbl_fields.
  unfold Tbl.SelectScheme. change Tbl.SCHEMES_MAX with 4. tbl_fields.
  destruct (Z.ltb_spec k 0); [|destruct (Z.leb_spec 4 k)]; cbn [orb].
  - destruct (Z.leb_spec 0 k); [lia|]. cbn [andb].
    destruct (Z.eqb_spec k 0); [lia|].
    cbn. repeat split.
  - destruct (Z.leb_spec 0 k); [|lia]. destruct (Z.leb_spec k 3); [lia|].
    cbn [andb]. destruct (Z.eqb_spec k 0); [lia|].
    cbn. repeat split.
  - destruct (Z.leb_spec 0 k); [|lia]. destruct (Z.leb_spec k 3); [|lia].
    cbn [andb].
    destruct (Z.eqb_spec k 0) as [->|N]; [cbn; repeat split|].
    assert (to_uint8 k = k) as U
      by (unfold to_uint8, wrap_unsigned; change (2 ^ 8) with 256;
          apply Z.mod_small; lia).
    tbl_fields. cbn [negb]. tbl_fields. rewrite U. repeat split.
Qed.

(** X11. The scheme that startup of part_000 selects, by the index [k]
    found in [Settings.pwm_value[5]]: for k in 1..3 the table of that
    index; for k outside 0..3 the table of index 1 (full step), which is
    also written back to [Settings]; for k = 0 no table at all, because
    [SelectScheme] takes 0 for the index that is already active: the
    driver then starts with [max_phase] 0 and the target 0 instead of the
    restored position. In every case the driver starts idle at phase
    index 0 with the position read from [Settings]. *)
Theorem Tbl_StepperInit_scheme
    (pin : pin_table) (stored : Tbl.settings) (teie t1l t1i : Z) :
  let s := Tbl.StepperInit pin stored teie t1l t1i in
  let k := Tbl.pwm_value_5 stored in
  Tbl.current_scheme_index s
  = (if (0 <=? k) && (k <=? 3) then k else 1)
  /\ Tbl.current_scheme s
     = (if k =? 0 then Tbl.null_scheme
        else nth (Z.to_nat (Tbl.current_scheme_index s)) Tbl.control_schemes
               Tbl.null_scheme)
  /\ Tbl.wanted_pos s = (if k =? 0 then 0 else Tbl.saved_pos stored)
  /\ Tbl.pwm_value_5 (Tbl.Settings s)
     = (if (0 <=? k) && (k <=? 3) then k else 1)
  /\ Tbl.current_pos s = Tbl.saved_pos stored
  /\ Tbl.idle s = true
  /\ Tbl.current_phase s = 0
  /\ Tbl.tick_us s = to_uint16 (Tbl.pwm_frequency stored).
Proof.
  exact (Tbl_StepperInit_fields pin stored teie t1l t1i).
Qed.

Lemma lor_land_absorb a b : Z.lor (Z.land a b) b = b.
Proof.
  apply Z.bits_inj; intros i. rewrite Z.lor_spec, Z.land_spec.
  destruct (Z.testbit a i), (Z.testbit b i); reflexivity.
Qed.

(** X12. A change of scheme leaves the Timer1 interrupt masked, also in
    the middle of a move. When the driver is not idle, [SelectScheme] ends
    with [TEIE |= ~TEIE1], which sets every bit of the register except the
    Timer1 one, so the register reads 0xFFFFFFFD: the driver is not idle,
    its target equals its position, and no tick is enabled to make it
    idle again. When the driver is idle the register only loses the Timer1
    bit. *)
Theorem Tbl_SelectScheme_masks_timer (n : Z) (s : Tbl.state) :
  0 <= n <= 3 -> n <> Tbl.current_scheme_index s ->
  let s' := snd (Tbl.SelectScheme n s) in
  fst (Tbl.SelectScheme n s) = true
  /\ timer_enabled (Tbl.TEIE s') = false
  /\ Tbl.TEIE s'
     = (if Tbl.idle s then teie_disable (Tbl.TEIE s) else 4294967293)
  /\ Tbl.idle s' = Tbl.idle s
  /\ Tbl.wanted_pos s' = Tbl.current_pos s'.
Proof.
  intros H E. cbv zeta. unfold Tbl.SelectScheme.
  change Tbl.SCHEMES_MAX with 4.
  destruct (Z.ltb_spec n 0); [lia|].
  destruct (Z.leb_spec 4 n); [lia|]. cbn [orb].
  destruct (Z.eqb_spec n (Tbl.current_scheme_index s)); [contradiction|].
  destruct s; tbl_fields. destruct idle; cbn [negb fst snd]; tbl_fields.
  - repeat split. apply timer_enabled_disable.
  - unfold teie_disable. rewrite lor_land_absorb. repeat split.
Qed.

(** X12 at work: scheme 1 selected during the move of the example. *)
Lemma Tbl_SelectScheme_masks_timer_witness :
  let s' := snd (Tbl.SelectScheme 1 tbl_moving) in
  fst (Tbl.SelectScheme 1 tbl_moving) = true
  /\ timer_enabled (Tbl.TEIE s') = false
  /\ Tbl.TEIE s' = 4294967293
  /\ Tbl.idle s' = false
  /\ Tbl.wanted_pos s' = Tbl.current_pos s'.
Proof.
  apply (Tbl_SelectScheme_masks_timer 1 tbl_moving).
  - lia.
  - vm_compute. discriminate.
Defined.

(** ** part_000: the reachable states and a restart *)

Lemma tbl_scheme_at k :
  0 <= k <= 3 ->
  0 < Tbl.max_phase (nth (Z.to_nat k) Tbl.control_schemes Tbl.null_scheme)
      <= 8
  /\ Tbl.max_phase (nth (Z.to_nat k) Tbl.control_schemes Tbl.null_scheme)
     = Z.of_nat (List.length
                   (Tbl.phases (nth (Z.to_nat k) Tbl.control_schemes
                                  Tbl.null_scheme))).
Proof.
  intros H.
  assert (k = 0 \/ k = 1 \/ k = 2 \/ k = 3) as K by lia.
  destruct K as [-> | [-> | [-> | ->]]]; vm_compute; repeat split;
    try reflexivity; discriminate.
Qed.

Lemma tbl_inv_valid s : tbl_inv s -> tbl_valid s.
Proof.
  intros [Hi Hs Hp Hc Hw _ _ _ _ _].
  destruct (tbl_scheme_at _ Hi) as [Hm Hl]. rewrite <- Hs in Hm, Hl.
  unfold tbl_valid. repeat split; try (apply Hc || apply Hw); lia.
Qed.

Lemma tbl_inv_select c s :
  tbl_inv s -> tbl_inv (snd (Tbl.SelectScheme c s)).
Proof.
  intros I. unfold Tbl.SelectScheme. change Tbl.SCHEMES_MAX with 4.
  destruct (Z.ltb_spec c 0); [exact I|].
  destruct (Z.leb_spec 4 c); [exact I|]. cbn [orb].
  destruct (Z.eqb_spec c (Tbl.current_scheme_index s)); [exact I|].
  assert (to_uint8 c = c) as U
    by (unfold to_uint8, wrap_unsigned; change (2 ^ 8) with 256;
        apply Z.mod_small; lia).
  destruct (tbl_scheme_at c) as [Hm _]; [lia|].
  destruct I as [Hi Hs Hp Hc Hw Hse Hsa His Hps Hpo].
  destruct s; tbl_fields. cbn [snd]. rewrite U.
  destruct idle; cbn [negb]; split; tbl_fields; auto; try lia.
Qed.

Lemma tbl_inv_calibrate s :
  tbl_inv s -> tbl_inv (snd (Tbl.StepperCmndCalibrate s)).
Proof.
  intros [Hi Hs Hp Hc Hw Hse Hsa His Hps Hpo].
  unfold Tbl.StepperCmndCalibrate. cbn [snd].
  destruct s; tbl_fields. split; tbl_fields; auto;
    try (unfold is_int16; lia).
Qed.

Lemma tbl_inv_speed data s :
  tbl_inv s -> tbl_inv (snd (Tbl.StepperCmndSpeed data s)).
Proof.
  intros I. rewrite Tbl_StepperCmndSpeed_args. unfold tbl_speed_effect.
  destruct (speed_args data) as [t c]. cbn [fst snd].
  set (s1 := match t with
             | Given v =>
                 if negb (to_uint16 v =? Tbl.tick_us s)
                 then Tbl.set_Settings
                        (Tbl.set_pwm_frequency (to_uint16 v) (Tbl.Settings s))
                        (Tbl.set_tick_us (to_uint16 v) s)
                 else s
             | _ => s
             end).
  assert (tbl_inv s1) as I1.
  { subst s1. destruct t as [| |v]; try exact I.
    destruct (negb _); [|exact I].
    pose proof (to_uint16_range v) as R.
    destruct I as [Hi Hs Hp Hc Hw Hse Hsa His Hps Hpo].
    destruct s; tbl_fields. split; tbl_fields; auto. }
  clearbody s1.
  destruct t as [| |v], c as [| |k]; cbn [snd]; try exact I1.
  all: pose proof (tbl_inv_select k s1 I1) as I2;
    destruct (Tbl.SelectScheme k s1) as [ok s2]; exact I2.
Qed.

Lemma tbl_inv_step gsn data s :
  tbl_inv s -> tbl_inv (snd (Tbl.StepperCmndStep gsn data s)).
Proof.
  intros [Hi Hs Hp Hc Hw Hse Hsa His Hps Hpo].
  rewrite Tbl_StepperCmndStep_args.
  unfold tbl_step_effect, tbl_start_move.
  destruct (step_args gsn data) as [[p a] l].
  destruct (well_formed p && well_formed a && well_formed l); cbn [snd].
  - assert (is_int16 (if field_or true a then to_int16 (field_or 0 p)
                      else to_int16 (Tbl.current_pos s
                                     + to_int16 (field_or 0 p)))) as Hr
      by (destruct (field_or true a); apply to_int16_range).
    revert Hr. generalize (if field_or true a then to_int16 (field_or 0 p)
                      else to_int16 (Tbl.current_pos s
                                     + to_int16 (field_or 0 p))).
    intros w Hr.
    destruct s; destruct l; tbl_fields;
      match goal with |- context [if ?b then _ else _] => destruct b end;
      split; tbl_fields; auto.
  - destruct s; split; tbl_fields; assumption.
Qed.

Lemma tbl_inv_tick s :
  tbl_inv s -> exists s', Tbl.stepper_timer_isr s = Some s' /\ tbl_inv s'.
Proof.
  intros I. pose proof (tbl_inv_valid s I) as V.
  destruct I as [Hi Hs Hp Hc Hw Hse Hsa His Hps Hpo].
  destruct (tbl_scheme_at _ Hi) as [Hm Hl]. rewrite <- Hs in Hm, Hl.
  destruct (Z.lt_total (Tbl.current_pos s) (Tbl.wanted_pos s))
    as [Hlt|[Heq|Hgt]].
  - destruct (Tbl_tick_up s V Hlt) as (st & Hst & ->).
    eexists; split; [reflexivity|].
    assert (0 <= (Tbl.current_phase s + 1)
                 mod Tbl.max_phase (Tbl.current_scheme s)
            < Tbl.max_phase (Tbl.current_scheme s)) as Hmod
      by (apply Z.mod_pos_bound; lia).
    unfold tbl_rearm, tbl_enter, is_int16 in *.
    destruct s; tbl_fields.
    destruct idle; [destruct Hse; [discriminate|lia]|].
    split; tbl_fields; auto; unfold is_int16; lia.
  - destruct (phase_at_in_range (Tbl.phases (Tbl.current_scheme s))
                (Tbl.current_phase s)) as [st0 Hst0]; [lia|].
    erewrite Tbl_tick_arrived; [ | auto | ].
    2:{ instantiate (1 := if Tbl.lock_when_done s then st0 else all_off).
        destruct (Tbl.lock_when_done s); [exact Hst0|reflexivity]. }
    eexists; split; [reflexivity|].
    pose proof (saved_pos_SaveCurrentPos
                  (Tbl.apply_phase
                     (if Tbl.lock_when_done s then st0 else all_off)
                     (tbl_enter s))) as Sv.
    unfold tbl_enter in *. destruct s; tbl_fields.
    split; tbl_fields; auto.
  - destruct (Tbl_tick_down s V Hgt) as (st & Hst & ->).
    eexists; split; [reflexivity|].
    assert (0 <= (Tbl.current_phase s - 1)
                 mod Tbl.max_phase (Tbl.current_scheme s)
            < Tbl.max_phase (Tbl.current_scheme s)) as Hmod
      by (apply Z.mod_pos_bound; lia).
    unfold tbl_rearm, tbl_enter, is_int16 in *.
    destruct s; tbl_fields.
    destruct idle; [destruct Hse; [discriminate|lia]|].
    split; tbl_fields; auto; unfold is_int16; lia.
Qed.

Lemma tbl_inv_run gsn es :
  forall s, tbl_inv s ->
  exists s', Tbl.run gsn es s = Some s' /\ tbl_inv s'.
Proof.
  induction es as [|e es IH]; intros s I.
  - exists s; split; [reflexivity|exact I].
  - cbn [Tbl.run]. destruct e; cbn [Tbl.step].
    + apply IH, tbl_inv_calibrate, I.
    + apply IH, tbl_inv_speed, I.
    + apply IH, tbl_inv_step, I.
    + destruct (tbl_inv_tick s I) as (s1 & -> & I1). apply IH, I1.
Qed.

Lemma tbl_inv_init pin stored teie t1l t1i :
  Tbl.pwm_value_5 stored <> 0 -> is_uint16 (Tbl.pwm_frequency stored) ->
  tbl_inv (Tbl.StepperInit pin stored teie t1l t1i).
Proof.
  intros Hk Hf.
  pose proof (Tbl_StepperInit_fields pin stored teie t1l t1i) as H.
  cbv zeta in H. destruct H as (Hi & Hs & Hw & H5 & Hc & Hid & Hp & Ht).
  destruct (Z.eqb_spec (Tbl.pwm_value_5 stored) 0); [contradiction|].
  assert (0 <= Tbl.current_scheme_index
                 (Tbl.StepperInit pin stored teie t1l t1i) <= 3) as Hr.
  { rewrite Hi.
    destruct (Z.leb_spec 0 (Tbl.pwm_value_5 stored)),
      (Z.leb_spec (Tbl.pwm_value_5 stored) 3); cbn [andb]; lia. }
  destruct (tbl_scheme_at _ Hr) as [Hm _].
  assert (Tbl.pwm_frequency
            (Tbl.Settings (Tbl.StepperInit pin stored teie t1l t1i))
          = Tbl.pwm_frequency stored
          /\ Tbl.saved_pos
               (Tbl.Settings (Tbl.StepperInit pin stored teie t1l t1i))
             = Tbl.saved_pos stored) as [Hq Hsv].
  { unfold Tbl.StepperInit, Tbl.SelectScheme.
    repeat match goal with
           | |- context [if ?b then _ else _] => destruct b
           end; split; reflexivity. }
  split.
  - exact Hr.
  - exact Hs.
  - rewrite Hp, Hs. lia.
  - rewrite Hc. apply to_int16_range.
  - rewrite Hw. apply to_int16_range.
  - right. congruence.
  - right. congruence.
  - congruence.
  - rewrite Hq, Ht. symmetry. apply to_uint16_id, Hf.
  - rewrite Ht. apply to_uint16_range.
Qed.

(** X13. What part_000 keeps true when it starts with a scheme index
    other than 0 and a 16-bit period in [Settings]. After startup and any
    Calibrate, Speed and Step commands and ticks the run is still going (no
    read outside the table); the loaded table is the one of
    [current_scheme_index], which lies in 0..3; the phase index is inside
    it; the driver is idle only with [wanted_pos = current_pos]; and
    [Settings] mirrors the state: the period and the scheme index always,
    the position whenever the driver is idle. *)
Theorem Tbl_reachable_invariant
    (GetStateNumber : string -> Z) (pin : pin_table)
    (stored : Tbl.settings) (teie t1l t1i : Z) (es : list Tbl.event) :
  Tbl.pwm_value_5 stored <> 0 -> is_uint16 (Tbl.pwm_frequency stored) ->
  exists s,
    Tbl.run GetStateNumber es (Tbl.StepperInit pin stored teie t1l t1i)
    = Some s
    /\ 0 <= Tbl.current_scheme_index s <= 3
    /\ Tbl.current_scheme s
       = nth (Z.to_nat (Tbl.current_scheme_index s)) Tbl.control_schemes
           Tbl.null_scheme
    /\ 0 <= Tbl.current_phase s < Tbl.max_phase (Tbl.current_scheme s)
    /\ (Tbl.idle s = false \/ Tbl.wanted_pos s = Tbl.current_pos s)
    /\ Tbl.pwm_frequency (Tbl.Settings s) = Tbl.tick_us s
    /\ Tbl.pwm_value_5 (Tbl.Settings s) = Tbl.current_scheme_index s
    /\ (Tbl.idle s = false
        \/ Tbl.saved_pos (Tbl.Settings s) = Tbl.current_pos s).
Proof.
  intros Hk Hf.
  destruct (tbl_inv_run GetStateNumber es _
              (tbl_inv_init pin stored teie t1l t1i Hk Hf))
    as (s & R & [Hi Hs Hp Hc Hw Hse Hsa His Hps Hpo]).
  exists s. split; [exact R|].
  split; [exact Hi|]. split; [exact Hs|]. split; [exact Hp|].
  split; [exact Hse|]. split; [exact Hps|]. split; [exact His|exact Hsa].
Qed.

(** X13 at work: a move, a change of scheme and a period on the example
    board. *)
Lemma Tbl_reachable_invariant_witness :
  exists s,
    Tbl.run no_state_word
      [Tbl.Step "3"; Tbl.Tick; Tbl.Speed "1500,1"; Tbl.Tick]
      (Tbl.StepperInit all_pins tbl_stored 0 0 0) = Some s
    /\ 0 <= Tbl.current_scheme_index s <= 3
    /\ Tbl.current_scheme s
       = nth (Z.to_nat (Tbl.current_scheme_index s)) Tbl.control_schemes
           Tbl.null_scheme
    /\ 0 <= Tbl.current_phase s < Tbl.max_phase (Tbl.current_scheme s)
    /\ (Tbl.idle s = false \/ Tbl.wanted_pos s = Tbl.current_pos s)
    /\ Tbl.pwm_frequency (Tbl.Settings s) = Tbl.tick_us s
    /\ Tbl.pwm_value_5 (Tbl.Settings s) = Tbl.current_scheme_index s
    /\ (Tbl.idle s = false
        \/ Tbl.saved_pos (Tbl.Settings s) = Tbl.current_pos s).
Proof.
  apply Tbl_reachable_invariant.
  - vm_compute. discriminate.
  - vm_compute. split; discriminate.
Defined.

(** X14. A restart gives back what an idle driver had. Under the
    conditions of X13, if the state reached is idle, then [StepperInit] run
    on the [Settings] it left (on any pin table and timer registers)
    restores the position and the period, starts idle at that position,
    and restores the scheme table and its index unless the index is 0, in
    which case it loads no table. *)
Theorem Tbl_restart_restores
    (GetStateNumber : string -> Z) (pin pin' : pin_table)
    (stored : Tbl.settings) (teie t1l t1i teie' t1l' t1i' : Z)
    (es : list Tbl.event) :
  Tbl.pwm_value_5 stored <> 0 -> is_uint16 (Tbl.pwm_frequency stored) ->
  exists s,
    Tbl.run GetStateNumber es (Tbl.StepperInit pin stored teie t1l t1i)
    = Some s
    /\ (Tbl.idle s = true ->
        let r := Tbl.StepperInit pin' (Tbl.Settings s) teie' t1l' t1i' in
        Tbl.current_pos r = Tbl.current_pos s
        /\ Tbl.tick_us r = Tbl.tick_us s
        /\ Tbl.idle r = true
        /\ Tbl.current_scheme_index r = Tbl.current_scheme_index s
        /\ (if Tbl.current_scheme_index s =? 0
            then Tbl.current_scheme r = Tbl.null_scheme
            else Tbl.current_scheme r = Tbl.current_scheme s
                 /\ Tbl.wanted_pos r = Tbl.wanted_pos s)).
Proof.
  intros Hk Hf.
  destruct (tbl_inv_run GetStateNumber es _
              (tbl_inv_init pin stored teie t1l t1i Hk Hf))
    as (s & R & [Hi Hs Hp Hc Hw Hse Hsa His Hps Hpo]).
  exists s. split; [exact R|]. intros Hid. cbv zeta.
  destruct Hse as [Hse|Hse]; [congruence|].
  destruct Hsa as [Hsa|Hsa]; [congruence|].
  pose proof (Tbl_StepperInit_fields pin' (Tbl.Settings s) teie' t1l' t1i')
    as H.
  cbv zeta in H. destruct H as (Ki & Ks & Kw & _ & Kc & Kid & _ & Kt).
  rewrite His in *.
  assert ((0 <=? Tbl.current_scheme_index s)
          && (Tbl.current_scheme_index s <=? 3) = true) as Hb
    by (apply andb_true_iff; split; apply Z.leb_le; lia).
  rewrite Hb in Ki.
  split; [congruence|].
  split; [rewrite Kt, Hps; apply to_uint16_id, Hpo|].
  split; [exact Kid|]. split; [exact Ki|].
  destruct (Tbl.current_scheme_index s =? 0); [exact Ks|].
  split; [rewrite Ks, Ki; symmetry; exact Hs|congruence].
Qed.

(** X14 at work: a move to 3 that has arrived, then a restart. *)
Lemma Tbl_restart_restores_witness :
  exists s,
    Tbl.run no_state_word
      [Tbl.Step "3"; Tbl.Tick; Tbl.Tick; Tbl.Tick; Tbl.Tick]
      (Tbl.StepperInit all_pins tbl_stored 0 0 0) = Some s
    /\ Tbl.idle s = true
    /\ Tbl.current_pos s = 3
    /\ Tbl.current_pos (Tbl.StepperInit no_enable_pins (Tbl.Settings s) 0 0 0)
       = 3.
Proof.
  assert (Tbl.pwm_value_5 tbl_stored <> 0) as Hk
    by (vm_compute; discriminate).
  assert (is_uint16 (Tbl.pwm_frequency tbl_stored)) as Hf
    by (vm_compute; split; discriminate).
  destruct (Tbl_restart_restores no_state_word all_pins no_enable_pins
              tbl_stored 0 0 0 0 0 0
              [Tbl.Step "3"; Tbl.Tick; Tbl.Tick; Tbl.Tick; Tbl.Tick]
              Hk Hf) as (s & R & H).
  exists s. split; [exact R|].
  assert (Some s = Some (match Tbl.run no_state_word
              [Tbl.Step "3"; Tbl.Tick; Tbl.Tick; Tbl.Tick; Tbl.Tick]
              (Tbl.StepperInit all_pins tbl_stored 0 0 0) with
                         | Some x => x | None => s end)) as E
    by (rewrite R; reflexivity).
  vm_compute in E. injection E as E.
  assert (Tbl.idle s = true) as I by (rewrite E; reflexivity).
  assert (Tbl.current_pos s = 3) as P by (rewrite E; reflexivity).
  destruct (H I) as (Hp & _).
  split; [exact I|]. split; [exact P|]. rewrite Hp. exact P.
Defined.

(** ** part_001: command data without a token *)

Ltac poll_all :=
  cbn [Poll.next_tick_time Poll.tick_ms Poll.enabled Poll.have_enable_pins
       Poll.current_scheme Poll.max_phase Poll.current_phase Poll.current_pos
       Poll.wanted_pos Poll.idle Poll.lock_when_done Poll.pins
       Poll.set_current_phase Poll.set_current_pos Poll.set_wanted_pos
       Poll.set_idle Poll.set_lock_when_done Poll.apply_phase
       Poll.set_next_tick_time Poll.set_tick_ms Poll.set_scheme
       Poll.set_pins] in *.

Lemma skip_delims_only_commas s :
  nonempty (skip_delims comma s) = negb (only_commas s).
Proof.
  induction s as [|c r IH]; [reflexivity|].
  cbn [skip_delims only_commas comma in_set]. rewrite orb_false_r.
  destruct (Ascii.eqb c ","); [exact IH|reflexivity].
Qed.

Lemma has_token_only_commas data :
  has_token data = negb (only_commas (c_str data)).
Proof.
  rewrite <- skip_delims_only_commas.
  unfold has_token, token1, strtok_r.
  destruct (skip_delims comma (c_str data)) as [|c r]; [reflexivity|].
  destruct (split_token comma (String c r)); reflexivity.
Qed.

Lemma Poll_StepperCmndSpeed_None data s :
  Poll.StepperCmndSpeed data s = None <-> has_token data = false.
Proof.
  unfold Poll.StepperCmndSpeed, has_token, token1, comma.
  destruct (strtok_r (Some (c_str data)) "," "") as [[str|] tok];
    cbn [fst]; split; intros H; try discriminate; reflexivity.
Qed.

Lemma Poll_StepperCmndStep_None gsn data s :
  Poll.StepperCmndStep gsn data s = None <-> has_token data = false.
Proof.
  unfold Poll.StepperCmndStep, has_token, token1, comma.
  destruct (strtok_r (Some (c_str data)) "," "") as [[str|] tok];
    cbn [fst]; split; intros H; try discriminate; reflexivity.
Qed.

(** X15. In part_001 the speed and the step handler use the first result
    of [strtok_r] without testing it for NULL. They read through the null
    pointer exactly when the command data, up to its first NUL, is empty or
    made of commas only; through [Xdrv23] this happens exactly when in
    addition the module is enabled. Calibrate, a command that is not in the
    table and every command to a module that is not enabled are safe. *)
Theorem Poll_commands_need_a_token
    (GetStateNumber : string -> Z) (data : string) (s : Poll.state) :
  (Poll.StepperCmndSpeed data s = None
   <-> only_commas (c_str data) = true)
  /\ (Poll.StepperCmndStep GetStateNumber data s = None
      <-> only_commas (c_str data) = true)
  /\ (forall k,
        Poll.Xdrv23 GetStateNumber (Poll.FUNC_COMMAND (Some k) data) s = None
        <-> (k = 1%nat \/ k = 2%nat) /\ Poll.enabled s = true
            /\ only_commas (c_str data) = true)
  /\ Poll.Xdrv23 GetStateNumber (Poll.FUNC_COMMAND None data) s <> None.
Proof.
  assert (has_token data = false <-> only_commas (c_str data) = true) as T.
  { rewrite has_token_only_commas.
    destruct (only_commas (c_str data)); cbn; split; congruence. }
  pose proof (Poll_StepperCmndSpeed_None data s) as P1.
  pose proof (Poll_StepperCmndStep_None GetStateNumber data s) as P2.
  rewrite T in P1, P2.
  split; [exact P1|]. split; [exact P2|]. split.
  - intros k. unfold Poll.Xdrv23, Poll.DecodeCommand, Poll.StepperCommand.
    destruct (Poll.enabled s).
    + destruct k as [|[|[|k]]]; cbn [nth_error option_map].
      * split; [discriminate|]. intros ([K|K] & _); discriminate.
      * destruct (Poll.StepperCmndSpeed data s) as [r|] eqn:E;
          cbn [option_map].
        -- split; [discriminate|]. intros (_ & _ & C).
           apply P1 in C. discriminate.
        -- split; [|reflexivity]. intros _.
           split; [left; reflexivity|]. split; [reflexivity|].
           apply P1. reflexivity.
      * destruct (Poll.StepperCmndStep GetStateNumber data s) as [r|] eqn:E;
          cbn [option_map].
        -- split; [discriminate|]. intros (_ & _ & C).
           apply P2 in C. discriminate.
        -- split; [|reflexivity]. intros _.
           split; [right; reflexivity|]. split; [reflexivity|].
           apply P2. reflexivity.
      * destruct k; cbn [nth_error];
          (split; [discriminate|]); intros ([K|K] & _); discriminate.
    + split; [discriminate|]. intros (_ & C & _). discriminate.
  - unfold Poll.Xdrv23, Poll.DecodeCommand.
    destruct (Poll.enabled s); discriminate.
Qed.

(** ** part_001: the reachable states *)

Lemma poll_inv_valid s : poll_inv s -> poll_valid s.
Proof.
  intros [Hs Hp Hc Hw _]. destruct (builtin_length _ _ Hs) as [Hl Hn].
  unfold poll_valid. repeat split; try (apply Hc || apply Hw); lia.
Qed.

Lemma poll_inv_init pin : poll_inv (Poll.StepperInit pin).
Proof.
  unfold Poll.StepperInit. split; poll_all.
  - unfold builtin_schemes; simpl; auto.
  - lia.
  - unfold is_int32; lia.
  - unfold is_int32; lia.
  - right; reflexivity.
Qed.

Lemma poll_inv_frame s nt pn :
  poll_inv s -> poll_inv (Poll.set_next_tick_time nt (Poll.set_pins pn s)).
Proof.
  intros [Hs Hp Hc Hw Hi]. destruct s; split; poll_all; assumption.
Qed.

Lemma poll_inv_calibrate s :
  poll_inv s -> poll_inv (snd (Poll.StepperCmndCalibrate s)).
Proof.
  intros [Hs Hp Hc Hw Hi]. unfold Poll.StepperCmndCalibrate.
  destruct s; poll_all. cbn [snd]. split; poll_all; auto;
    unfold is_int32; lia.
Qed.

Lemma poll_scheme_switch_builtin c s :
  (exists tbl n,
     In (tbl, n) builtin_schemes
     /\ Poll.scheme_switch c s = Next tt (Poll.set_scheme tbl n s))
  \/ Poll.scheme_switch c s = Exit Error s.
Proof.
  unfold Poll.scheme_switch, modify, fail, builtin_schemes.
  destruct c as [|q|q]; [ | | right; reflexivity].
  - left. eexists _, _. split; [|reflexivity]. simpl; auto.
  - destruct q as [[q|q|]|[q|q|]|]; try (right; reflexivity);
      left; eexists _, _; (split; [|reflexivity]); simpl; auto.
Qed.

Lemma poll_inv_speed data s r :
  poll_inv s -> Poll.StepperCmndSpeed data s = Some r -> poll_inv (snd r).
Proof.
  intros I. unfold Poll.StepperCmndSpeed.
  destruct (strtok_r (Some (c_str data)) "," "") as [[str|] tok];
    [|discriminate].
  intros E; injection E as <-.
  assert (forall v, poll_inv (Poll.set_tick_ms v s)) as It
    by (intros v; destruct I; destruct s; split; poll_all; assumption).
  unfold handler, bind, modify, ret, fail.
  destruct (nonempty (skip_isspace str));
    [ destruct (strtol (skip_isspace str)) as [v [|n]]; cbn [Nat.eqb];
      [ cbn [snd]; apply It | ] | ].
  all: destruct (strtok_r None "," tok) as [[str0|] tok'];
    [ | cbn [snd]; first [apply It | exact I] ].
  all: destruct (nonempty (skip_isspace str0));
    [ | cbn [snd]; first [apply It | exact I] ].
  all: destruct (strtol (skip_isspace str0)) as [c [|m]]; cbn [Nat.eqb];
    [ cbn [snd]; first [apply It | exact I] | ].
  all: match goal with
       | |- context [Poll.scheme_switch ?cv ?s1] =>
           destruct (poll_scheme_switch_builtin cv s1)
             as [(tbl & k & B & ->)| ->];
           [ | cbn [snd]; first [apply It | exact I] ]
       end.
  all: cbn [snd]; destruct (builtin_length _ _ B) as [_ Hn];
    destruct I; destruct s; split; poll_all; auto; lia.
Qed.

Lemma poll_inv_step gsn data s r :
  poll_inv s -> Poll.StepperCmndStep gsn data s = Some r -> poll_inv (snd r).
Proof.
  intros [Hs Hp Hc Hw Hi]. rewrite Poll_StepperCmndStep_args.
  unfold poll_step_effect.
  destruct (step_args gsn data) as [[p a] l].
  destruct (has_token data); [|discriminate].
  intros E; injection E as <-.
  destruct (well_formed p && well_formed a && well_formed l); cbn [snd].
  - assert (is_int32 (if field_or true a
                      then to_int32 (Poll.current_pos s
                                     + to_int32 (field_or 0 p))
                      else to_int32 (field_or 0 p))) as Hr
      by (destruct (field_or true a); apply to_int32_range).
    revert Hr. generalize (if field_or true a
                      then to_int32 (Poll.current_pos s
                                     + to_int32 (field_or 0 p))
                      else to_int32 (field_or 0 p)).
    intros w Hr.
    destruct s; destruct l; split; poll_all; auto.
  - destruct s; split; poll_all; assumption.
Qed.

Lemma poll_inv_tick s :
  poll_inv s -> exists s', Poll.StepperTick s = Some s' /\ poll_inv s'.
Proof.
  intros I. pose proof (poll_inv_valid s I) as V.
  destruct I as [Hs Hp Hc Hw Hi].
  destruct (builtin_length _ _ Hs) as [Hl Hn].
  destruct (Z.lt_total (Poll.current_pos s) (Poll.wanted_pos s))
    as [Hlt|[Heq|Hgt]].
  - destruct (Poll_tick_up s V Hlt) as (st & Hst & ->).
    eexists; split; [reflexivity|].
    assert (0 <= (Poll.current_phase s + 1) mod Poll.max_phase s
            < Poll.max_phase s) as Hm by (apply Z.mod_pos_bound; lia).
    unfold is_int32 in *. destruct s; poll_all.
    destruct idle; [destruct Hi; [discriminate|lia]|].
    split; poll_all; auto; unfold is_int32; lia.
  - destruct (phase_at_in_range (Poll.current_scheme s)
                (Poll.current_phase s)) as [st0 Hst0]; [lia|].
    unfold Poll.StepperTick. rewrite Heq, Z.ltb_irrefl.
    exists (Poll.set_idle true
              (Poll.apply_phase
                 (if Poll.lock_when_done s then st0 else all_off) s)).
    split.
    + destruct (Poll.lock_when_done s); [rewrite Hst0|]; reflexivity.
    + destruct s; split; poll_all; auto.
  - destruct (Poll_tick_down s V Hgt) as (st & Hst & ->).
    eexists; split; [reflexivity|].
    assert (0 <= (Poll.current_phase s - 1) mod Poll.max_phase s
            < Poll.max_phase s) as Hm by (apply Z.mod_pos_bound; lia).
    unfold is_int32 in *. destruct s; poll_all.
    destruct idle; [destruct Hi; [discriminate|lia]|].
    split; poll_all; auto; unfold is_int32; lia.
Qed.

Lemma poll_inv_call gsn f s :
  poll_inv s -> poll_call_ok f = true ->
  exists b s', Poll.Xdrv23 gsn f s = Some (b, s') /\ poll_inv s'.
Proof.
  intros I Ok. destruct f as [pin|command data|reached next|].
  - eexists _, _. split; [reflexivity|].
    apply poll_inv_frame, poll_inv_init.
  - unfold Poll.Xdrv23, Poll.DecodeCommand, Poll.StepperCommand.
    destruct (Poll.enabled s); [|eexists _, _; split; [reflexivity|exact I]].
    destruct command as [[|[|[|k]]]|]; cbn [nth_error option_map].
    + eexists _, _. split; [reflexivity|].
      apply poll_inv_calibrate, I.
    + cbn [poll_call_ok] in Ok.
      destruct (Poll.StepperCmndSpeed data s) as [r|] eqn:E.
      * eexists _, _. split; [reflexivity|].
        exact (poll_inv_speed data s r I E).
      * apply Poll_StepperCmndSpeed_None in E. congruence.
    + cbn [poll_call_ok] in Ok.
      destruct (Poll.StepperCmndStep gsn data s) as [r|] eqn:E.
      * eexists _, _. split; [reflexivity|].
        exact (poll_inv_step gsn data s r I E).
      * apply Poll_StepperCmndStep_None in E. congruence.
    + destruct k; eexists _, _; (split; [reflexivity|exact I]).
    + eexists _, _; split; [reflexivity|exact I].
  - unfold Poll.Xdrv23.
    destruct (Poll.enabled s); [|eexists _, _; split; [reflexivity|exact I]].
    destruct (negb (Poll.idle s) && reached);
      [|eexists _, _; split; [reflexivity|exact I]].
    assert (poll_inv (Poll.set_next_tick_time next s)) as I'
      by (destruct I; destruct s; split; poll_all; assumption).
    destruct (poll_inv_tick _ I') as (s' & -> & Is').
    eexists _, _. split; [reflexivity|exact Is'].
  - unfold Poll.Xdrv23.
    destruct (Poll.enabled s); eexists _, _; (split; [reflexivity|exact I]).
Qed.

Lemma poll_inv_run gsn calls :
  forall s, poll_inv s -> forallb poll_call_ok calls = true ->
  exists s', Poll.run gsn calls s = Some s' /\ poll_inv s'.
Proof.
  induction calls as [|f calls IH]; intros s I Ok.
  - exists s; split; [reflexivity|exact I].
  - cbn [forallb] in Ok. apply andb_true_iff in Ok as [Of Ok].
    cbn [Poll.run].
    destruct (poll_inv_call gsn f s I Of) as (b & s1 & -> & I1).
    exact (IH s1 I1 Ok).
Qed.

(** X16. What part_001 keeps true through its dispatcher. After startup
    and any calls of [Xdrv23] (FUNC_INIT again, commands with any data,
    FUNC_LOOP whatever the clock says, other functions), none of which
    hands data without a token to the speed or step handler, the run is
    still going: [StepperTick] never reads outside the scheme table. The
    scheme is one of the four built-in tables, [max_phase] is its length,
    the phase index is inside it, and the driver is idle only with
    [wanted_pos = current_pos]. *)
Theorem Poll_reachable_invariant
    (GetStateNumber : string -> Z) (pin : pin_table)
    (calls : list Poll.xdrv_function) :
  forallb poll_call_ok calls = true ->
  exists s,
    Poll.run GetStateNumber calls (Poll.StepperInit pin) = Some s
    /\ In (Poll.current_scheme s)
          [rotating_wave; full_step; half_step; half_step_inhibit]
    /\ Poll.max_phase s = Z.of_nat (List.length (Poll.current_scheme s))
    /\ 0 <= Poll.current_phase s < Poll.max_phase s
    /\ (Poll.idle s = false \/ Poll.wanted_pos s = Poll.current_pos s).
Proof.
  intros Ok.
  destruct (poll_inv_run GetStateNumber calls _ (poll_inv_init pin) Ok)
    as (s & R & [Hs Hp _ _ Hi]).
  exists s. split; [exact R|].
  destruct (builtin_length _ _ Hs) as [Hl _].
  split; [|split; [exact Hl|split; [exact Hp|exact Hi]]].
  unfold builtin_schemes in Hs; simpl in Hs |- *.
  destruct Hs as [E|[E|[E|[E|[]]]]]; inversion E; auto.
Qed.

(** X16 at work: a scheme, a move and two due ticks on the example
    board. *)
Lemma Poll_reachable_invariant_witness :
  exists s,
    Poll.run no_state_word
      [Poll.FUNC_COMMAND (Some 1%nat) "20,1";
       Poll.FUNC_COMMAND (Some 2%nat) "2";
       Poll.FUNC_LOOP true 20; Poll.FUNC_LOOP false 0;
       Poll.FUNC_LOOP true 40]
      (Poll.StepperInit all_pins) = Some s
    /\ In (Poll.current_scheme s)
          [rotating_wave; full_step; half_step; half_step_inhibit]
    /\ Poll.max_phase s = Z.of_nat (List.length (Poll.current_scheme s))
    /\ 0 <= Poll.current_phase s < Poll.max_phase s
    /\ (Poll.idle s = false \/ Poll.wanted_pos s = Poll.current_pos s).
Proof.
  apply Poll_reachable_invariant. reflexivity.
Defined.

(** ** part_001: which boards are enabled *)

(** X17. part_001 computes [enabled] from the B enable pin where the other
    revisions use the B positive pin. A board whose B enable pin is not
    configured is therefore never enabled, whatever its direction pins:
    startup writes no pin, and afterwards [Xdrv23] changes nothing and
    returns false for every function other than FUNC_INIT. The B positive
    pin plays no part in the decision. *)
Theorem Poll_needs_B_enable_pin
    (GetStateNumber : string -> Z) (pin : pin_table)
    (calls : list Poll.xdrv_function) :
  99 <= GPIO_STEPPER_B_ENA pin ->
  forallb (fun f => negb (poll_is_init f)) calls = true ->
  let s0 := Poll.StepperInit pin in
  Poll.enabled s0 = false
  /\ Poll.pins s0 = []
  /\ Poll.run GetStateNumber calls s0 = Some s0
  /\ (forall f, poll_is_init f = false ->
        Poll.Xdrv23 GetStateNumber f s0 = Some (false, s0))
  /\ forall v,
       Poll.enabled
         (Poll.StepperInit
            (mk_pins (GPIO_STEPPER_A_ENA pin) (GPIO_STEPPER_A_POS pin)
               (GPIO_STEPPER_A_NEG pin) (GPIO_STEPPER_B_ENA pin) v
               (GPIO_STEPPER_B_NEG pin))) = false.
Proof.
  intros M Ok. cbv zeta.
  assert (forall p, 99 <= GPIO_STEPPER_B_ENA p ->
            Poll.StepperInit p
            = Poll.mk_state 0 10 false false half_step 8 0 0 0 true false [])
    as Init.
  { intros p Mp. unfold Poll.StepperInit, Poll.configured.
    destruct (Z.ltb_spec (GPIO_STEPPER_B_ENA p) 99); [lia|].
    rewrite ?andb_false_r. cbn [andb]. reflexivity. }
  assert (forall f, poll_is_init f = false ->
            Poll.Xdrv23 GetStateNumber f (Poll.StepperInit pin)
            = Some (false, Poll.StepperInit pin)) as Inert.
  { intros f Hf. rewrite (Init pin M).
    destruct f; try discriminate; reflexivity. }
  split; [rewrite (Init pin M); reflexivity|].
  split; [rewrite (Init pin M); reflexivity|].
  split; [|split; [exact Inert|]].
  - induction calls as [|f calls IH]; [reflexivity|].
    cbn [forallb] in Ok. apply andb_true_iff in Ok as [Of Ok].
    cbn [Poll.run]. rewrite Inert.
    + exact (IH Ok).
    + destruct (poll_is_init f); [discriminate|reflexivity].
  - intros v. rewrite Init; [reflexivity|exact M].
Qed.

(** X17 at work: the four-wire board of the examples, which
    xdrv_23_stepper.ino drives. *)
Lemma Poll_needs_B_enable_pin_witness :
  let s0 := Poll.StepperInit no_enable_pins in
  Poll.enabled s0 = false
  /\ Poll.pins s0 = []
  /\ Poll.run no_state_word
       [Poll.FUNC_COMMAND (Some 2%nat) "5"; Poll.FUNC_LOOP true 10] s0
     = Some s0
  /\ Isr.enabled (Isr.StepperInit no_enable_pins 0 0 0) = true.
Proof.
  destruct (Poll_needs_B_enable_pin no_state_word no_enable_pins
              [Poll.FUNC_COMMAND (Some 2%nat) "5"; Poll.FUNC_LOOP true 10])
    as (E & P & R & _).
  - vm_compute. discriminate.
  - reflexivity.
  - cbv zeta. split; [exact E|]. split; [exact P|].
    split; [exact R|reflexivity].
Defined.
